(** * ixdat: the OceanView time-series reader

    A shallow embedding of [src/ixdat/readers/oceanview.py]
    (class [OceanViewTimeSeriesReader]) together with the parts of the
    Python runtime the reader calls: [str] methods, the backtracking
    [re] engine on the patterns the reader uses, [float()],
    [datetime.strptime], [pathlib.PurePosixPath] and binary64 arithmetic.

    Conventions.
    - A Python [str] is a [string]; a character is a code point below 256
      and the character tables are Python's on that range.
    - A binary64 value is a [spec_float] of the Standard Library at
      precision 53 and maximal exponent 1024.
    - An exception is a value of [exn]; code that can raise returns
      [result A].
    - What [read] takes from its environment is an argument: the lines
      that [f.readlines()] returned, and the local-time rule [mktime] of
      the platform, which gives the seconds of a naive date-time or the
      error that [timestamp()] raises for it. Month and weekday names are
      those of the C locale. *)

From Stdlib Require Import Bool Arith NArith ZArith Lia List String Ascii.
From Stdlib Require Import SpecFloat.
Import ListNotations.

Open Scope string_scope.
Open Scope nat_scope.

(* ================================================================== *)
(** ** Exceptions and the error monad *)

(** The [ValueError]s of the reader are told apart by their message. *)
Inductive value_error : Type :=
| CouldNotParseHeaderDate (raw : string)
    (* "Could not parse header date: {date_str!r}" *)
| NoSpectralDataSection
    (* "No spectral data section found!" *)
| WavelengthLineEmpty
    (* "OceanView: wavelength line is empty or malformed" *)
| EmptyLine
    (* "empty line" *)
| UnpackMismatch
    (* "not enough values to unpack (expected 2, got 1)" *)
| CouldNotConvertToFloat (tok : string)
    (* float(): "could not convert string to float: ..." *)
| NeedAtLeastOneArray
    (* np.stack: "need at least one array to stack" *)
| ArraysMustHaveSameShape
    (* np.stack: "all input arrays must have the same shape" *)
| YearOutOfRange (y : Z).
    (* datetime.timestamp(): "year {y} is out of range" *)

Inductive exn : Type :=
| ValueError (e : value_error)
| AttributeError (obj attr : string)
    (* "'NoneType' object has no attribute 'timestamp'" *)
| IndexError
    (* "list index out of range" *)
| OverflowError
    (* "timestamp out of range for platform time_t" *)
| OSError.
    (* the [errno] of the platform's [localtime] *)

(** What [timestamp()] of a naive [datetime] can raise: the local-time
    rules led to a year outside 1..9999, the instant does not fit the
    platform's [time_t], or the platform's [localtime] failed. *)
Inductive time_error : Type :=
| BadYear (y : Z)
| TimeTOverflow
| LocaltimeFailed.

Definition time_exn (e : time_error) : exn :=
  match e with
  | BadYear y => ValueError (YearOutOfRange y)
  | TimeTOverflow => OverflowError
  | LocaltimeFailed => OSError
  end.

Inductive result (A : Type) : Type :=
| Ok (a : A)
| Raise (e : exn).
Arguments Ok {A} a.
Arguments Raise {A} e.

Definition bind {A B} (r : result A) (f : A -> result B) : result B :=
  match r with
  | Ok a => f a
  | Raise e => Raise e
  end.

Notation "x <- r ;; k" := (bind r (fun x => k))
  (at level 61, r at next level, right associativity).
Notation "' p <- r ;; k" := (bind r (fun p => k))
  (at level 61, p pattern, r at next level, right associativity).

Definition is_ok {A} (r : result A) : bool :=
  match r with Ok _ => true | Raise _ => false end.

(** [l[i]] for a non-negative index. *)
Definition index {A} (l : list A) (i : nat) : result A :=
  match nth_error l i with
  | Some a => Ok a
  | None => Raise IndexError
  end.

(* ================================================================== *)
(** ** Python strings *)

Module PyStr.

Definition code (c : ascii) : N := N_of_ascii c.

Definition in_range (lo hi : N) (c : ascii) : bool :=
  (lo <=? code c)%N && (code c <=? hi)%N.

(** [str.isspace] on one character, which is also what [\s] matches:
    TAB LF VT FF CR, FS GS RS US, SPACE, NEL and NBSP. *)
Definition isspace (c : ascii) : bool :=
  in_range 9 13 c || in_range 28 32 c
  || (code c =? 133)%N || (code c =? 160)%N.

(** [\d]: a decimal digit. *)
Definition isdigit (c : ascii) : bool := in_range 48 57 c.

Definition isupper (c : ascii) : bool := in_range 65 90 c.
Definition islower (c : ascii) : bool := in_range 97 122 c.

(** [\w]: alphanumeric or underscore ([str.isalnum] on code points
    below 256). *)
Definition isword (c : ascii) : bool :=
  isdigit c || isupper c || islower c || (code c =? 95)%N
  || (code c =? 170)%N || (code c =? 178)%N || (code c =? 179)%N
  || (code c =? 181)%N || (code c =? 185)%N || (code c =? 186)%N
  || in_range 188 190 c || in_range 192 214 c
  || in_range 216 246 c || in_range 248 255 c.

Definition lower_char (c : ascii) : ascii :=
  if isupper c || in_range 192 214 c || in_range 216 222 c
  then ascii_of_N (code c + 32) else c.

Definition upper_char (c : ascii) : ascii :=
  if islower c || in_range 224 246 c || in_range 248 254 c
  then ascii_of_N (code c - 32) else c.

Fixpoint lower (s : string) : string :=
  match s with
  | "" => ""
  | String c s' => String (lower_char c) (lower s')
  end.

Fixpoint lstrip (s : string) : string :=
  match s with
  | "" => ""
  | String c s' => if isspace c then lstrip s' else s
  end.

Fixpoint rstrip (s : string) : string :=
  match s with
  | "" => ""
  | String c s' =>
      match rstrip s' with
      | "" => if isspace c then "" else String c ""
      | r => String c r
      end
  end.

Definition strip (s : string) : string := rstrip (lstrip s).

Definition startswith (s p : string) : bool := String.prefix p s.

Fixpoint contains (c : ascii) (s : string) : bool :=
  match s with
  | "" => false
  | String a s' => Ascii.eqb a c || contains c s'
  end.

(** [any(p(c) for c in s)] *)
Fixpoint any (p : ascii -> bool) (s : string) : bool :=
  match s with
  | "" => false
  | String a s' => p a || any p s'
  end.

(** [s.split(sep, 1)] for a one-character separator. *)
Fixpoint split1 (sep : ascii) (s : string) : list string :=
  match s with
  | "" => [""]
  | String c s' =>
      if Ascii.eqb c sep then [""; s']
      else match split1 sep s' with
           | [a] => [String c a]
           | a :: rest => String c a :: rest
           | [] => []
           end
  end.

(** [s.replace(a, b)] for one-character [a] and [b]. *)
Fixpoint replace (a b : ascii) (s : string) : string :=
  match s with
  | "" => ""
  | String c s' => String (if Ascii.eqb c a then b else c) (replace a b s')
  end.

(** The pieces of [s] between the characters satisfying [p], empty pieces
    included. *)
Fixpoint pieces (p : ascii -> bool) (s : string) : list string :=
  match s with
  | "" => [""]
  | String c s' =>
      if p c then "" :: pieces p s'
      else match pieces p s' with
           | a :: rest => String c a :: rest
           | [] => [String c ""]
           end
  end.

Definition nonempty (s : string) : bool :=
  match s with "" => false | _ => true end.

(** [s.split()]: the maximal runs of non-whitespace. *)
Definition split (s : string) : list string :=
  filter nonempty (pieces isspace s).

(** [int(s)] on a string of decimal digits. *)
Definition digit_val (c : ascii) : Z := Z.of_N (code c - 48).

Fixpoint int_acc (acc : Z) (s : string) : Z :=
  match s with
  | "" => acc
  | String c s' => int_acc (10 * acc + digit_val c) s'
  end.

Definition int (s : string) : Z := int_acc 0 s.

(** [s[:n]]. *)
Fixpoint take (n : nat) (s : string) : string :=
  match n, s with
  | S n', String c s' => String c (take n' s')
  | _, _ => ""
  end.

(** [s.rfind(c)] as an option. *)
Fixpoint rfind (c : ascii) (s : string) : option nat :=
  match s with
  | "" => None
  | String a s' =>
      match rfind c s' with
      | Some i => Some (S i)
      | None => if Ascii.eqb a c then Some 0 else None
      end
  end.

Fixpoint join (sep : string) (l : list string) : string :=
  match l with
  | [] => ""
  | [a] => a
  | a :: l' => a ++ sep ++ join sep l'
  end.

End PyStr.

(* ================================================================== *)
(** ** The [re] engine

    Python's [re] is a backtracking matcher: alternatives are tried left
    to right, repetitions are greedy, and the first way to match wins.
    [exec] is that matcher in continuation-passing style on the operators
    the reader's patterns and [strptime]'s patterns are made of. *)

Module Re.

Import PyStr.

Inductive cclass : Type :=
| CDigit                      (* \d *)
| CSpace                      (* \s *)
| CChar (c : ascii)           (* one character of a set *)
| CRange (lo hi : ascii)      (* lo-hi *)
| CUnion (a b : cclass).      (* [ab] *)

Inductive regex : Type :=
| Empty
| Lit (c : ascii)
| OneOf (cls : cclass)
| Cat (r1 r2 : regex)
| Alt (r1 r2 : regex)                               (* r1|r2 *)
| Repeat (cls : cclass) (lo : nat) (hi : option nat)  (* cls{lo,hi}, cls+ *)
| Maybe (r : regex)                                 (* (?:r)? *)
| Group (name : string) (r : regex)                 (* (r), (?P<name>r) *)
| Ahead (r : regex)                                 (* (?=r) *)
| WordBoundary                                      (* \b *)
| Bol                                               (* ^ *)
| Eol.                                              (* $ *)

Definition groups : Type := list (string * string).

Fixpoint group (name : string) (g : groups) : option string :=
  match g with
  | [] => None
  | (n, v) :: g' => if String.eqb n name then Some v else group name g'
  end.

Fixpoint member (cls : cclass) (c : ascii) : bool :=
  match cls with
  | CDigit => isdigit c
  | CSpace => isspace c
  | CChar a => Ascii.eqb a c
  | CRange lo hi => in_range (code lo) (code hi) c
  | CUnion a b => member a c || member b c
  end.

(** Membership under the flag [re.I]: the lower-cased character is tried,
    then the upper-cased one. *)
Definition in_class (ic : bool) (cls : cclass) (c : ascii) : bool :=
  if ic then member cls (lower_char c) || member cls (upper_char c)
  else member cls c.

Definition lit_eq (ic : bool) (c a : ascii) : bool :=
  if ic then Ascii.eqb (lower_char c) (lower_char a) else Ascii.eqb c a.

Definition is_word (c : option ascii) : bool :=
  match c with Some a => isword a | None => false end.

Definition peek (s : string) : option ascii :=
  match s with String c _ => Some c | "" => None end.

Definition more (hi : option nat) : bool :=
  match hi with Some 0 => false | _ => true end.

Definition halt {R} (lo pos : nat) (prev : option ascii) (s : string)
  (k : nat -> option ascii -> string -> option R) : option R :=
  if lo =? 0 then k pos prev s else None.

(** Greedy repetition of a one-character class, between [lo] and [hi]
    times; it gives characters back one at a time when the continuation
    fails. [pos] is the position in the subject string. *)
Fixpoint rep {R} (ic : bool) (cls : cclass) (lo : nat) (hi : option nat)
  (pos : nat) (prev : option ascii) (s : string)
  (k : nat -> option ascii -> string -> option R) {struct s} : option R :=
  match s with
  | String c s' =>
      if more hi && in_class ic cls c then
        match rep ic cls (pred lo) (option_map pred hi) (S pos) (Some c) s' k
        with
        | Some x => Some x
        | None => halt lo pos prev s k
        end
      else halt lo pos prev s k
  | "" => halt lo pos prev s k
  end.

(** [exec ic r pos prev s g k]: match [r] at the front of [s], which
    starts at position [pos] of the subject, the character before it
    being [prev]; then go on with [k]. *)
Fixpoint exec {R} (ic : bool) (r : regex) (pos : nat) (prev : option ascii)
  (s : string) (g : groups)
  (k : nat -> option ascii -> string -> groups -> option R)
  {struct r} : option R :=
  match r with
  | Empty => k pos prev s g
  | Lit c =>
      match s with
      | String a s' => if lit_eq ic c a then k (S pos) (Some a) s' g else None
      | "" => None
      end
  | OneOf cls =>
      match s with
      | String a s' =>
          if in_class ic cls a then k (S pos) (Some a) s' g else None
      | "" => None
      end
  | Cat r1 r2 =>
      exec ic r1 pos prev s g (fun n p s' g' => exec ic r2 n p s' g' k)
  | Alt r1 r2 =>
      match exec ic r1 pos prev s g k with
      | Some x => Some x
      | None => exec ic r2 pos prev s g k
      end
  | Repeat cls lo hi =>
      rep ic cls lo hi pos prev s (fun n p s' => k n p s' g)
  | Maybe r1 =>
      match exec ic r1 pos prev s g k with
      | Some x => Some x
      | None => k pos prev s g
      end
  | Group name r1 =>
      exec ic r1 pos prev s g
        (fun n p s' g' => k n p s' ((name, take (n - pos) s) :: g'))
  | Ahead r1 =>
      match exec ic r1 pos prev s g (fun _ _ _ g' => Some g') with
      | Some g' => k pos prev s g'
      | None => None
      end
  | WordBoundary =>
      if xorb (is_word prev) (is_word (peek s)) then k pos prev s g else None
  | Bol =>
      match prev with
      | None => k pos prev s g
      | Some _ => None
      end
  | Eol =>
      match s with
      | "" => k pos prev s g
      | String c "" => if Ascii.eqb c "010" then k pos prev s g else None
      | _ => None
      end
  end.

(** A match object: how many characters matched, and the groups. *)
Record match_obj : Type := { span : nat; captured : groups }.

(** The match of [r] at the front of [s], if any; positions are counted
    from the start of the match. *)
Definition match_at (ic : bool) (r : regex) (prev : option ascii)
  (s : string) : option match_obj :=
  exec ic r 0 prev s []
    (fun n _ _ g => Some {| span := n; captured := g |}).

(** The truth value of what [re.match] and [re.search] return. *)
Definition found (m : option match_obj) : bool :=
  match m with Some _ => true | None => false end.

(** [re.match(r, s)]. *)
Definition match_ (ic : bool) (r : regex) (s : string) : option match_obj :=
  match_at ic r None s.

(** [re.search(r, s)]: the leftmost position where [r] matches. *)
Fixpoint search_from (ic : bool) (r : regex) (prev : option ascii)
  (s : string) : option match_obj :=
  match match_at ic r prev s with
  | Some m => Some m
  | None =>
      match s with
      | String c s' => search_from ic r (Some c) s'
      | "" => None
      end
  end.

Definition search (ic : bool) (r : regex) (s : string) : option match_obj :=
  search_from ic r None s.

(** [re.sub(r, repl, s)] for a constant [repl]: the string is read left
    to right; [skip] counts the characters of the current match that are
    still to be dropped. *)
Fixpoint sub_go (ic : bool) (r : regex) (repl : string)
  (prev : option ascii) (s : string) (skip : nat) : string :=
  match skip with
  | S n =>
      match s with
      | String c s' => sub_go ic r repl (Some c) s' n
      | "" => ""
      end
  | 0 =>
      match option_map span (match_at ic r prev s) with
      | Some (S n) =>
          repl ++ match s with
                  | String c s' => sub_go ic r repl (Some c) s' n
                  | "" => ""
                  end
      | Some 0 =>
          repl ++ match s with
                  | String c s' => String c (sub_go ic r repl (Some c) s' 0)
                  | "" => ""
                  end
      | None =>
          match s with
          | String c s' => String c (sub_go ic r repl (Some c) s' 0)
          | "" => ""
          end
      end
  end.

Definition sub (ic : bool) (r : regex) (repl s : string) : string :=
  sub_go ic r repl None s 0.

(** [re.split(r, s)] for a pattern without groups that matches no empty
    string: [cur] is the piece read so far. *)
Fixpoint split_go (ic : bool) (r : regex) (prev : option ascii)
  (s : string) (skip : nat) (cur : string) : list string :=
  match skip with
  | S n =>
      match s with
      | String c s' => split_go ic r (Some c) s' n cur
      | "" => [cur]
      end
  | 0 =>
      match option_map span (match_at ic r prev s) with
      | Some (S n) =>
          cur :: match s with
                 | String c s' => split_go ic r (Some c) s' n ""
                 | "" => [""]
                 end
      | _ =>
          match s with
          | String c s' => split_go ic r (Some c) s' 0 (cur ++ String c "")
          | "" => [cur]
          end
      end
  end.

Definition split (ic : bool) (r : regex) (s : string) : list string :=
  split_go ic r None s 0 "".

(** A literal string. *)
Fixpoint lit (s : string) : regex :=
  match s with
  | "" => Empty
  | String c "" => Lit c
  | String c s' => Cat (Lit c) (lit s')
  end.

(** [a|b|...]. *)
Fixpoint alts (l : list regex) : regex :=
  match l with
  | [] => Empty
  | [r] => r
  | r :: l' => Alt r (alts l')
  end.

Fixpoint cat (l : list regex) : regex :=
  match l with
  | [] => Empty
  | [r] => r
  | r :: l' => Cat r (cat l')
  end.

(** A continuation that gives up when the subject goes on with a digit:
    a literal separator or whitespace comes next in the pattern. *)
Definition wants_separator {R}
  (K : nat -> option ascii -> string -> groups -> option R) : Prop :=
  forall n p c s g, isdigit c = true -> K n p (String c s) g = None.

End Re.

(* ================================================================== *)
(** ** binary64 and [float()] *)

Module PyFloat.

Import PyStr.

Definition prec : Z := 53.
Definition emax : Z := 1024.

(** A Python [float], a NumPy [float64]. *)
Definition float : Type := spec_float.

Definition nan : float := S754_nan.
Definition add : float -> float -> float := SFadd prec emax.
Definition sub : float -> float -> float := SFsub prec emax.
Definition div : float -> float -> float := SFdiv prec emax.

(** [float(n)] for an [int]. *)
Definition of_int (n : Z) : float := binary_normalize prec emax n 0 false.

(** Neither an infinity nor a NaN. *)
Definition is_finite (x : float) : bool :=
  match x with
  | S754_zero _ | S754_finite _ _ _ => true
  | S754_infinity _ | S754_nan => false
  end.

(** The binary64 nearest to [m * 10^e10] (ties to even), negated when
    [neg]: an integer is rounded as it is, a quotient by a power of ten is
    rounded from the quotient and remainder of the division. *)
Definition of_decimal (neg : bool) (m : Z) (e10 : Z) : float :=
  match m with
  | Z0 => S754_zero neg
  | Zneg _ => S754_nan
  | Zpos p =>
      if (0 <=? e10)%Z then
        binary_normalize prec emax
          (if neg then - (m * 10 ^ e10) else m * 10 ^ e10)%Z 0 neg
      else
        let '(q, e, l) :=
          SFdiv_core_binary prec emax m 0 (10 ^ (- e10))%Z 0 in
        binary_round_aux prec emax neg q e l
  end.

(** The underscore rule of numeric literals: an underscore stands between
    two digits. The result is the string without its underscores. *)
Fixpoint drop_underscores (prev : option ascii) (s : string)
  : option string :=
  match s with
  | "" =>
      match prev with
      | Some "_"%char => None
      | _ => Some ""
      end
  | String c s' =>
      if Ascii.eqb c "_" then
        match prev with
        | Some p => if isdigit p then drop_underscores (Some c) s' else None
        | None => None
        end
      else
        match prev with
        | Some "_"%char =>
            if isdigit c
            then option_map (String c) (drop_underscores (Some c) s')
            else None
        | _ => option_map (String c) (drop_underscores (Some c) s')
        end
  end.

(** The longest prefix of digits, and what follows. *)
Fixpoint digits (s : string) : string * string :=
  match s with
  | String c s' =>
      if isdigit c then let '(d, r) := digits s' in (String c d, r)
      else ("", s)
  | "" => ("", "")
  end.

(** An optional sign. *)
Definition sign (s : string) : bool * string :=
  match s with
  | String "-" s' => (true, s')
  | String "+" s' => (false, s')
  | _ => (false, s)
  end.

(** [e] or [E], an optional sign and at least one digit; nothing when [s]
    is empty. *)
Definition exponent (s : string) : option Z :=
  match s with
  | "" => Some 0%Z
  | String c s' =>
      if Ascii.eqb (lower_char c) "e" then
        let '(neg, s1) := sign s' in
        match digits s1 with
        | (String d ds, "") =>
            Some (if neg then - int (String d ds) else int (String d ds))%Z
        | _ => None
        end
      else None
  end.

(** [sign? (digits [. digits?] | . digits) exponent?], [inf], [infinity]
    and [nan] in any case. *)
Definition number (s : string) : option float :=
  let '(neg, s1) := sign s in
  let low := lower s1 in
  if String.eqb low "inf" || String.eqb low "infinity"
  then Some (S754_infinity neg)
  else if String.eqb low "nan" then Some S754_nan
  else
    let '(ip, s2) := digits s1 in
    let '(fp, s3) :=
      match s2 with
      | String "." s2' => digits s2'
      | _ => ("", s2)
      end in
    match ip ++ fp with
    | "" => None
    | mant =>
        match exponent s3 with
        | Some e =>
            Some (of_decimal neg (int mant)
                    (e - Z.of_nat (String.length fp)))
        | None => None
        end
    end.

(** [float(s)] for a [str]. *)
Definition parse (s : string) : result float :=
  match drop_underscores None (strip s) with
  | Some t =>
      match number t with
      | Some x => Ok x
      | None => Raise (ValueError (CouldNotConvertToFloat s))
      end
  | None => Raise (ValueError (CouldNotConvertToFloat s))
  end.

End PyFloat.

(* ================================================================== *)
(** ** [datetime] and [datetime.strptime] *)

Module DateTime.

Import PyStr.
Local Open Scope Z_scope.

(** A naive [datetime]. *)
Record datetime : Type := {
  year : Z; month : Z; day : Z;
  hour : Z; minute : Z; second : Z; microsecond : Z
}.

(** [dt.replace(microsecond=us)]. *)
Definition replace_microsecond (dt : datetime) (us : Z) : datetime :=
  {| year := year dt; month := month dt; day := day dt;
     hour := hour dt; minute := minute dt; second := second dt;
     microsecond := us |}.

Definition is_leap (y : Z) : bool :=
  (y mod 4 =? 0) && (negb (y mod 100 =? 0) || (y mod 400 =? 0)).

Definition days_in_month (y m : Z) : Z :=
  if m =? 2 then (if is_leap y then 29 else 28)
  else if (m =? 4) || (m =? 6) || (m =? 9) || (m =? 11) then 30
  else 31.

(** The checks of the [datetime] constructor. *)
Definition valid (dt : datetime) : bool :=
  (1 <=? year dt) && (year dt <=? 9999)
  && (1 <=? month dt) && (month dt <=? 12)
  && (1 <=? day dt) && (day dt <=? days_in_month (year dt) (month dt))
  && (0 <=? hour dt) && (hour dt <=? 23)
  && (0 <=? minute dt) && (minute dt <=? 59)
  && (0 <=? second dt) && (second dt <=? 59)
  && (0 <=? microsecond dt) && (microsecond dt <=? 999999).

(** Days from 1970-01-01 to the given date of the proleptic Gregorian
    calendar. *)
Definition days_from_civil (y m d : Z) : Z :=
  let y' := if m <=? 2 then y - 1 else y in
  let era := y' / 400 in
  let yoe := y' - era * 400 in
  let mp := (m + 9) mod 12 in
  let doy := (153 * mp + 2) / 5 + d - 1 in
  let doe := yoe * 365 + yoe / 4 - yoe / 100 + doy in
  era * 146097 + doe - 719468.

(** Seconds from the epoch to [dt] read as UTC, sub-second part left out. *)
Definition utc_seconds (dt : datetime) : Z :=
  days_from_civil (year dt) (month dt) (day dt) * 86400
  + hour dt * 3600 + minute dt * 60 + second dt.

(** [dt.timestamp()] for a naive [dt]: the whole seconds come from the
    platform's local-time rules [mktime], which can fail, and the
    microseconds are added as a float. *)
Definition timestamp (mktime : datetime -> Z + time_error) (dt : datetime)
  : result PyFloat.float :=
  match mktime dt with
  | inl s =>
      Ok (PyFloat.add (PyFloat.of_int s)
            (PyFloat.div (PyFloat.of_int (microsecond dt))
                         (PyFloat.of_int 1000000)))
  | inr e => Raise (time_exn e)
  end.

(** *** The local-time rules of CPython

    [local_to_seconds] of [_datetimemodule.c] (in Python:
    [datetime._mktime]) for [fold = 0], with seconds counted from the
    epoch. [localtime u] is the platform's broken-down local time at the
    instant [u]. *)

Definition and_then {A B : Type} (r : A + time_error)
  (f : A -> B + time_error) : B + time_error :=
  match r with
  | inl a => f a
  | inr e => inr e
  end.

(** [utc_to_seconds]: a year outside [MINYEAR..MAXYEAR] is refused. *)
Definition utc_to_seconds (tm : datetime) : Z + time_error :=
  if (year tm <? 1) || (9999 <? year tm) then inr (BadYear (year tm))
  else inl (utc_seconds tm).

(** [local(u)]: the local wall-clock time at the instant [u], read as
    seconds. *)
Definition local (localtime : Z -> datetime + time_error) (u : Z)
  : Z + time_error :=
  and_then (localtime u) utc_to_seconds.

Definition max_fold_seconds : Z := 24 * 3600.

Definition local_to_seconds (localtime : Z -> datetime + time_error)
  (dt : datetime) : Z + time_error :=
  and_then (utc_to_seconds dt) (fun t =>
  (* Our goal is to solve t = local(u) for u. *)
  and_then (local localtime t) (fun lt =>
  let a := lt - t in
  let u1 := t - a in
  and_then (local localtime u1) (fun t1 =>
  let finish (b : Z) : Z + time_error :=
    let u2 := t - b in
    and_then (local localtime u2) (fun t2 =>
    if t2 =? t then inl u2
    else if t1 =? t then inl u1
    else inl (Z.max u1 u2)) in
  if t1 =? t then
    let u2 := u1 - max_fold_seconds in
    and_then (local localtime u2) (fun lt =>
    let b := lt - u2 in
    if a =? b then inl u1 else finish b)
  else finish (t1 - u1)))).

(** The date of a day counted from 1970-01-01, the inverse of
    [days_from_civil]. *)
Definition civil_from_days (z : Z) : Z * Z * Z :=
  let z := z + 719468 in
  let era := z / 146097 in
  let doe := z - era * 146097 in
  let yoe := (doe - doe / 1460 + doe / 36524 - doe / 146096) / 365 in
  let doy := doe - (365 * yoe + yoe / 4 - yoe / 100) in
  let mp := (5 * doy + 2) / 153 in
  let d := doy - (153 * mp + 2) / 5 + 1 in
  let m := if mp <? 10 then mp + 3 else mp - 9 in
  (yoe + era * 400 + (if m <=? 2 then 1 else 0), m, d).

(** [time.gmtime(u)], and with it [time.localtime(u)] where the local
    time is UTC plus [offset] seconds. *)
Definition gmtime (u : Z) : datetime :=
  let '(y, m, d) := civil_from_days (u / 86400) in
  let r := u mod 86400 in
  {| year := y; month := m; day := d;
     hour := r / 3600; minute := r mod 3600 / 60; second := r mod 60;
     microsecond := 0 |}.

Definition offset_localtime (offset u : Z) : datetime + time_error :=
  inl (gmtime (u + offset)).

(** The rules of a platform whose local time is UTC. *)
Definition utc_mktime : datetime -> Z + time_error :=
  local_to_seconds (offset_localtime 0).

End DateTime.

Module Strptime.

Import PyStr Re DateTime.

(** The names of the C locale, lower-cased as [_strptime.LocaleTime]
    keeps them. *)
Definition a_weekday : list string :=
  ["mon"; "tue"; "wed"; "thu"; "fri"; "sat"; "sun"].

Definition a_month : list string :=
  ["jan"; "feb"; "mar"; "apr"; "may"; "jun";
   "jul"; "aug"; "sep"; "oct"; "nov"; "dec"].

Definition range (lo hi : ascii) : regex := OneOf (CRange lo hi).
Definition digit : regex := OneOf CDigit.

(** The pattern of one directive, as [_strptime.TimeRE] tabulates it; the
    reader's formats use these nine. *)
Definition directive (c : ascii) : option regex :=
  match c with
  | "a"%char => Some (Group "a" (alts (map lit a_weekday)))
  | "b"%char => Some (Group "b" (alts (map lit a_month)))
  | "d"%char =>
      (* 3[0-1]|[1-2]\d|0[1-9]|[1-9]| [1-9] *)
      Some (Group "d" (alts [Cat (Lit "3") (range "0" "1");
                             Cat (range "1" "2") digit;
                             Cat (Lit "0") (range "1" "9");
                             range "1" "9";
                             Cat (Lit " ") (range "1" "9")]))
  | "f"%char =>
      (* [0-9]{1,6} *)
      Some (Group "f" (Repeat (CRange "0" "9") 1 (Some 6)))
  | "H"%char =>
      (* 2[0-3]|[0-1]\d|\d *)
      Some (Group "H" (alts [Cat (Lit "2") (range "0" "3");
                             Cat (range "0" "1") digit;
                             digit]))
  | "m"%char =>
      (* 1[0-2]|0[1-9]|[1-9] *)
      Some (Group "m" (alts [Cat (Lit "1") (range "0" "2");
                             Cat (Lit "0") (range "1" "9");
                             range "1" "9"]))
  | "M"%char =>
      (* [0-5]\d|\d *)
      Some (Group "M" (alts [Cat (range "0" "5") digit; digit]))
  | "S"%char =>
      (* 6[0-1]|[0-5]\d|\d *)
      Some (Group "S" (alts [Cat (Lit "6") (range "0" "1");
                             Cat (range "0" "5") digit;
                             digit]))
  | "Y"%char =>
      (* \d\d\d\d *)
      Some (Group "Y" (cat [digit; digit; digit; digit]))
  | _ => None
  end.

(** [TimeRE.pattern]: a run of whitespace of the format becomes [\s+], a
    directive its pattern, any other character itself. [sp] says that the
    character before was whitespace. *)
Fixpoint pattern (sp : bool) (fmt : string) : option regex :=
  match fmt with
  | "" => Some Empty
  | String "%" (String c fmt') =>
      match directive c, pattern false fmt' with
      | Some r, Some rs => Some (Cat r rs)
      | _, _ => None
      end
  | String "%" "" => None
  | String c fmt' =>
      if isspace c then
        if sp then pattern true fmt'
        else option_map (Cat (Repeat CSpace 1 None)) (pattern true fmt')
      else option_map (Cat (Lit c)) (pattern false fmt')
  end.

(** The pattern of a directive of the table. *)
Definition re_of (c : ascii) : regex :=
  match directive c with
  | Some r => r
  | None => Empty
  end.

(** The position of [x] in [l], counted from 1. *)
Fixpoint position (x : string) (l : list string) : Z :=
  match l with
  | [] => 0%Z
  | a :: l' => if String.eqb a x then 1%Z else (1 + position x l')%Z
  end.

(** [s += "0" * (6 - len(s))]. *)
Definition pad6 (s : string) : string :=
  s ++ take (6 - String.length s) "000000".

Definition field (name : string) (g : groups) (default : Z) : Z :=
  match group name g with
  | Some v => int (strip v)
  | None => default
  end.

(** The fields of the groups of a match, with [_strptime]'s defaults. *)
Definition fields (g : groups) : datetime :=
  let mon :=
    match group "b" g with
    | Some v => position (lower v) a_month
    | None => field "m" g 1
    end in
  let dy := field "d" g 1 in
  let yr :=
    match group "Y" g with
    | Some v => int v
    | None => if (mon =? 2)%Z && (dy =? 29)%Z then 1904%Z else 1900%Z
    end in
  {| year := yr; month := mon; day := dy;
     hour := field "H" g 0; minute := field "M" g 0;
     second := field "S" g 0;
     microsecond := match group "f" g with
                    | Some v => int (pad6 v)
                    | None => 0%Z
                    end |}.

Inductive failure : Type :=
| BadDirective           (* "... is a bad directive in format ..." *)
| DoesNotMatchFormat     (* "time data ... does not match format ..." *)
| UnconvertedDataRemains (* "unconverted data remains: ..." *)
| OutOfRange.            (* "day is out of range for month", ... *)

(** [datetime.strptime(data, fmt)]; a failure is a [ValueError]. *)
Definition strptime (data fmt : string) : datetime + failure :=
  match pattern false fmt with
  | None => inr BadDirective
  | Some r =>
      match match_ true r data with
      | None => inr DoesNotMatchFormat
      | Some m =>
          if negb (span m =? String.length data)%nat
          then inr UnconvertedDataRemains
          else
            let dt := fields (captured m) in
            if valid dt then inl dt else inr OutOfRange
      end
  end.

(** [for fmt in fmts: try: return strptime(s, fmt) except ValueError:
    continue]. *)
Fixpoint first_format (s : string) (fmts : list string) : option datetime :=
  match fmts with
  | [] => None
  | fmt :: fmts' =>
      match strptime s fmt with
      | inl dt => Some dt
      | inr _ => first_format s fmts'
      end
  end.

End Strptime.

(* ================================================================== *)
(** ** [pathlib.Path] on a POSIX system *)

Module PathLib.

Import PyStr.

Record Path : Type := { root : string; parts : list string }.

Definition is_part (c : string) : bool :=
  nonempty c && negb (String.eqb c ".").

(** [Path(s)]: exactly two leading slashes are kept, empty and [.]
    components are dropped. *)
Definition of_str (s : string) : Path :=
  {| root :=
       match s with
       | String "/" (String "/" (String "/" _)) => "/"
       | String "/" (String "/" _) => "//"
       | String "/" _ => "/"
       | _ => ""
       end;
     parts := filter is_part (pieces (Ascii.eqb "/") s) |}.

(** [str(p)]. *)
Definition str (p : Path) : string :=
  match root p, parts p with
  | "", [] => "."
  | r, ps => r ++ join "/" ps
  end.

(** [p.name]: the last component. *)
Definition name (p : Path) : string := last (parts p) "".

(** [p.stem]: the name without its last suffix. *)
Definition stem (p : Path) : string :=
  let n := name p in
  match rfind "." n with
  | Some i => if (0 <? i) && (i <? String.length n - 1) then take i n else n
  | None => n
  end.

End PathLib.

(* ================================================================== *)
(** ** The collaborators of the reader

    [DataSeries], [TimeSeries], [Field] and the spectrum-series classes
    live outside the reader; an object is the record of the arguments it
    was constructed with. *)

Module Ixdat.

(** The values a caller can pass as [name]. *)
Inductive pyval : Type :=
| PyNone
| PyStr (s : string)
| PyInt (n : Z)
| PyBool (b : bool).

(** Truth value testing. *)
Definition truthy (v : pyval) : bool :=
  match v with
  | PyNone => false
  | PyStr s => PyStr.nonempty s
  | PyInt n => negb (n =? 0)%Z
  | PyBool b => b
  end.

(** [a or b]. *)
Definition py_or (a b : pyval) : pyval := if truthy a then a else b.

(** A class, and whether [issubclass(cls, SpectrumSeries)] holds. *)
Record py_class : Type := {
  class_name : string;
  is_spectrum_series : bool
}.

Definition OpticalSpectrumSeries : py_class :=
  {| class_name := "OpticalSpectrumSeries"; is_spectrum_series := true |}.

Record DataSeries : Type := {
  ds_name : string;
  ds_unit_name : string;
  ds_data : list PyFloat.float
}.

Record TimeSeries : Type := {
  ts_name : string;
  ts_unit_name : string;
  ts_data : list PyFloat.float;
  ts_tstamp : PyFloat.float
}.

Record Field : Type := {
  fd_name : string;
  fd_unit_name : string;
  fd_data : list (list PyFloat.float);
  fd_axes_series : TimeSeries * DataSeries
}.

Record SpectrumSeries : Type := {
  cls : py_class;
  name : pyval;
  technique : string;
  tstamp : PyFloat.float;
  field : Field;
  continuous : bool
}.

End Ixdat.

(* ================================================================== *)
(** ** NumPy *)

Module Np.

(** [np.stack(rows)] on a list of lists of floats: the rows of the
    matrix. *)
Definition stack (rows : list (list PyFloat.float))
  : result (list (list PyFloat.float)) :=
  match rows with
  | [] => Raise (ValueError NeedAtLeastOneArray)
  | r :: rs =>
      if forallb (fun x => List.length x =? List.length r) rs
      then Ok rows
      else Raise (ValueError ArraysMustHaveSameShape)
  end.

(** [np.array(a) - x]. *)
Definition subtract_scalar (a : list PyFloat.float) (x : PyFloat.float)
  : list PyFloat.float :=
  map (fun t => PyFloat.sub t x) a.

End Np.

(* ================================================================== *)
(** ** [OceanViewTimeSeriesReader] *)

Module OceanView.

Import PyStr Re DateTime Strptime Ixdat.

Definition TAB : ascii := "009".

(** [[\s\t]] *)
Definition ws : cclass := CUnion CSpace (CChar TAB).

(** [begin\s+spectral\s+data], used with [re.I]. *)
Definition re_begin : regex :=
  cat [lit "begin"; Repeat CSpace 1 None; lit "spectral";
       Repeat CSpace 1 None; lit "data"].

(** [^\s*\d] *)
Definition re_leading_digit : regex :=
  cat [Bol; Repeat CSpace 0 None; OneOf CDigit].

(** [[\s\t]+] *)
Definition re_ws_run : regex := Repeat ws 1 None.

(** [[\s\t]] *)
Definition re_ws : regex := OneOf ws.

(** [\s+] *)
Definition re_spaces : regex := Repeat CSpace 1 None.

(** [\b[A-Z]{2,5}\b(?=\s+\d{4}$)] *)
Definition re_tz_abbrev : regex :=
  cat [WordBoundary; Repeat (CRange "A" "Z") 2 (Some 5); WordBoundary;
       Ahead (cat [Repeat CSpace 1 None; Repeat CDigit 4 (Some 4); Eol])].

(** [\bGMT[+-]\d{1,2}(?::\d{2})?\b] *)
Definition re_gmt_offset : regex :=
  cat [WordBoundary; lit "GMT"; OneOf (CUnion (CChar "+") (CChar "-"));
       Repeat CDigit 1 (Some 2);
       Maybe (Cat (Lit ":") (Repeat CDigit 2 (Some 2)));
       WordBoundary].

(** [__(\d{2})-(\d{2})-(\d{2})-(\d{3})] *)
Definition re_filename_time : regex :=
  cat [lit "__"; Group "1" (Repeat CDigit 2 (Some 2)); Lit "-";
       Group "2" (Repeat CDigit 2 (Some 2)); Lit "-";
       Group "3" (Repeat CDigit 2 (Some 2)); Lit "-";
       Group "4" (Repeat CDigit 3 (Some 3))].

Definition header_fmts : list string :=
  ["%a %b %d %H:%M:%S %Y";
   "%b %d %H:%M:%S %Y";
   "%a %b %d %H:%M:%S.%f %Y";
   "%b %d %H:%M:%S.%f %Y"].

Definition row_fmts : list string :=
  ["%Y-%m-%d %H:%M:%S.%f";
   "%H:%M:%S.%f";
   "%Y-%m-%d %H:%M:%S";
   "%H:%M:%S";
   "%H-%M-%S-%f"].

(** [[f(x) for x in l]] where [f] can raise. *)
Fixpoint for_each {A B} (f : A -> result B) (l : list A) : result (list B) :=
  match l with
  | [] => Ok []
  | a :: l' =>
      b <- f a ;;
      bs <- for_each f l' ;;
      Ok (b :: bs)
  end.

(** [v.replace(",", ".")] *)
Abbreviation dot := (replace "," ".").

(** [float(v.replace(",", "."))] *)
Definition to_float (v : string) : result PyFloat.float :=
  PyFloat.parse (dot v).

Definition _parse_float_row (s : string) : result (list PyFloat.float) :=
  let parts := Re.split false re_ws_run (strip s) in
  for_each to_float (filter nonempty parts).

(** [s.split(":", 1)[1].strip()] *)
Definition after_colon (s : string) : result string :=
  x <- index (split1 ":" s) 1 ;;
  Ok (strip x).

Definition _parse_header_date (date_str : string) : result datetime :=
  let s := strip date_str in
  s <- (if startswith (lower s) "date:" then after_colon s else Ok s) ;;
  let s := Re.sub false re_spaces " " s in
  let s := Re.sub false re_tz_abbrev "" s in
  let s := strip (Re.sub false re_gmt_offset "" s) in
  match first_format s header_fmts with
  | Some dt => Ok dt
  | None => Raise (ValueError (CouldNotParseHeaderDate date_str))
  end.

Definition _split_stamp (line : string) : result (string * string) :=
  if contains TAB line then
    match split1 TAB line with
    | [stamp; rest] => Ok (strip stamp, strip rest)
    | _ => Raise (ValueError UnpackMismatch)
    end
  else
    match Re.split false re_ws (strip line) with
    | [] => Raise (ValueError EmptyLine)
    | stamp :: more =>
        let rest := match more with r :: _ => r | [] => "" end in
        Ok (strip stamp, strip rest)
    end.

Definition _parse_filename_time (path : string) : option Z :=
  match Re.search false re_filename_time path with
  | None => None
  | Some m => option_map int (group "4" (captured m))
  end.

(** [dt.hour * 3600 + dt.minute * 60 + dt.second + dt.microsecond / 1e6] *)
Definition seconds_of_day (dt : datetime) : PyFloat.float :=
  PyFloat.add
    (PyFloat.of_int (hour dt * 3600 + minute dt * 60 + second dt))
    (PyFloat.div (PyFloat.of_int (microsecond dt)) (PyFloat.of_int 1000000)).

(** [try: return float(stamp.replace(",", ".")) except Exception:
    return np.nan] *)
Definition bare_number (stamp : string) : PyFloat.float :=
  match to_float stamp with
  | Ok x => x
  | Raise _ => PyFloat.nan
  end.

Definition _parse_row_time (stamp : string) : PyFloat.float :=
  let stamp := strip stamp in
  match first_format stamp row_fmts with
  | Some dt => seconds_of_day dt
  | None => bare_number stamp
  end.

(** The loop over [lines[:40]]: the first line that starts with [date:]
    decides. *)
Fixpoint scan_header (lines : list string) : result (option datetime) :=
  match lines with
  | [] => Ok None
  | ln :: rest =>
      if startswith (lower ln) "date:" then
        date_str <- after_colon ln ;;
        dt <- _parse_header_date date_str ;;
        Ok (Some dt)
      else scan_header rest
  end.

(** [ms is not None and dt_header is not None] guards
    [dt_header.replace(microsecond=ms * 1000)]. *)
Definition refine (ms : option Z) (dt_header : option datetime)
  : option datetime :=
  match ms, dt_header with
  | Some ms, Some dt => Some (replace_microsecond dt (ms * 1000))
  | _, _ => dt_header
  end.

(** [re.search(r"begin\s+spectral\s+data", ln, flags=re.I)] *)
Definition is_marker (ln : string) : bool :=
  found (Re.search true re_begin ln).

(** [re.match(r"^\s*\d", ln)] *)
Definition starts_with_digit (ln : string) : bool :=
  found (Re.match_ false re_leading_digit ln).

(** The loop [for i, ln in enumerate(lines)]: [lines] is what is left
    from index [i] on, so that [lines[i + 1]] is the head of [rest]. *)
Fixpoint find_start (i : nat) (lines : list string) : result (option nat) :=
  match lines with
  | [] => Ok None
  | ln :: rest =>
      if is_marker ln then
        nxt <- index rest 0 ;;
        if starts_with_digit nxt then Ok (Some i)
        else find_start (S i) rest
      else find_start (S i) rest
  end.

(** [ln.strip()] as a condition. *)
Definition nonblank (ln : string) : bool := nonempty (strip ln).

(** The body of the loop over the data lines. *)
Definition parse_row (ln : string)
  : result (PyFloat.float * list PyFloat.float) :=
  '(stamp_str, vals) <- _split_stamp ln ;;
  let rel_sec := _parse_row_time stamp_str in
  vals <- for_each to_float (PyStr.split vals) ;;
  Ok (rel_sec, vals).

(** [read]: [lines] is what [f.readlines()] returned, [mktime] the local
    time of the platform, which fails on date-times it cannot place. *)
Definition read (mktime : datetime -> Z + time_error) (lines : list string)
  (path_to_file : string) (name : pyval) (cls : py_class)
  : result SpectrumSeries :=
  let path_to_file := PathLib.of_str path_to_file in
  let name := py_or name (PyStr (PathLib.stem path_to_file)) in
  let cls := if is_spectrum_series cls then cls else OpticalSpectrumSeries in
  (* ---- Parse header for Date ---- *)
  dt_header <- scan_header (firstn 40 lines) ;;
  (* ---- Refine with filename milliseconds if available ---- *)
  let ms := _parse_filename_time (PathLib.str path_to_file) in
  let dt_header := refine ms dt_header in
  tstamp_first <-
    match dt_header with
    | Some dt => timestamp mktime dt
    | None => Raise (AttributeError "NoneType" "timestamp")
    end ;;
  (* ---- Find Begin Spectral Data ---- *)
  start_idx <- find_start 0 lines ;;
  start_idx <-
    match start_idx with
    | Some i => Ok i
    | None => Raise (ValueError NoSpectralDataSection)
    end ;;
  wl_line <- index lines (start_idx + 1) ;;
  wavelengths <- _parse_float_row (strip wl_line) ;;
  if (List.length wavelengths =? 0) then Raise (ValueError WavelengthLineEmpty)
  else
  let data_lines := filter nonblank (skipn (start_idx + 2) lines) in
  (* ---- Parse spectra and relative times ---- *)
  rows <- for_each parse_row data_lines ;;
  let rel_times := map fst rows in
  let spectra := map snd rows in
  y_matrix <- Np.stack spectra ;;
  t0 <- index rel_times 0 ;;
  let rel_times := Np.subtract_scalar rel_times t0 in
  (* ---- Wrap into ixdat objects ---- *)
  let xseries :=
    {| ds_name := "wavelength"; ds_unit_name := "nm";
       ds_data := wavelengths |} in
  let tseries :=
    {| ts_name := "time"; ts_unit_name := "s"; ts_data := rel_times;
       ts_tstamp := tstamp_first |} in
  let field :=
    {| fd_name := "intensity"; fd_unit_name := "a.u."; fd_data := y_matrix;
       fd_axes_series := (tseries, xseries) |} in
  Ok {| Ixdat.cls := cls; Ixdat.name := name; technique := "Optical";
        tstamp := tstamp_first; Ixdat.field := field; continuous := true |}.

End OceanView.

(* ================================================================== *)
(** ** The specification's words

    Definitions that follow the words of the specification, not the
    code, for the comparison with the reader. *)

Module Spec.

Import PyStr.

(** "Split on the first whitespace run, treating everything before it as
    the timestamp and everything after (if any) as the remainder." *)
Fixpoint split_first_whitespace_run (s : string) : string * string :=
  match s with
  | "" => ("", "")
  | String c s' =>
      if isspace c then ("", lstrip s')
      else let '(stamp, rest) := split_first_whitespace_run s' in
           (String c stamp, rest)
  end.

(** "If the line contains a tab character, split on the first tab;
    otherwise split on the first whitespace run." *)
Definition split_stamp (line : string) : string * string :=
  if contains OceanView.TAB line then
    match split1 OceanView.TAB line with
    | [stamp; rest] => (strip stamp, strip rest)
    | _ => (strip line, "")
    end
  else
    let '(stamp, rest) := split_first_whitespace_run (strip line) in
    (strip stamp, strip rest).

(** "A line matching [begin spectral data] where the immediately
    following line must start with a digit." *)
Definition has_data_section (lines : list string) : Prop :=
  exists i ln nxt,
    nth_error lines i = Some ln
    /\ nth_error lines (S i) = Some nxt
    /\ OceanView.is_marker ln = true
    /\ OceanView.starts_with_digit nxt = true.

(** "Data-Format-Error: raised when no data-section marker is found, or
    the wavelength row parses to an empty sequence." *)
Definition data_format_error (e : exn) : Prop :=
  e = ValueError NoSpectralDataSection \/ e = ValueError WavelengthLineEmpty.

End Spec.

(* ================================================================== *)
(** ** Timestamps as the instrument writes them *)

Module Iso.

(** The character of the decimal digit [n]. *)
Definition digit_char (n : nat) : ascii := ascii_of_N (48 + N.of_nat n).

(** [%02d] *)
Definition two_digits (n : nat) : string :=
  String (digit_char (n / 10)) (String (digit_char (n mod 10)) "").

(** [%04d] *)
Definition four_digits (n : nat) : string :=
  two_digits (n / 100) ++ two_digits (n mod 100).

(** [YYYY-MM-DD HH:MM:SS] *)
Definition date_time (Y M D h m s : nat) : string :=
  four_digits Y ++ "-" ++ two_digits M ++ "-" ++ two_digits D ++ " "
  ++ two_digits h ++ ":" ++ two_digits m ++ ":" ++ two_digits s.

(** A string of decimal digits, as the fraction of a second is
    written. *)
Abbreviation all_digits f :=
  (PyStr.any (fun c => negb (PyStr.isdigit c)) f = false).

(** [%a] and [%b] as the C locale writes them. *)
Definition weekday_names : list string :=
  ["Mon"; "Tue"; "Wed"; "Thu"; "Fri"; "Sat"; "Sun"].

Definition month_names : list string :=
  ["Jan"; "Feb"; "Mar"; "Apr"; "May"; "Jun";
   "Jul"; "Aug"; "Sep"; "Oct"; "Nov"; "Dec"].

(** [Www Mmm DD HH:MM:SS <zone>YYYY], where [zone] is empty or a
    time-zone abbreviation and a space. *)
Definition ctime (wd mo : string) (D h m s : nat) (zone : string) (Y : nat)
  : string :=
  wd ++ " " ++ mo ++ " " ++ two_digits D ++ " "
  ++ two_digits h ++ ":" ++ two_digits m ++ ":" ++ two_digits s
  ++ " " ++ zone ++ four_digits Y.

(** [%03d] *)
Definition three_digits (n : nat) : string :=
  String (digit_char (n / 100)) (two_digits (n mod 100)).

(** The date-time of six numbers, without a fraction. *)
Definition naive (Y M D h m s : nat) : DateTime.datetime :=
  {| DateTime.year := Z.of_nat Y; DateTime.month := Z.of_nat M;
     DateTime.day := Z.of_nat D; DateTime.hour := Z.of_nat h;
     DateTime.minute := Z.of_nat m; DateTime.second := Z.of_nat s;
     DateTime.microsecond := 0 |}.

(** Every whitespace character is one space, and a character that is no
    whitespace follows it. *)
Fixpoint single_spaced (s : string) : bool :=
  match s with
  | "" => true
  | String c s' =>
      (if PyStr.isspace c
       then Ascii.eqb c " "
            && match s' with
               | String d _ => negb (PyStr.isspace d)
               | "" => false
               end
       else true)
      && single_spaced s'
  end.

(** No two capitals [A-Z] in a row. *)
Fixpoint no_capital_pair (s : string) : bool :=
  match s with
  | "" => true
  | String c s' =>
      negb (PyStr.isupper c
            && match s' with
               | String d _ => PyStr.isupper d
               | "" => false
               end)
      && no_capital_pair s'
  end.

(** What the patterns see of a character: a capital, whitespace, the
    letter [G]. *)
Record plain_char (c : ascii) (cap : bool) : Prop := {
  pc_upper : PyStr.isupper c = cap;
  pc_space : PyStr.isspace c = false;
  pc_G : Ascii.eqb c "G" = false
}.

End Iso.

(* ================================================================== *)
(** ** Sample inputs *)

Module Sample.

Import DateTime.

Definition NL : string := String "010" "".
Definition TAB : string := String "009" "".

(** The file of the specification's example. *)
Definition lines : list string :=
  ["Data from spectrometer Node" ++ NL;
   "Date: Mon Jan 02 03:04:05 2023" ++ NL;
   ">>>>>Begin Spectral Data<<<<<" ++ NL;
   "400.0 400.5 401.0" ++ NL;
   "00:00:00.000" ++ TAB ++ "1.0 2.0 3.0" ++ NL;
   "00:00:01.500" ++ TAB ++ "1.1 2.1 3.1" ++ NL].

(** The same file without its [Date:] line. *)
Definition lines_without_date : list string :=
  ["Data from spectrometer Node" ++ NL;
   ">>>>>Begin Spectral Data<<<<<" ++ NL;
   "400.0 400.5 401.0" ++ NL;
   "00:00:00.000" ++ TAB ++ "1.0 2.0 3.0" ++ NL].

(** A header whose date does not parse, and no data section. *)
Definition lines_bad_date : list string :=
  ["Date: yesterday" ++ NL; "no data here" ++ NL].

(** A file whose first data row has a timestamp in no known format. *)
Definition lines_nan_first : list string :=
  ["Date: Mon Jan 02 03:04:05 2023" ++ NL;
   "Begin Spectral Data" ++ NL;
   "400.0 400.5" ++ NL;
   "start" ++ TAB ++ "1.0 2.0" ++ NL;
   "00:00:01.500" ++ TAB ++ "1.1 2.1" ++ NL].

(** A file without a data section. *)
Definition lines_no_section : list string :=
  ["Date: Mon Jan 02 03:04:05 2023" ++ NL;
   "Begin Spectral Data" ++ NL;
   "wavelengths follow" ++ NL].

(** A file without a data section, dated on the first day of year 1. *)
Definition lines_year_one : list string :=
  ["Date: Jan 01 00:00:00 0001" ++ NL;
   "nothing" ++ NL].

(** A file that ends with the marker line. *)
Definition lines_marker_last : list string :=
  ["Date: Mon Jan 02 03:04:05 2023" ++ NL;
   "Begin Spectral Data" ++ NL].

Definition path : string := "/data/run__13-42-52-946.txt".

(** A path in which a directory carries a time of its own. *)
Definition path_two_times : string :=
  "/data/day__08-00-00-123/run__13-42-52-946.txt".

Definition header_dt : datetime :=
  {| year := 2023; month := 1; day := 2;
     hour := 3; minute := 4; second := 5; microsecond := 0 |}.

(** What [1970-01-02 00:00:01] parses to. *)
Definition row_dt : datetime :=
  {| year := 1970; month := 1; day := 2;
     hour := 0; minute := 0; second := 1; microsecond := 0 |}.

(** A file with two [Date:] lines, of which the second would parse. *)
Definition lines_two_dates : list string :=
  ["Date: yesterday" ++ NL;
   "Date: Mon Jan 02 03:04:05 2023" ++ NL;
   "Begin Spectral Data" ++ NL;
   "400.0 400.5" ++ NL;
   "00:00:00.000" ++ TAB ++ "1.0 2.0" ++ NL].

(** A file whose rows have spaces where the instrument writes a tab. *)
Definition lines_without_tabs : list string :=
  ["Date: Mon Jan 02 03:04:05 2023" ++ NL;
   "Begin Spectral Data" ++ NL;
   "400.0 400.5 401.0" ++ NL;
   "00:00:00.000 1.0 2.0 3.0" ++ NL;
   "00:00:01.500 1.1 2.1 3.1" ++ NL].

End Sample.

(* ================================================================== *)

(** * Properties of the reader *)

Import PyStr Re DateTime Strptime Ixdat OceanView.

(** ** Reasoning about the error monad *)

Lemma bind_ok {A B} (r : result A) (f : A -> result B) (b : B) :
  bind r f = Ok b -> exists a, r = Ok a /\ f a = Ok b.
Proof. destruct r as [a|e]; simpl; intros H; [eauto | discriminate]. Qed.

Lemma bind_raise {A B} (r : result A) (f : A -> result B) (e : exn) :
  bind r f = Raise e -> r = Raise e \/ exists a, r = Ok a /\ f a = Raise e.
Proof.
  destruct r as [a|e']; simpl; intros H; [eauto | left; congruence].
Qed.

Tactic Notation "bind_inv" hyp(H) "as" ident(a) ident(Ha) :=
  apply bind_ok in H; destruct H as (a & Ha & H).

Lemma for_each_cons_inv {A B} (f : A -> result B) (a : A) (l : list A)
  (bs : list B) :
  for_each f (a :: l) = Ok bs ->
  exists b bs', f a = Ok b /\ for_each f l = Ok bs' /\ bs = b :: bs'.
Proof.
  cbn [for_each]. intros H.
  bind_inv H as b Hb. bind_inv H as bs' Hbs. injection H as <-.
  eauto.
Qed.

Lemma for_each_length {A B} (f : A -> result B) (l : list A) (bs : list B) :
  for_each f l = Ok bs -> List.length bs = List.length l.
Proof.
  revert bs. induction l as [|a l IH]; intros bs H.
  - injection H as <-. reflexivity.
  - apply for_each_cons_inv in H. destruct H as (b & bs' & _ & H & ->).
    cbn [List.length]. f_equal. apply IH. exact H.
Qed.

Lemma for_each_in {A B} (f : A -> result B) (l : list A) (bs : list B)
  (a : A) :
  for_each f l = Ok bs -> List.In a l ->
  exists b, f a = Ok b /\ List.In b bs.
Proof.
  revert bs. induction l as [|x l IH]; intros bs H Hin.
  - destruct Hin.
  - apply for_each_cons_inv in H. destruct H as (b & bs' & Hb & H & ->).
    destruct Hin as [<- | Hin].
    + exists b. split; [exact Hb | left; reflexivity].
    + destruct (IH _ H Hin) as (b' & Hb' & Hin').
      exists b'. split; [exact Hb' | right; exact Hin'].
Qed.

Lemma for_each_raise {A B} (f : A -> result B) (l : list A) (e : exn) :
  for_each f l = Raise e -> exists a, List.In a l /\ f a = Raise e.
Proof.
  induction l as [|a l IH]; cbn [for_each]; intros H; [discriminate H|].
  apply bind_raise in H. destruct H as [H | (b & Hb & H)].
  - exists a. split; [left; reflexivity | exact H].
  - apply bind_raise in H. destruct H as [H | (bs & _ & H)]; [|discriminate H].
    destruct (IH H) as (x & Hin & Hx). exists x. split; [right|]; assumption.
Qed.

Lemma parse_row_inv (ln : string) (t : PyFloat.float)
  (vs : list PyFloat.float) :
  parse_row ln = Ok (t, vs) ->
  exists stamp vals,
    _split_stamp ln = Ok (stamp, vals)
    /\ t = _parse_row_time stamp
    /\ for_each to_float (PyStr.split vals) = Ok vs.
Proof.
  unfold parse_row. intros H.
  bind_inv H as sv Hsv. destruct sv as [stamp vals].
  bind_inv H as vs' Hvs. injection H as <- <-.
  exists stamp, vals. auto.
Qed.

(** [timestamp] raises what the local-time rules raise, nothing else. *)
Lemma timestamp_raise (mktime : datetime -> Z + time_error)
  (dt : datetime)
  (e : exn) :
  timestamp mktime dt = Raise e ->
  exists te, mktime dt = inr te /\ e = time_exn te.
Proof.
  unfold timestamp. destruct (mktime dt) as [s|te]; intros H;
    [discriminate H|].
  injection H as <-. eauto.
Qed.

Lemma timestamp_ok (mktime : datetime -> Z + time_error)
  (dt : datetime)
  (ts : PyFloat.float) :
  timestamp mktime dt = Ok ts ->
  exists s, mktime dt = inl s
    /\ ts = PyFloat.add (PyFloat.of_int s)
              (PyFloat.div (PyFloat.of_int (microsecond dt))
                           (PyFloat.of_int 1000000)).
Proof.
  unfold timestamp. destruct (mktime dt) as [s|te]; intros H;
    [|discriminate H].
  injection H as <-. eauto.
Qed.

(** Where UTC is the local time, [timestamp()] refuses the first day of
    year 1, because the search for an earlier solution looks one day
    back, and takes the last second of year 9999; nine hours east of UTC
    the last second of year 9999 is refused. *)
Lemma utc_mktime_at_the_ends :
  utc_mktime {| year := 1; month := 1; day := 1; hour := 23; minute := 59;
                second := 59; microsecond := 0 |}
  = inr (BadYear 0)
  /\ utc_mktime {| year := 1; month := 1; day := 2; hour := 0; minute := 0;
                   second := 0; microsecond := 0 |}
     = inl (-62135510400)%Z
  /\ utc_mktime {| year := 9999; month := 12; day := 31; hour := 23;
                   minute := 59; second := 59; microsecond := 0 |}
     = inl 253402300799%Z
  /\ local_to_seconds (offset_localtime 32400)
       {| year := 9999; month := 12; day := 31; hour := 23;
          minute := 59; second := 59; microsecond := 0 |}
     = inr (BadYear 10000).
Proof. repeat split; vm_compute; reflexivity. Qed.

(** When [timestamp()] refuses the header date, [read] raises its error,
    whatever the rest of the file holds. *)
Lemma read_timestamp_error (mktime : datetime -> Z + time_error)
  (lines : list string) (path_to_file : string) (name : pyval)
  (cls : py_class) (dt dt' : datetime) (te : time_error) :
  scan_header (firstn 40 lines) = Ok (Some dt) ->
  refine (_parse_filename_time (PathLib.str (PathLib.of_str path_to_file)))
         (Some dt) = Some dt' ->
  mktime dt' = inr te ->
  read mktime lines path_to_file name cls = Raise (time_exn te).
Proof.
  intros Hh Hre Hte. unfold read. rewrite Hh. cbn [bind]. rewrite Hre.
  unfold timestamp. rewrite Hte. reflexivity.
Qed.

(** What a successful [read] went through. *)
Lemma read_ok_inv (mktime : datetime -> Z + time_error)
  (lines : list string)
  (path_to_file : string) (name : pyval) (cls : py_class)
  (o : SpectrumSeries) :
  read mktime lines path_to_file name cls = Ok o ->
  exists dt0 dt i wl_line wavelengths rows t0,
    scan_header (firstn 40 lines) = Ok (Some dt0)
    /\ refine (_parse_filename_time
                 (PathLib.str (PathLib.of_str path_to_file))) (Some dt0)
       = Some dt
    /\ find_start 0 lines = Ok (Some i)
    /\ index lines (i + 1) = Ok wl_line
    /\ _parse_float_row (strip wl_line) = Ok wavelengths
    /\ for_each parse_row (filter nonblank (skipn (i + 2) lines)) = Ok rows
    /\ Np.stack (map snd rows) = Ok (map snd rows)
    /\ index (map fst rows) 0 = Ok t0
    /\ Ixdat.name o
       = py_or name (PyStr (PathLib.stem (PathLib.of_str path_to_file)))
    /\ timestamp mktime dt = Ok (tstamp o)
    /\ fd_data (field o) = map snd rows
    /\ ts_data (fst (fd_axes_series (field o)))
       = Np.subtract_scalar (map fst rows) t0
    /\ ts_tstamp (fst (fd_axes_series (field o))) = tstamp o
    /\ ds_data (snd (fd_axes_series (field o))) = wavelengths.
Proof.
  unfold read. intros H.
  bind_inv H as hd Hhd. destruct hd as [dt0|]; cycle 1.
  { destruct (_parse_filename_time _); discriminate H. }
  bind_inv H as ts Hts.
  destruct (refine _ (Some dt0)) as [dt|] eqn:Hre; [|discriminate Hts].
  bind_inv H as fs Hfs. bind_inv H as i Hi.
  destruct fs as [j|]; [|discriminate Hi]. injection Hi as <-.
  bind_inv H as wl_line Hwl.
  bind_inv H as wavelengths Hwls.
  destruct (List.length wavelengths =? 0); [discriminate H|].
  bind_inv H as rows Hrows.
  bind_inv H as y_matrix Hy. bind_inv H as t0 Ht0.
  injection H as <-.
  exists dt0, dt, j, wl_line, wavelengths, rows, t0.
  assert (y_matrix = map snd rows) as ->.
  { unfold Np.stack in Hy. destruct (map snd rows) as [|r rs]; [discriminate|].
    destruct (forallb _ rs); [congruence | discriminate]. }
  repeat (split; [assumption || reflexivity|]). reflexivity.
Qed.

(** ** The header date *)

Lemma scan_header_no_date_line (ls : list string) :
  (forall ln, List.In ln ls -> startswith (lower ln) "date:" = false) ->
  scan_header ls = Ok None.
Proof.
  induction ls as [|ln ls IH]; intros H; simpl.
  - reflexivity.
  - rewrite (H ln (or_introl eq_refl)).
    apply IH. intros l Hl. apply H. right. exact Hl.
Qed.

(** C1 (what the code does). When none of the first 40 lines starts,
    case-insensitively, with [date:], the header date stays [None] and
    [read] fails on [dt_header.timestamp()] with an [AttributeError], not
    with the [ValueError] "Could not parse header date". *)
Theorem read_without_date_line
  (mktime : datetime -> Z + time_error)
  (lines : list string) (path_to_file : string)
  (name : pyval) (cls : py_class) :
  (forall ln, List.In ln (firstn 40 lines) ->
              startswith (lower ln) "date:" = false) ->
  read mktime lines path_to_file name cls
  = Raise (AttributeError "NoneType" "timestamp").
Proof.
  intros H. unfold read.
  rewrite (scan_header_no_date_line _ H). cbn [bind].
  destruct (_parse_filename_time _); reflexivity.
Qed.

Lemma read_without_date_line_witness :
  read utc_mktime Sample.lines_without_date Sample.path PyNone
       OpticalSpectrumSeries
  = Raise (AttributeError "NoneType" "timestamp").
Proof.
  apply read_without_date_line.
  intros ln Hln. cbv [Sample.lines_without_date firstn List.In] in Hln.
  repeat (destruct Hln as [<- | Hln]; [vm_compute; reflexivity|]).
  destruct Hln.
Defined.

(** A [date:] line that does not parse does raise the [ValueError], and
    the error carries the text after the colon. *)
Lemma read_bad_date_line :
  read utc_mktime Sample.lines_bad_date Sample.path PyNone
       OpticalSpectrumSeries
  = Raise (ValueError (CouldNotParseHeaderDate "yesterday")).
Proof. vm_compute. reflexivity. Qed.

(** A line that starts with [date:] has a colon, so that
    [split(":", 1)[1]] exists. *)
Lemma split1_two (c : ascii) (s : string) :
  contains c s = true -> exists a b, split1 c s = [a; b].
Proof.
  induction s as [|x s IH]; cbn [contains split1]; intros H;
    [discriminate H|].
  destruct (Ascii.eqb x c) eqn:E; [eauto|].
  destruct (IH H) as (a & b & ->). eauto.
Qed.

Lemma lower_colon (c : ascii) : lower_char c = ":"%char -> c = ":"%char.
Proof.
  destruct c as [[] [] [] [] [] [] [] []]; intros H;
    try discriminate H; reflexivity.
Qed.

Lemma date_prefix_has_colon (s : string) :
  startswith (lower s) "date:" = true -> contains ":" s = true.
Proof.
  unfold startswith.
  destruct s as [|c1 [|c2 [|c3 [|c4 [|c5 s]]]]]; cbn [lower String.prefix];
    try (repeat destruct (ascii_dec _ _); discriminate).
  repeat (destruct (ascii_dec _ _); [|discriminate]). intros _.
  match goal with H : ":"%char = lower_char c5 |- _ =>
    symmetry in H; apply lower_colon in H; subst c5 end.
  cbn [contains]. rewrite Ascii.eqb_refl, !orb_true_r. reflexivity.
Qed.

Lemma after_colon_ok (s : string) :
  startswith (lower s) "date:" = true -> exists x, after_colon s = Ok x.
Proof.
  intros H. apply date_prefix_has_colon in H.
  destruct (split1_two _ _ H) as (a & b & E).
  unfold after_colon. rewrite E. cbn. eauto.
Qed.

(** [_parse_header_date] raises the [ValueError] with its argument, and
    nothing else. *)
Lemma parse_header_date_raise (date_str : string) (e : exn) :
  _parse_header_date date_str = Raise e ->
  e = ValueError (CouldNotParseHeaderDate date_str).
Proof.
  unfold _parse_header_date.
  destruct (startswith (lower (strip date_str)) "date:") eqn:Hp.
  - destruct (after_colon_ok _ Hp) as [x ->]. cbn [bind].
    destruct (first_format _ _); intros H; [discriminate H | congruence].
  - cbn [bind].
    destruct (first_format _ _); intros H; [discriminate H | congruence].
Qed.

(** The part of the claim about the header date that holds: when the
    first line that starts with [date:] is among the first 40 and its date
    does not parse, [read] raises "Could not parse header date" with the
    text after the colon, stripped. *)
Lemma read_unparsable_date_line
  (mktime : datetime -> Z + time_error)
  (before : list string) (ln : string)
  (after : list string) (path_to_file : string) (name : pyval)
  (cls : py_class) (d : string) (e : exn) :
  List.length before < 40 ->
  (forall l, List.In l before -> startswith (lower l) "date:" = false) ->
  startswith (lower ln) "date:" = true ->
  after_colon ln = Ok d ->
  _parse_header_date d = Raise e ->
  read mktime (before ++ ln :: after) path_to_file name cls
  = Raise (ValueError (CouldNotParseHeaderDate d)).
Proof.
  intros Hlen Hb Hln Hac Hd.
  pose proof (parse_header_date_raise _ _ Hd) as ->.
  unfold read.
  assert (Hs : forall n pre,
             List.length pre < n ->
             (forall l, List.In l pre ->
                        startswith (lower l) "date:" = false) ->
             scan_header (firstn n (pre ++ ln :: after))
             = Raise (ValueError (CouldNotParseHeaderDate d))).
  { intros n pre. revert n.
    induction pre as [|p pre IH]; intros n Hn Hpre.
    - destruct n as [|n]; [inversion Hn|].
      cbn [app firstn scan_header]. rewrite Hln, Hac. cbn [bind].
      rewrite Hd. reflexivity.
    - destruct n as [|n]; [inversion Hn|].
      cbn [app firstn scan_header].
      rewrite (Hpre p (or_introl eq_refl)).
      apply IH; [cbn in Hn; lia|].
      intros l Hl. apply Hpre. right. exact Hl. }
  rewrite (Hs 40 before Hlen Hb). reflexivity.
Qed.


(** ** Time-zone abbreviations in the header date *)

(** C3 (counterexample). An abbreviation after the year is not removed:
    the date with a trailing [EST] does not parse, the one without does. *)
Lemma header_date_trailing_abbreviation_fails :
  _parse_header_date "Mon Jan 02 03:04:05 2023 EST"
  = Raise (ValueError
             (CouldNotParseHeaderDate "Mon Jan 02 03:04:05 2023 EST"))
  /\ _parse_header_date "Mon Jan 02 03:04:05 2023" = Ok Sample.header_dt.
Proof. vm_compute. split; reflexivity. Qed.

(** C3 (amended). An abbreviation of two to five capitals that stands
    right before the year is removed: [Mon Jan 02 03:04:05 EST 2023]
    parses to the naive timestamp of [Mon Jan 02 03:04:05 2023], and so
    does the date with a [GMT+1] offset; parsing is a function of the
    string. *)
Theorem header_date_abbreviation_before_year :
  _parse_header_date "Mon Jan 02 03:04:05 EST 2023"
  = _parse_header_date "Mon Jan 02 03:04:05 2023"
  /\ _parse_header_date "Mon Jan 02 03:04:05 EST 2023" = Ok Sample.header_dt
  /\ _parse_header_date "Mon Jan 02 03:04:05 GMT+1 2023"
     = Ok Sample.header_dt
  /\ (forall s : string,
        exists r, _parse_header_date s = r
                  /\ forall r', _parse_header_date s = r' -> r' = r).
Proof.
  split; [vm_compute; reflexivity|].
  split; [vm_compute; reflexivity|].
  split; [vm_compute; reflexivity|].
  intros s. exists (_parse_header_date s). split; [reflexivity|].
  intros r' H. symmetry. exact H.
Qed.

(** ** The name of the returned object *)

(** C10. A [name] that is false in a boolean context (the empty string,
    [None], [0], [False]) is replaced by the stem of the path: [read]
    returns what it returns when [name] is omitted, and the object is
    named after the file. *)
Theorem falsy_name_defaults_to_stem
  (mktime : datetime -> Z + time_error)
  (lines : list string) (path_to_file : string)
  (name : pyval) (cls : py_class) :
  truthy name = false ->
  read mktime lines path_to_file name cls
  = read mktime lines path_to_file PyNone cls
  /\ forall o, read mktime lines path_to_file name cls = Ok o ->
               Ixdat.name o
               = PyStr (PathLib.stem (PathLib.of_str path_to_file)).
Proof.
  intros Hf. split.
  - unfold read, py_or. rewrite Hf. reflexivity.
  - intros o Ho. apply read_ok_inv in Ho.
    destruct Ho as (dt0 & dt & i & wl & wls & rows & t0 & Ho).
    decompose [and] Ho. unfold py_or in *. rewrite Hf in *. assumption.
Qed.

Lemma falsy_name_defaults_to_stem_witness :
  read utc_mktime Sample.lines Sample.path (PyStr "") OpticalSpectrumSeries
  = read utc_mktime Sample.lines Sample.path PyNone OpticalSpectrumSeries
  /\ forall o,
       read utc_mktime Sample.lines Sample.path (PyStr "")
            OpticalSpectrumSeries = Ok o ->
       Ixdat.name o = PyStr (PathLib.stem (PathLib.of_str Sample.path)).
Proof. apply falsy_name_defaults_to_stem. reflexivity. Defined.

(** The sample file read with an empty name is named after its path. *)
Lemma empty_name_example :
  exists o,
    read utc_mktime Sample.lines Sample.path (PyStr "") OpticalSpectrumSeries
    = Ok o
    /\ Ixdat.name o = PyStr "run__13-42-52-946".
Proof. eexists. split; vm_compute; reflexivity. Qed.

(** ** Milliseconds from the file name *)

Lemma rep_done {R} (ic : bool) (cls : cclass) (lo pos : nat)
  (prev : option ascii) (s : string)
  (k : nat -> option ascii -> string -> option R) :
  rep ic cls lo (Some 0) pos prev s k = halt lo pos prev s k.
Proof. destruct s as [|c s]; reflexivity. Qed.

(** When no underscore stands before it, [__13-42-52-946] is the
    leftmost match and the milliseconds are 946. *)
Lemma filename_time_after_plain_prefix (pre post : string) :
  contains "_" pre = false ->
  _parse_filename_time (pre ++ "__13-42-52-946" ++ post) = Some 946%Z.
Proof.
  intros Hpre. unfold _parse_filename_time, search.
  assert (Hm : forall prev,
             match_at false re_filename_time prev ("__13-42-52-946" ++ post)
             = Some {| span := 14;
                       captured := [("4", "946"); ("3", "52");
                                    ("2", "42"); ("1", "13")] |}).
  { intros prev. unfold match_at, re_filename_time.
    cbn. rewrite rep_done. reflexivity. }
  remember ("__13-42-52-946" ++ post) as tail eqn:Htail.
  generalize (@None ascii) as prev.
  induction pre as [|c pre IH]; intros prev.
  - cbn [append]. destruct tail as [|t tail]; [discriminate Htail|].
    cbn [search_from]. rewrite Hm. reflexivity.
  - cbn [contains] in Hpre. apply orb_false_elim in Hpre.
    destruct Hpre as [Hc Hpre].
    cbn [append search_from].
    assert (Hn : match_at false re_filename_time prev
                   (String c (pre ++ tail)) = None).
    { unfold match_at, re_filename_time. cbn [cat lit exec].
      unfold lit_eq. rewrite Ascii.eqb_sym, Hc. reflexivity. }
    rewrite Hn. apply IH. exact Hpre.
Qed.

Lemma pieces_no_separator (p : ascii -> bool) (s : string) :
  any p s = false -> pieces p s = [s].
Proof.
  induction s as [|c s IH]; cbn [any pieces]; [reflexivity|].
  intros H. apply orb_false_elim in H. destruct H as [-> Hs].
  rewrite (IH Hs). reflexivity.
Qed.

(** A file name without a directory is a path of its own. *)
Lemma path_of_file_name (p : string) :
  any (Ascii.eqb "/") p = false -> p <> "" -> p <> "." ->
  PathLib.str (PathLib.of_str p) = p.
Proof.
  intros Hs He Hd. unfold PathLib.str, PathLib.of_str.
  cbn [PathLib.root PathLib.parts].
  rewrite (pieces_no_separator _ _ Hs). cbn [filter].
  assert (Hp : PathLib.is_part p = true).
  { unfold PathLib.is_part. destruct p as [|c p]; [congruence|].
    cbn [nonempty andb]. destruct (String.eqb_spec (String c p) ".");
      [congruence | reflexivity]. }
  rewrite Hp.
  destruct p as [|c p]; [congruence|].
  cbn [any] in Hs. apply orb_false_elim in Hs. destruct Hs as [Hc _].
  destruct (Ascii.eqb_spec "/" c) as [<-|Hn]; [discriminate Hc|].
  assert (Hr : match String c p with
               | String "/" (String "/" (String "/" _)) => "/"
               | String "/" (String "/" _) => "//"
               | String "/" _ => "/"
               | _ => ""
               end = "").
  { destruct c as [[] [] [] [] [] [] [] []]; try reflexivity.
    exfalso. apply Hn. reflexivity. }
  rewrite Hr. reflexivity.
Qed.

(** In a file name [<pre>__13-42-52-946<post>] without an underscore in
    [pre], the milliseconds of the leftmost time are 946. *)
Lemma filename_time_of_file_name (pre post : string) :
  contains "_" pre = false ->
  any (Ascii.eqb "/") (pre ++ "__13-42-52-946" ++ post) = false ->
  _parse_filename_time
    (PathLib.str (PathLib.of_str (pre ++ "__13-42-52-946" ++ post)))
  = Some 946%Z.
Proof.
  intros Hu Hs. rewrite path_of_file_name.
  - apply filename_time_after_plain_prefix. exact Hu.
  - exact Hs.
  - destruct pre; discriminate.
  - destruct pre as [|c [|d pre]]; cbn; discriminate.
Qed.

(** C8 (counterexample). [re.search] stops at the leftmost match: with a
    directory named [day__08-00-00-123] before the file name
    [run__13-42-52-946.txt], the sub-second part of the result is 123 ms. *)
Lemma filename_milliseconds_leftmost_match :
  _parse_filename_time
    (PathLib.str (PathLib.of_str Sample.path_two_times)) = Some 123%Z
  /\ exists o,
       read utc_mktime Sample.lines Sample.path_two_times PyNone
            OpticalSpectrumSeries = Ok o
       /\ Ok (tstamp o)
          = timestamp utc_mktime
              (replace_microsecond Sample.header_dt 123000)
       /\ Ok (tstamp o)
          <> timestamp utc_mktime
               (replace_microsecond Sample.header_dt 946000).
Proof.
  split; [vm_compute; reflexivity|].
  eexists. split; [vm_compute; reflexivity|].
  split; [vm_compute; reflexivity|].
  vm_compute. discriminate.
Qed.

(** C8 (amended). When the leftmost match of [__HH-MM-SS-mmm] in the path
    carries the milliseconds 946, the timestamp of the returned object is
    the one of the header date with its microseconds replaced by 946000,
    whatever microseconds the header date had. *)
Theorem filename_milliseconds_replace_header_fraction
  (mktime : datetime -> Z + time_error)
  (lines : list string) (path_to_file : string)
  (name : pyval) (cls : py_class) (o : SpectrumSeries) :
  _parse_filename_time (PathLib.str (PathLib.of_str path_to_file))
  = Some 946%Z ->
  read mktime lines path_to_file name cls = Ok o ->
  exists dt_header,
    scan_header (firstn 40 lines) = Ok (Some dt_header)
    /\ Ok (tstamp o)
       = timestamp mktime (replace_microsecond dt_header 946000)
    /\ ts_tstamp (fst (fd_axes_series (field o))) = tstamp o
    /\ microsecond (replace_microsecond dt_header 946000) = 946000%Z
    /\ forall us,
         replace_microsecond (replace_microsecond dt_header us) 946000
         = replace_microsecond dt_header 946000.
Proof.
  intros Hms Ho. apply read_ok_inv in Ho.
  destruct Ho as (dt0 & dt & i & wl & wls & rows & t0 & Ho).
  decompose [and] Ho. clear Ho.
  rewrite Hms in *. cbn [refine] in *.
  match goal with H : Some _ = Some dt |- _ => injection H as <- end.
  exists dt0. repeat split; try assumption; try congruence.
Qed.

Lemma filename_milliseconds_replace_header_fraction_witness :
  exists o,
    read utc_mktime Sample.lines Sample.path PyNone OpticalSpectrumSeries
    = Ok o
    /\ exists dt_header,
         scan_header (firstn 40 Sample.lines) = Ok (Some dt_header)
         /\ Ok (tstamp o)
            = timestamp utc_mktime (replace_microsecond dt_header 946000)
         /\ ts_tstamp (fst (fd_axes_series (field o))) = tstamp o
         /\ microsecond (replace_microsecond dt_header 946000) = 946000%Z
         /\ forall us,
              replace_microsecond (replace_microsecond dt_header us) 946000
              = replace_microsecond dt_header 946000.
Proof.
  eexists. split; [vm_compute; reflexivity|].
  apply (filename_milliseconds_replace_header_fraction
           utc_mktime Sample.lines Sample.path PyNone OpticalSpectrumSeries).
  - vm_compute. reflexivity.
  - vm_compute. reflexivity.
Defined.

(** ** The row split *)

(** C2 (what the code does). On a line without a tab the code splits at
    every whitespace character and keeps the second piece only: of
    [00:00:00.000 1.0 2.0 3.0] the remainder is [1.0] and the row has one
    intensity, where the split at the first whitespace run leaves
    [1.0 2.0 3.0]. *)
Theorem split_stamp_without_tab_keeps_one_token :
  _split_stamp "00:00:00.000 1.0 2.0 3.0" = Ok ("00:00:00.000", "1.0")
  /\ Spec.split_stamp "00:00:00.000 1.0 2.0 3.0"
     = ("00:00:00.000", "1.0 2.0 3.0")
  /\ option_map (fun r => List.length (snd r))
       (match parse_row "00:00:00.000 1.0 2.0 3.0" with
        | Ok r => Some r
        | Raise _ => None
        end) = Some 1.
Proof. vm_compute. repeat split. Qed.

(** *** Lines without a tab *)

Lemma split_go_head (ic : bool) (r : regex) (s : string)
  (prev : option ascii) (skip : nat) (cur : string) :
  exists x xs,
    split_go ic r prev s skip cur = x :: xs
    /\ (nonempty cur = true -> nonempty x = true).
Proof.
  revert prev skip cur. induction s as [|c s IH]; intros prev skip cur.
  - destruct skip; cbn [split_go].
    + destruct (option_map span _) as [[|n]|]; eauto.
    + eauto.
  - destruct skip as [|k]; cbn [split_go].
    + assert (Hc : exists x xs,
                 split_go ic r (Some c) s 0 (cur ++ String c "") = x :: xs
                 /\ (nonempty cur = true -> nonempty x = true)).
      { destruct (IH (Some c) 0 (cur ++ String c "")) as (x & xs & E & Hx).
        exists x, xs. split; [exact E|]. intros _. apply Hx.
        destruct cur; reflexivity. }
      destruct (option_map span _) as [[|n]|]; eauto.
    + apply IH.
Qed.

Lemma any_app (p : ascii -> bool) (s t : string) :
  any p (s ++ t) = any p s || any p t.
Proof.
  induction s as [|c s IH]; cbn [append any]; [reflexivity|].
  rewrite IH. apply orb_assoc.
Qed.

Lemma lstrip_no_space (s : string) : any isspace s = false -> lstrip s = s.
Proof.
  destruct s as [|c s]; cbn [any lstrip]; [reflexivity|].
  intros H. apply orb_false_elim in H. destruct H as [-> _]. reflexivity.
Qed.

Lemma rstrip_no_space (s : string) : any isspace s = false -> rstrip s = s.
Proof.
  induction s as [|c s IH]; cbn [any rstrip]; [reflexivity|].
  intros H. apply orb_false_elim in H. destruct H as [Hc Hs].
  rewrite (IH Hs), Hc. destruct s; reflexivity.
Qed.

Lemma strip_no_space (s : string) : any isspace s = false -> strip s = s.
Proof.
  intros H. unfold strip. rewrite (lstrip_no_space _ H).
  apply rstrip_no_space. exact H.
Qed.

Lemma in_class_ws (c : ascii) : in_class false ws c = isspace c.
Proof.
  unfold in_class, ws. cbn [member].
  destruct (Ascii.eqb TAB c) eqn:E; [|apply orb_false_r].
  apply Ascii.eqb_eq in E. subst c. reflexivity.
Qed.

Lemma match_at_ws (prev : option ascii) (s : string) :
  option_map span (match_at false re_ws prev s)
  = match s with
    | String c _ => if isspace c then Some 1 else None
    | "" => None
    end.
Proof.
  unfold match_at, re_ws. cbn [exec]. destruct s as [|c s]; [reflexivity|].
  rewrite in_class_ws. destruct (isspace c); reflexivity.
Qed.

(** The pieces between whitespace characters have no whitespace. *)
Lemma split_go_ws_no_space (s : string) (prev : option ascii) (cur : string) :
  any isspace cur = false ->
  Forall (fun x => any isspace x = false)
         (split_go false re_ws prev s 0 cur).
Proof.
  revert prev cur. induction s as [|c s IH]; intros prev cur Hcur.
  - cbn [split_go]. rewrite match_at_ws. repeat constructor. exact Hcur.
  - cbn [split_go]. rewrite match_at_ws.
    destruct (isspace c) eqn:Hc.
    + constructor; [exact Hcur|]. apply IH. reflexivity.
    + apply IH. rewrite any_app, Hcur. cbn [any]. rewrite Hc. reflexivity.
Qed.

(** Without a tab, what [_split_stamp] returns as the remainder is one
    piece of the line between two whitespace characters: it has no
    whitespace in it and gives at most one intensity. *)
Lemma split_stamp_without_tab (line : string) :
  contains TAB line = false ->
  exists stamp rest,
    _split_stamp line = Ok (stamp, rest)
    /\ any isspace rest = false
    /\ List.length (PyStr.split rest) <= 1.
Proof.
  intros Ht. unfold _split_stamp, Re.split. rewrite Ht.
  pose proof (split_go_ws_no_space (strip line) None "" eq_refl) as HF.
  destruct (split_go_head false re_ws (strip line) None 0 "")
    as (stamp & more & E & _).
  rewrite E in HF |- *.
  - assert (Hr : any isspace (match more with r :: _ => r | [] => "" end)
                 = false).
    { inversion HF as [|? ? _ HF']. destruct more as [|r more'];
        [reflexivity|]. inversion HF'. assumption. }
    exists (strip stamp), (strip (match more with r :: _ => r | [] => "" end)).
    split; [reflexivity|].
    rewrite (strip_no_space _ Hr). split; [exact Hr|].
    unfold PyStr.split. rewrite (pieces_no_separator _ _ Hr). cbn [filter].
    destruct (nonempty _); cbn; lia.
Qed.

(** ** Decimal commas *)


















(** ** Row times *)

(** [x - x] in binary64. *)
Lemma sub_self (x : PyFloat.float) :
  PyFloat.sub x x
  = if PyFloat.is_finite x then S754_zero false else PyFloat.nan.
Proof.
  destruct x as [[]|[]| |s m e]; try reflexivity.
  cbn [PyFloat.is_finite]. unfold PyFloat.sub, SFsub.
  rewrite Z.sub_diag. reflexivity.
Qed.

(** C5 (counterexample). The first data row of this file has the
    timestamp [start], its time is the NaN sentinel, and the first
    relative time of the result is NaN, not zero. *)
Lemma first_relative_time_can_be_nan :
  exists o,
    read utc_mktime Sample.lines_nan_first Sample.path PyNone
         OpticalSpectrumSeries = Ok o
    /\ hd_error (ts_data (fst (fd_axes_series (field o))))
       = Some PyFloat.nan
    /\ hd_error (ts_data (fst (fd_axes_series (field o))))
       <> Some (S754_zero false).
Proof.
  eexists. split; [vm_compute; reflexivity|].
  split; [reflexivity | discriminate].
Qed.

(** C5 (amended). On every file that [read] accepts, the first element
    of the relative times is [t - t] for the time [t] of the first data
    row: exactly zero when [t] is finite, NaN when [t] is the NaN sentinel
    or an infinity. *)
Theorem first_relative_time
  (mktime : datetime -> Z + time_error)
  (lines : list string) (path_to_file : string)
  (name : pyval) (cls : py_class) (o : SpectrumSeries) :
  read mktime lines path_to_file name cls = Ok o ->
  exists i ln rest stamp vals,
    find_start 0 lines = Ok (Some i)
    /\ filter nonblank (skipn (i + 2) lines) = ln :: rest
    /\ _split_stamp ln = Ok (stamp, vals)
    /\ hd_error (ts_data (fst (fd_axes_series (field o))))
       = Some (if PyFloat.is_finite (_parse_row_time stamp)
               then S754_zero false else PyFloat.nan).
Proof.
  intros Ho. apply read_ok_inv in Ho.
  destruct Ho as (dt0 & dt & i & wl & wls & rows & t0 & Ho).
  destruct Ho as (_ & _ & Hi & _ & _ & Hrows & _ & Ht0 & _ & _ & _ & Hts & _).
  destruct rows as [|[t vs] rows]; [discriminate Ht0|].
  injection Ht0 as ->.
  destruct (filter nonblank (skipn (i + 2) lines)) as [|ln rest] eqn:Hd;
    [discriminate Hrows|].
  apply for_each_cons_inv in Hrows.
  destruct Hrows as (b & bs' & Hb & _ & Heq). injection Heq as <- <-.
  apply parse_row_inv in Hb. destruct Hb as (stamp & vals & Hsp & -> & _).
  exists i, ln, rest, stamp, vals.
  repeat (split; [assumption || reflexivity|]).
  rewrite Hts. cbn [Np.subtract_scalar map fst hd_error].
  rewrite sub_self. reflexivity.
Qed.

Lemma first_relative_time_witness :
  exists o,
    read utc_mktime Sample.lines Sample.path PyNone OpticalSpectrumSeries
    = Ok o
    /\ exists i ln rest stamp vals,
         find_start 0 Sample.lines = Ok (Some i)
         /\ filter nonblank (skipn (i + 2) Sample.lines) = ln :: rest
         /\ _split_stamp ln = Ok (stamp, vals)
         /\ hd_error (ts_data (fst (fd_axes_series (field o))))
            = Some (if PyFloat.is_finite (_parse_row_time stamp)
                    then S754_zero false else PyFloat.nan).
Proof.
  eexists. split; [vm_compute; reflexivity|].
  apply (first_relative_time utc_mktime Sample.lines Sample.path PyNone
           OpticalSpectrumSeries).
  vm_compute. reflexivity.
Defined.

(** C7. A timestamp token that none of the five formats parses and that
    is not a number either has the NaN sentinel as its time: the row
    function returns the row with that time and raises nothing, the row
    is among the rows of the file, and its time is still NaN after the
    time of the first row is subtracted. *)
Theorem unparsable_row_time_is_nan (stamp : string) :
  (forall fmt, List.In fmt row_fmts ->
               exists f, strptime (strip stamp) fmt = inr f) ->
  (exists e, PyFloat.parse (replace "," "." (strip stamp)) = Raise e) ->
  _parse_row_time stamp = PyFloat.nan
  /\ (forall ln vals vs,
        _split_stamp ln = Ok (stamp, vals) ->
        for_each to_float (PyStr.split vals) = Ok vs ->
        parse_row ln = Ok (PyFloat.nan, vs))
  /\ (forall data rows ln vals,
        for_each parse_row data = Ok rows ->
        List.In ln data ->
        _split_stamp ln = Ok (stamp, vals) ->
        List.length rows = List.length data
        /\ exists vs, List.In (PyFloat.nan, vs) rows)
  /\ (forall t0, PyFloat.sub PyFloat.nan t0 = PyFloat.nan).
Proof.
  intros Hfmt [e He].
  assert (Hnan : _parse_row_time stamp = PyFloat.nan).
  { unfold _parse_row_time.
    assert (Hnone : forall fmts,
               (forall fmt, List.In fmt fmts ->
                            exists f, strptime (strip stamp) fmt = inr f) ->
               first_format (strip stamp) fmts = None).
    { induction fmts as [|fmt fmts IH]; intros H; [reflexivity|].
      cbn [first_format].
      destruct (H fmt (or_introl eq_refl)) as [f ->].
      apply IH. intros fmt' Hin. apply H. right. exact Hin. }
    rewrite (Hnone _ Hfmt). unfold bare_number, to_float. rewrite He.
    reflexivity. }
  split; [exact Hnan|]. split; [|split].
  - intros ln vals vs Hsp Hvs. unfold parse_row.
    rewrite Hsp. cbn [bind]. rewrite Hvs. cbn [bind]. rewrite Hnan.
    reflexivity.
  - intros data rows ln vals Hrows Hin Hsp.
    split; [exact (for_each_length _ _ _ Hrows)|].
    destruct (for_each_in _ _ _ _ Hrows Hin) as ([t vs] & Hb & Hin').
    apply parse_row_inv in Hb. destruct Hb as (stamp' & vals' & Hsp' & -> & _).
    rewrite Hsp in Hsp'. injection Hsp' as <- <-.
    exists vs. rewrite <- Hnan. exact Hin'.
  - intros t0. reflexivity.
Qed.

Lemma unparsable_row_time_is_nan_witness :
  _parse_row_time "start" = PyFloat.nan
  /\ (forall ln vals vs,
        _split_stamp ln = Ok ("start", vals) ->
        for_each to_float (PyStr.split vals) = Ok vs ->
        parse_row ln = Ok (PyFloat.nan, vs))
  /\ (forall data rows ln vals,
        for_each parse_row data = Ok rows ->
        List.In ln data ->
        _split_stamp ln = Ok ("start", vals) ->
        List.length rows = List.length data
        /\ exists vs, List.In (PyFloat.nan, vs) rows)
  /\ (forall t0, PyFloat.sub PyFloat.nan t0 = PyFloat.nan).
Proof.
  apply unparsable_row_time_is_nan.
  - intros fmt Hin. cbv [row_fmts List.In] in Hin.
    repeat (destruct Hin as [<- | Hin];
            [eexists; vm_compute; reflexivity|]).
    destruct Hin.
  - eexists. vm_compute. reflexivity.
Defined.

(** ** The data section *)

Lemma has_data_section_cons (ln : string) (rest : list string) :
  Spec.has_data_section (ln :: rest)
  <-> (is_marker ln = true
       /\ exists nxt, hd_error rest = Some nxt /\ starts_with_digit nxt = true)
      \/ Spec.has_data_section rest.
Proof.
  unfold Spec.has_data_section. split.
  - intros (i & l & nxt & Hl & Hn & Hm & Hd). destruct i as [|i].
    + left. cbn in Hl, Hn. injection Hl as <-. split; [exact Hm|].
      exists nxt. split; [|exact Hd]. destruct rest; [discriminate|].
      cbn in Hn |- *. exact Hn.
    + right. exists i, l, nxt. auto.
  - intros [(Hm & nxt & Hn & Hd) | (i & l & nxt & Hl & Hn & Hm & Hd)].
    + exists 0, ln, nxt. repeat split; assumption.
    + exists (S i), l, nxt. auto.
Qed.

(** The loop finds the section exactly when there is one, as long as it
    never has to look past the last line. *)
Lemma find_start_spec (ls : list string) (i : nat) :
  is_marker (last ls "") = false ->
  (find_start i ls = Ok None /\ ~ Spec.has_data_section ls)
  \/ (exists k, find_start i ls = Ok (Some k) /\ Spec.has_data_section ls).
Proof.
  revert i. induction ls as [|ln rest IH]; intros i Hlast.
  - left. split; [reflexivity|].
    intros (j & l & nxt & Hl & _). destruct j; discriminate Hl.
  - cbn [find_start].
    pose proof (has_data_section_cons ln rest) as Hc.
    destruct rest as [|nxt rest'].
    + cbn [last] in Hlast. rewrite Hlast. left. split; [reflexivity|].
      intros Hs. apply Hc in Hs.
      destruct Hs as [(Hm & _) | (j & l & n & Hl & _)]; [congruence|].
      destruct j; discriminate Hl.
    + assert (Hlast' : is_marker (last (nxt :: rest') "") = false)
        by exact Hlast.
      specialize (IH (S i) Hlast').
      destruct (is_marker ln) eqn:Hm.
      * cbn [index nth_error bind].
        destruct (starts_with_digit nxt) eqn:Hd.
        -- right. exists i. split; [reflexivity|]. apply Hc. left.
           split; [reflexivity|]. exists nxt. split; [reflexivity|exact Hd].
        -- destruct IH as [[Hf Hn] | (k & Hf & Hs)].
           ++ left. split; [exact Hf|].
              intros Hs. apply Hc in Hs.
              destruct Hs as [(_ & n & Hn' & Hd') | Hs]; [|exact (Hn Hs)].
              cbn in Hn'. injection Hn' as <-. congruence.
           ++ right. exists k. split; [exact Hf | apply Hc; right; exact Hs].
      * destruct IH as [[Hf Hn] | (k & Hf & Hs)].
        -- left. split; [exact Hf|].
           intros Hs. apply Hc in Hs.
           destruct Hs as [(Hm' & _) | Hs]; [congruence | exact (Hn Hs)].
        -- right. exists k. split; [exact Hf | apply Hc; right; exact Hs].
Qed.

(** Where the loop stops, the next line starts with a digit. *)
Lemma find_start_some (ls : list string) (i k : nat) :
  find_start i ls = Ok (Some k) ->
  exists j nxt,
    k = i + j /\ nth_error ls (S j) = Some nxt
    /\ starts_with_digit nxt = true.
Proof.
  revert i. induction ls as [|ln rest IH]; intros i H; [discriminate H|].
  cbn [find_start] in H.
  assert (Hrec : find_start (S i) rest = Ok (Some k) ->
                 exists j nxt, k = i + j /\ nth_error (ln :: rest) (S j) = Some nxt
                               /\ starts_with_digit nxt = true).
  { intros Hr. destruct (IH _ Hr) as (j & nxt & -> & Hn & Hd).
    exists (S j), nxt. split; [lia|]. split; [exact Hn | exact Hd]. }
  destruct (is_marker ln); [|exact (Hrec H)].
  destruct rest as [|nxt rest']; [discriminate H|].
  cbn [index nth_error bind] in H.
  destruct (starts_with_digit nxt) eqn:Hd; [|exact (Hrec H)].
  injection H as <-. exists 0, nxt.
  split; [lia|]. split; [reflexivity | exact Hd].
Qed.

(** *** A line that starts with a digit has a first token *)

Lemma isspace_not_digit (c : ascii) : isspace c = true -> isdigit c = false.
Proof.
  unfold isspace, isdigit, in_range. generalize (code c) as n. intros n H.
  repeat rewrite ?orb_true_iff, ?andb_true_iff, ?N.leb_le, ?N.eqb_eq in H.
  apply andb_false_iff.
  rewrite !N.leb_gt. lia.
Qed.

Lemma leading_digit_lstrip {R} (s : string) (pos : nat)
  (prev : option ascii) (m : R)
  (k : nat -> option ascii -> string -> option R) :
  (forall n p s' x, k n p s' = Some x ->
                    exists d t, s' = String d t /\ isdigit d = true) ->
  rep false CSpace 0 None pos prev s k = Some m ->
  exists d t, lstrip s = String d t /\ isdigit d = true.
Proof.
  intros Hk. revert pos prev m.
  induction s as [|c s IH]; intros pos prev m H.
  - cbn [rep] in H. unfold halt in H. cbn [Nat.eqb] in H.
    destruct (Hk _ _ _ _ H) as (d & t & E & _). discriminate E.
  - cbn [rep] in H. cbn [lstrip].
    assert (Hhalt : halt 0 pos prev (String c s) k = Some m ->
                    exists d t, (if isspace c then lstrip s else String c s)
                                = String d t /\ isdigit d = true).
    { unfold halt. cbn [Nat.eqb]. intros Hh.
      destruct (Hk _ _ _ _ Hh) as (d & t & E & Hd). injection E as <- <-.
      destruct (isspace c) eqn:Hs.
      - apply isspace_not_digit in Hs. congruence.
      - exists c, s. auto. }
    change (in_class false CSpace c) with (isspace c) in H.
    cbn [more andb] in H.
    destruct (isspace c) eqn:Hs.
    + destruct (rep false CSpace _ _ _ _ s _) eqn:Hr.
      * exact (IH _ _ _ Hr).
      * exact (Hhalt H).
    + exact (Hhalt H).
Qed.

Lemma starts_with_digit_strip (ln : string) :
  starts_with_digit ln = true ->
  exists d t, strip ln = String d t /\ isspace d = false.
Proof.
  unfold starts_with_digit, match_, match_at, re_leading_digit.
  cbn [cat exec]. intros H.
  destruct (rep false CSpace 0 None 0 None ln _) as [m|] eqn:Hr;
    [|discriminate H].
  apply leading_digit_lstrip in Hr.
  - destruct Hr as (d & t & Hl & Hd).
    assert (Hs : isspace d = false).
    { destruct (isspace d) eqn:Hs; [|reflexivity].
      apply isspace_not_digit in Hs. congruence. }
    unfold strip. rewrite Hl. cbn [rstrip]. rewrite Hs.
    destruct (rstrip t); eauto.
  - intros n p s' x Hx. destruct s' as [|a s']; [discriminate Hx|].
    unfold in_class in Hx. cbn [member] in Hx.
    destruct (isdigit a) eqn:Ha; [eauto | discriminate Hx].
Qed.

Lemma parse_float_row_nonempty (ln : string) :
  starts_with_digit ln = true ->
  forall wavelengths,
    _parse_float_row (strip ln) = Ok wavelengths ->
    (List.length wavelengths =? 0) = false.
Proof.
  intros H wls. apply starts_with_digit_strip in H.
  destruct H as (d & t & -> & Hd).
  unfold _parse_float_row, Re.split.
  assert (Hs : exists t', strip (String d t) = String d t').
  { unfold strip. cbn [lstrip]. rewrite Hd. cbn [rstrip]. rewrite Hd.
    destruct (rstrip t); eauto. }
  destruct Hs as [t' ->].
  cbn [split_go].
  assert (Hm : match_at false re_ws_run None (String d t') = None).
  { unfold match_at, re_ws_run. cbn [exec rep more andb].
    unfold in_class, ws. cbn [member]. rewrite Hd.
    destruct (Ascii.eqb TAB d) eqn:Ht.
    - apply Ascii.eqb_eq in Ht. subst d. discriminate Hd.
    - reflexivity. }
  rewrite Hm. cbn [option_map].
  destruct (split_go_head false re_ws_run t' (Some d) 0 ("" ++ String d ""))
    as (x & xs & -> & Hx).
  cbn [filter]. rewrite (Hx eq_refl). cbn [for_each].
  intros Hw. bind_inv Hw as b Hb. bind_inv Hw as bs Hbs.
  injection Hw as <-. reflexivity.
Qed.

(** *** Which errors the steps of [read] raise *)

Lemma to_float_raise (tok : string) (e : exn) :
  to_float tok = Raise e -> ~ Spec.data_format_error e.
Proof.
  unfold to_float, PyFloat.parse.
  destruct (PyFloat.drop_underscores _ _) as [t|];
    [destruct (PyFloat.number t)|]; intros H; try discriminate H;
    injection H as <-; intros [E|E]; discriminate E.
Qed.

Lemma parse_float_row_raise (s : string) (e : exn) :
  _parse_float_row s = Raise e -> ~ Spec.data_format_error e.
Proof.
  unfold _parse_float_row. intros H. apply for_each_raise in H.
  destruct H as (tok & _ & H). exact (to_float_raise _ _ H).
Qed.

Lemma split_stamp_raise (ln : string) (e : exn) :
  _split_stamp ln = Raise e -> ~ Spec.data_format_error e.
Proof.
  unfold _split_stamp.
  destruct (contains TAB ln).
  - destruct (split1 TAB ln) as [|a [|b [|c l]]]; intros H;
      try discriminate H; injection H as <-; intros [E|E]; discriminate E.
  - destruct (Re.split false re_ws (strip ln)); intros H;
      try discriminate H; injection H as <-; intros [E|E]; discriminate E.
Qed.

Lemma parse_row_raise (ln : string) (e : exn) :
  parse_row ln = Raise e -> ~ Spec.data_format_error e.
Proof.
  unfold parse_row. intros H.
  apply bind_raise in H. destruct H as [H | ([stamp vals] & _ & H)].
  - exact (split_stamp_raise _ _ H).
  - apply bind_raise in H. destruct H as [H | (vs & _ & H)]; [|discriminate H].
    apply for_each_raise in H. destruct H as (tok & _ & H).
    exact (to_float_raise _ _ H).
Qed.

Lemma stack_raise (rows : list (list PyFloat.float)) (e : exn) :
  Np.stack rows = Raise e -> ~ Spec.data_format_error e.
Proof.
  unfold Np.stack. destruct rows as [|r rs].
  - intros H. injection H as <-. intros [E|E]; discriminate E.
  - destruct (forallb _ rs); intros H; [discriminate H|].
    injection H as <-. intros [E|E]; discriminate E.
Qed.

Lemma time_exn_raise (te : time_error) :
  ~ Spec.data_format_error (time_exn te).
Proof. destruct te; intros [E|E]; discriminate E. Qed.

Lemma index_raise {A} (l : list A) (i : nat) (e : exn) :
  index l i = Raise e -> ~ Spec.data_format_error e.
Proof.
  unfold index. destruct (nth_error l i); intros H; [discriminate H|].
  injection H as <-. intros [E|E]; discriminate E.
Qed.

(** Once the section is found, [read] raises no data-format error. *)
Lemma read_after_section (mktime : datetime -> Z + time_error)
  (lines : list string)
  (path_to_file : string) (name : pyval) (cls : py_class)
  (dt : datetime) (i : nat) (e : exn) :
  scan_header (firstn 40 lines) = Ok (Some dt) ->
  find_start 0 lines = Ok (Some i) ->
  read mktime lines path_to_file name cls = Raise e ->
  ~ Spec.data_format_error e.
Proof.
  intros Hh Hf. unfold read. rewrite Hh. cbn [bind].
  destruct (refine _ (Some dt)) as [dt'|] eqn:Hre; cycle 1.
  { unfold refine in Hre. destruct (_parse_filename_time _); discriminate Hre. }
  destruct (timestamp mktime dt') as [ts|e'] eqn:Hts; cbn [bind]; cycle 1.
  { intros H. injection H as <-.
    destruct (timestamp_raise _ _ _ Hts) as (te & _ & ->).
    apply time_exn_raise. }
  rewrite Hf. cbn [bind].
  destruct (find_start_some _ _ _ Hf) as (j & nxt & -> & Hn & Hd).
  cbn [Nat.add] in *.
  replace (j + 1) with (S j) by lia.
  unfold index at 1. rewrite Hn. cbn [bind].
  intros H. apply bind_raise in H. destruct H as [H | (wls & Hw & H)].
  { exact (parse_float_row_raise _ _ H). }
  rewrite (parse_float_row_nonempty _ Hd _ Hw) in H.
  apply bind_raise in H. destruct H as [H | (rows & _ & H)].
  { apply for_each_raise in H. destruct H as (ln & _ & H).
    exact (parse_row_raise _ _ H). }
  apply bind_raise in H. destruct H as [H | (y & _ & H)].
  { exact (stack_raise _ _ H). }
  apply bind_raise in H. destruct H as [H | (t0 & _ & H)].
  { exact (index_raise _ _ _ H). }
  discriminate H.
Qed.

Lemma no_data_section_by_search (ls : list string) :
  is_marker (last ls "") = false ->
  find_start 0 ls = Ok None ->
  ~ Spec.has_data_section ls.
Proof.
  intros Hl Hf. destruct (find_start_spec ls 0 Hl) as [[_ Hn] | (k & Hk & _)].
  - exact Hn.
  - congruence.
Qed.

(** C6 (counterexample). The header comes first: this file has no data
    section, and [read] raises the header-date error, not the
    data-format error. *)
Lemma header_error_before_data_section_error :
  ~ Spec.has_data_section Sample.lines_bad_date
  /\ read utc_mktime Sample.lines_bad_date Sample.path PyNone
          OpticalSpectrumSeries
     = Raise (ValueError (CouldNotParseHeaderDate "yesterday"))
  /\ read utc_mktime Sample.lines_bad_date Sample.path PyNone
          OpticalSpectrumSeries
     <> Raise (ValueError NoSpectralDataSection).
Proof.
  split; [apply no_data_section_by_search; vm_compute; reflexivity|].
  split; [vm_compute; reflexivity|].
  vm_compute. discriminate.
Qed.

(** So does [dt_header.timestamp()]: this file has no data section and
    its header date parses, to the first day of year 1, on which
    [timestamp()] raises "year 0 is out of range". *)
Lemma timestamp_error_before_data_section_error :
  ~ Spec.has_data_section Sample.lines_year_one
  /\ is_marker (last Sample.lines_year_one "") = false
  /\ scan_header (firstn 40 Sample.lines_year_one)
     = Ok (Some {| year := 1; month := 1; day := 1; hour := 0; minute := 0;
                   second := 0; microsecond := 0 |})
  /\ read utc_mktime Sample.lines_year_one Sample.path PyNone
          OpticalSpectrumSeries
     = Raise (ValueError (YearOutOfRange 0)).
Proof.
  split; [apply no_data_section_by_search; vm_compute; reflexivity|].
  repeat split; vm_compute; reflexivity.
Qed.

(** A marker on the last line of the file: [lines[i + 1]] is out of
    range. *)
Lemma marker_on_last_line :
  read utc_mktime Sample.lines_marker_last Sample.path PyNone
       OpticalSpectrumSeries
  = Raise IndexError.
Proof. vm_compute. reflexivity. Qed.

(** C6 (amended). On a file whose header date parses to a date-time for
    which [timestamp()] returns, and whose last line is not a marker
    line, [read] raises "No spectral data section found!" exactly when no
    marker line is immediately followed by a line that starts with a
    digit; it raises no other data-format error, the wavelength row of a
    section that was found having at least one token. *)
Theorem data_section_error
  (mktime : datetime -> Z + time_error)
  (lines : list string) (path_to_file : string)
  (name : pyval) (cls : py_class) :
  (exists dt dt' ts,
     scan_header (firstn 40 lines) = Ok (Some dt)
     /\ refine (_parse_filename_time
                  (PathLib.str (PathLib.of_str path_to_file))) (Some dt)
        = Some dt'
     /\ timestamp mktime dt' = Ok ts) ->
  is_marker (last lines "") = false ->
  (read mktime lines path_to_file name cls
   = Raise (ValueError NoSpectralDataSection)
   <-> ~ Spec.has_data_section lines)
  /\ (forall e,
        read mktime lines path_to_file name cls = Raise e ->
        Spec.data_format_error e ->
        e = ValueError NoSpectralDataSection).
Proof.
  intros (dt & dt' & ts & Hh & Hre & Hts) Hlast.
  assert (Hnone : find_start 0 lines = Ok None ->
                  read mktime lines path_to_file name cls
                  = Raise (ValueError NoSpectralDataSection)).
  { intros Hf. unfold read. rewrite Hh. cbn [bind].
    rewrite Hre, Hts. cbn [bind]. rewrite Hf. reflexivity. }
  destruct (find_start_spec lines 0 Hlast) as [[Hf Hn] | (k & Hf & Hs)].
  - split.
    + split; [intros _; exact Hn | intros _; exact (Hnone Hf)].
    + intros e He _. rewrite (Hnone Hf) in He. congruence.
  - split.
    + split.
      * intros He. exfalso.
        apply (read_after_section _ _ _ _ _ _ _ _ Hh Hf He).
        left. reflexivity.
      * intros Hn. exfalso. exact (Hn Hs).
    + intros e He Hd. exfalso.
      exact (read_after_section _ _ _ _ _ _ _ _ Hh Hf He Hd).
Qed.

Lemma data_section_error_witness :
  (read utc_mktime Sample.lines_no_section Sample.path PyNone
        OpticalSpectrumSeries
   = Raise (ValueError NoSpectralDataSection)
   <-> ~ Spec.has_data_section Sample.lines_no_section)
  /\ (forall e,
        read utc_mktime Sample.lines_no_section Sample.path PyNone
             OpticalSpectrumSeries = Raise e ->
        Spec.data_format_error e ->
        e = ValueError NoSpectralDataSection).
Proof.
  apply data_section_error.
  - do 3 eexists.
    split; [vm_compute; reflexivity|].
    split; [vm_compute; reflexivity|].
    vm_compute. reflexivity.
  - vm_compute. reflexivity.
Defined.

(** The sample without a section does raise the error, and the sample
    with one does not. *)
Lemma data_section_error_examples :
  read utc_mktime Sample.lines_no_section Sample.path PyNone
       OpticalSpectrumSeries
  = Raise (ValueError NoSpectralDataSection)
  /\ Spec.has_data_section Sample.lines
  /\ is_ok (read utc_mktime Sample.lines Sample.path PyNone
                 OpticalSpectrumSeries) = true.
Proof.
  split; [vm_compute; reflexivity|]. split; [|vm_compute; reflexivity].
  exists 2. do 2 eexists.
  split; [reflexivity|]. split; [reflexivity|].
  split; vm_compute; reflexivity.
Qed.

(** The error for an empty wavelength row is never raised: the header
    raises other errors, and past the header the row has a token. *)
Lemma scan_header_raise (ls : list string) (e : exn) :
  scan_header ls = Raise e -> ~ Spec.data_format_error e.
Proof.
  assert (Hac : forall s e', after_colon s = Raise e' ->
                             ~ Spec.data_format_error e').
  { unfold after_colon. intros s e' H.
    apply bind_raise in H. destruct H as [H | (x & _ & H)]; [|discriminate H].
    exact (index_raise _ _ _ H). }
  induction ls as [|ln ls IH]; cbn [scan_header]; intros H; [discriminate H|].
  destruct (startswith (lower ln) "date:"); [|exact (IH H)].
  apply bind_raise in H. destruct H as [H | (ds & _ & H)]; [exact (Hac _ _ H)|].
  apply bind_raise in H. destruct H as [H | (x & _ & H)]; [|discriminate H].
  unfold _parse_header_date in H.
  apply bind_raise in H. destruct H as [H | (s & _ & H)].
  - destruct (startswith _ _); [exact (Hac _ _ H) | discriminate H].
  - destruct (first_format _ _); [discriminate H|].
    injection H as <-. intros [E|E]; discriminate E.
Qed.

Lemma find_start_raise (ls : list string) (i : nat) (e : exn) :
  find_start i ls = Raise e -> e = IndexError.
Proof.
  revert i. induction ls as [|ln rest IH]; cbn [find_start]; intros i H;
    [discriminate H|].
  destruct (is_marker ln); [|exact (IH _ H)].
  destruct rest as [|nxt rest'].
  - cbn in H. congruence.
  - cbn [index nth_error bind] in H.
    destruct (starts_with_digit nxt); [discriminate H | exact (IH _ H)].
Qed.

Lemma wavelength_line_empty_unreachable
  (mktime : datetime -> Z + time_error)
  (lines : list string) (path_to_file : string)
  (name : pyval) (cls : py_class) :
  read mktime lines path_to_file name cls
  <> Raise (ValueError WavelengthLineEmpty).
Proof.
  intros H.
  assert (Hd : Spec.data_format_error (ValueError WavelengthLineEmpty))
    by (right; reflexivity).
  destruct (scan_header (firstn 40 lines)) as [[dt|]|e] eqn:Hh.
  - destruct (find_start 0 lines) as [[i|]|e] eqn:Hf.
    + exact (read_after_section _ _ _ _ _ _ _ _ Hh Hf H Hd).
    + unfold read in H. rewrite Hh in H. cbn [bind] in H.
      destruct (refine _ (Some dt)) as [dt'|] eqn:Hre; cycle 1.
      { unfold refine in Hre.
        destruct (_parse_filename_time _); discriminate Hre. }
      destruct (timestamp mktime dt') as [ts|e'] eqn:Hts; cbn [bind] in H.
      * rewrite Hf in H. discriminate H.
      * injection H as ->.
        destruct (timestamp_raise _ _ _ Hts) as (te & _ & Hte).
        destruct te; discriminate Hte.
    + unfold read in H. rewrite Hh in H. cbn [bind] in H.
      destruct (refine _ (Some dt)) as [dt'|] eqn:Hre; cycle 1.
      { unfold refine in Hre.
        destruct (_parse_filename_time _); discriminate Hre. }
      destruct (timestamp mktime dt') as [ts|e'] eqn:Hts; cbn [bind] in H.
      * rewrite Hf in H. cbn [bind] in H.
        apply find_start_raise in Hf. congruence.
      * injection H as ->.
        destruct (timestamp_raise _ _ _ Hts) as (te & _ & Hte).
        destruct te; discriminate Hte.
  - unfold read in H. rewrite Hh in H. cbn [bind] in H.
    destruct (_parse_filename_time _); discriminate H.
  - unfold read in H. rewrite Hh in H. cbn [bind] in H.
    injection H as ->. exact (scan_header_raise _ _ Hh Hd).
Qed.

(** ** Formats tried in order *)

Lemma first_format_some (s : string) (fmts : list string) (dt : datetime) :
  first_format s fmts = Some dt ->
  exists fmt, List.In fmt fmts /\ strptime s fmt = inl dt.
Proof.
  induction fmts as [|fmt fmts IH]; cbn [first_format]; intros H.
  - discriminate H.
  - destruct (strptime s fmt) as [dt'|f] eqn:Hs.
    + injection H as ->. exists fmt. split; [left; reflexivity | exact Hs].
    + destruct (IH H) as (fmt' & Hin & Hs').
      exists fmt'. split; [right; exact Hin | exact Hs'].
Qed.

Lemma first_format_none (s : string) (fmts : list string) :
  first_format s fmts = None ->
  forall fmt, List.In fmt fmts -> exists f, strptime s fmt = inr f.
Proof.
  induction fmts as [|fmt fmts IH]; cbn [first_format]; intros H x Hin.
  - destruct Hin.
  - destruct (strptime s fmt) as [dt'|f] eqn:Hs; [discriminate H|].
    destruct Hin as [<- | Hin]; [eauto | exact (IH H x Hin)].
Qed.

Lemma strptime_valid (s fmt : string) (dt : datetime) :
  strptime s fmt = inl dt -> valid dt = true.
Proof.
  unfold strptime. destruct (pattern false fmt); [|discriminate].
  destruct (match_ true _ s); [|discriminate].
  destruct (negb _); [discriminate|].
  destruct (valid (fields _)) eqn:Hv; [|discriminate].
  intros H. injection H as <-. exact Hv.
Qed.

Lemma valid_time_of_day (dt : datetime) :
  valid dt = true ->
  (0 <= hour dt * 3600 + minute dt * 60 + second dt < 86400)%Z
  /\ (0 <= microsecond dt < 1000000)%Z.
Proof.
  unfold valid. intros H.
  repeat (apply andb_prop in H; destruct H as [H ?]).
  repeat match goal with
         | H : (_ <=? _)%Z = true |- _ => apply Z.leb_le in H
         end.
  lia.
Qed.

(** ** Date-times as the instrument writes them *)

Import Iso.

Ltac split_digit a :=
  destruct a as [|[|[|[|[|[|[|[|[|[|a]]]]]]]]]]; [..|exfalso; lia].

Lemma isdigit_digit_char (a : nat) : a < 10 -> isdigit (digit_char a) = true.
Proof. intros H. split_digit a; reflexivity. Qed.

Lemma digit_literal (x c : ascii) :
  isdigit c = true -> isdigit x = false -> lit_eq true x c = false.
Proof.
  intros Hc Hx. unfold lit_eq.
  destruct (Ascii.eqb (lower_char x) (lower_char c)) eqn:E; [|reflexivity].
  apply Ascii.eqb_eq in E. exfalso.
  assert (Hl : lower_char c = c).
  { destruct c as [[] [] [] [] [] [] [] []]; try discriminate Hc;
      reflexivity. }
  rewrite Hl in E. subst c.
  destruct x as [[] [] [] [] [] [] [] []]; try discriminate Hx;
    discriminate Hc.
Qed.

Lemma digit_not_space_class (c : ascii) :
  isdigit c = true -> in_class true CSpace c = false.
Proof.
  destruct c as [[] [] [] [] [] [] [] []]; intros H; try discriminate H;
    reflexivity.
Qed.

Lemma digit_class (c : ascii) :
  isdigit c = true -> in_class true CDigit c = true.
Proof.
  destruct c as [[] [] [] [] [] [] [] []]; intros H; try discriminate H;
    reflexivity.
Qed.

Lemma literal_wants_separator {R} (x : ascii) (r : regex)
  (k : nat -> option ascii -> string -> groups -> option R) :
  isdigit x = false ->
  wants_separator (fun n p s g => exec true (Cat (Lit x) r) n p s g k).
Proof.
  intros Hx n p c s g Hc. cbn [exec]. rewrite (digit_literal _ _ Hc Hx).
  reflexivity.
Qed.

Lemma spaces_want_separator {R} (r : regex)
  (k : nat -> option ascii -> string -> groups -> option R) :
  wants_separator
    (fun n p s g => exec true (Cat (Repeat CSpace 1 None) r) n p s g k).
Proof.
  intros n p c s g Hc. cbn [exec rep more andb].
  rewrite (digit_not_space_class _ Hc). reflexivity.
Qed.

Lemma sub_two (n : nat) : S (S n) - n = 2.
Proof. lia. Qed.

Local Arguments Nat.sub : simpl nomatch.

Ltac two_digit_field a b HK :=
  split_digit a; split_digit b; try lia;
  unfold re_of; cbn; rewrite ?sub_two; cbn [take];
  rewrite ?HK by reflexivity;
  repeat match goal with
         | |- context [match ?X with Some _ => _ | None => _ end] =>
             destruct X
         end;
  reflexivity.

Section Fields.

Context {R : Type}.
Variables (pos : nat) (prev : option ascii) (rest : string) (g : groups).
Variable K : nat -> option ascii -> string -> groups -> option R.
Hypothesis HK : wants_separator K.

Lemma field_m (a b : nat) :
  a < 10 -> b < 10 -> 1 <= 10 * a + b <= 12 ->
  exec true (re_of "m") pos prev
    (String (digit_char a) (String (digit_char b) rest)) g K
  = K (S (S pos)) (Some (digit_char b)) rest
      (("m", String (digit_char a) (String (digit_char b) "")) :: g).
Proof. intros Ha Hb Hr. two_digit_field a b HK. Qed.

Lemma field_d (a b : nat) :
  a < 10 -> b < 10 -> 1 <= 10 * a + b <= 31 ->
  exec true (re_of "d") pos prev
    (String (digit_char a) (String (digit_char b) rest)) g K
  = K (S (S pos)) (Some (digit_char b)) rest
      (("d", String (digit_char a) (String (digit_char b) "")) :: g).
Proof. intros Ha Hb Hr. two_digit_field a b HK. Qed.

Lemma field_H (a b : nat) :
  a < 10 -> b < 10 -> 10 * a + b < 24 ->
  exec true (re_of "H") pos prev
    (String (digit_char a) (String (digit_char b) rest)) g K
  = K (S (S pos)) (Some (digit_char b)) rest
      (("H", String (digit_char a) (String (digit_char b) "")) :: g).
Proof. intros Ha Hb Hr. two_digit_field a b HK. Qed.

Lemma field_M (a b : nat) :
  a < 10 -> b < 10 -> 10 * a + b < 60 ->
  exec true (re_of "M") pos prev
    (String (digit_char a) (String (digit_char b) rest)) g K
  = K (S (S pos)) (Some (digit_char b)) rest
      (("M", String (digit_char a) (String (digit_char b) "")) :: g).
Proof. intros Ha Hb Hr. two_digit_field a b HK. Qed.

End Fields.

Section MoreFields.

Context {R : Type}.
Variables (pos : nat) (prev : option ascii) (rest : string) (g : groups).
Variable K : nat -> option ascii -> string -> groups -> option R.

Lemma field_S (a b : nat) :
  wants_separator K ->
  a < 10 -> b < 10 -> 10 * a + b < 60 ->
  exec true (re_of "S") pos prev
    (String (digit_char a) (String (digit_char b) rest)) g K
  = K (S (S pos)) (Some (digit_char b)) rest
      (("S", String (digit_char a) (String (digit_char b) "")) :: g).
Proof. intros HK Ha Hb Hr. two_digit_field a b HK. Qed.

Lemma field_S_found (a b : nat) (x : R) :
  a < 10 -> b < 10 -> 10 * a + b < 60 ->
  K (S (S pos)) (Some (digit_char b)) rest
    (("S", String (digit_char a) (String (digit_char b) "")) :: g) = Some x ->
  exec true (re_of "S") pos prev
    (String (digit_char a) (String (digit_char b) rest)) g K
  = Some x.
Proof.
  intros Ha Hb Hr Hx. split_digit a; split_digit b; try lia;
    unfold re_of; cbn; rewrite ?sub_two; cbn [take];
    cbn in Hx; rewrite Hx; reflexivity.
Qed.

Lemma sub_four (n : nat) : S (S (S (S n))) - n = 4.
Proof. lia. Qed.

Lemma field_Y (a b c d : nat) :
  a < 10 -> b < 10 -> c < 10 -> d < 10 ->
  exec true (re_of "Y") pos prev
    (String (digit_char a) (String (digit_char b)
       (String (digit_char c) (String (digit_char d) rest)))) g K
  = K (S (S (S (S pos)))) (Some (digit_char d)) rest
      (("Y", String (digit_char a) (String (digit_char b)
               (String (digit_char c) (String (digit_char d) "")))) :: g).
Proof.
  intros Ha Hb Hc Hd. unfold re_of. cbn [directive cat digit exec].
  rewrite !digit_class by (apply isdigit_digit_char; assumption).
  rewrite sub_four. reflexivity.
Qed.

(** Three digits in a row are no hour followed by a separator. *)
Lemma field_H_three_digits (a b c : nat) :
  wants_separator K ->
  a < 10 -> b < 10 -> c < 10 ->
  exec true (re_of "H") pos prev
    (String (digit_char a) (String (digit_char b)
       (String (digit_char c) rest))) g K
  = None.
Proof.
  intros HK Ha Hb Hc.
  pose proof (isdigit_digit_char c Hc) as Hdc.
  split_digit a; split_digit b;
    unfold re_of; cbn;
    rewrite ?HK by (reflexivity || exact Hdc); reflexivity.
Qed.

(** One space between the date and the time. *)
Lemma one_space (a : nat)
  (k : nat -> option ascii -> string -> option R) :
  a < 10 ->
  rep true CSpace 1 None pos prev
    (String " " (String (digit_char a) rest)) k
  = k (S pos) (Some " "%char) (String (digit_char a) rest).
Proof.
  intros Ha. cbn [rep more andb pred option_map].
  rewrite (digit_not_space_class _ (isdigit_digit_char a Ha)).
  change (in_class true CSpace " ") with true. cbn iota.
  unfold halt. cbn [Nat.eqb].
  destruct (k _ _ _); reflexivity.
Qed.

End MoreFields.

Lemma date_time_prefix {R} (y3 y2 y1 y0 m1 m0 d1 d0 h1 h0 n1 n0 : nat)
  (tail : string) (r : regex)
  (k : nat -> option ascii -> string -> groups -> option R) :
  y3 < 10 -> y2 < 10 -> y1 < 10 -> y0 < 10 ->
  m1 < 10 -> m0 < 10 -> 1 <= 10 * m1 + m0 <= 12 ->
  d1 < 10 -> d0 < 10 -> 1 <= 10 * d1 + d0 <= 31 ->
  h1 < 10 -> h0 < 10 -> 10 * h1 + h0 < 24 ->
  n1 < 10 -> n0 < 10 -> 10 * n1 + n0 < 60 ->
  exec true
    (Cat (re_of "Y") (Cat (Lit "-") (Cat (re_of "m") (Cat (Lit "-")
      (Cat (re_of "d") (Cat (Repeat CSpace 1 None)
        (Cat (re_of "H") (Cat (Lit ":") (Cat (re_of "M") (Cat (Lit ":")
          r))))))))))
    0 None
    (String (digit_char y3) (String (digit_char y2) (String (digit_char y1)
      (String (digit_char y0) (String "-"
      (String (digit_char m1) (String (digit_char m0) (String "-"
      (String (digit_char d1) (String (digit_char d0) (String " "
      (String (digit_char h1) (String (digit_char h0) (String ":"
      (String (digit_char n1) (String (digit_char n0) (String ":"
      tail)))))))))))))))))
    [] k
  = exec true r 17 (Some ":"%char) tail
      [("M", String (digit_char n1) (String (digit_char n0) ""));
       ("H", String (digit_char h1) (String (digit_char h0) ""));
       ("d", String (digit_char d1) (String (digit_char d0) ""));
       ("m", String (digit_char m1) (String (digit_char m0) ""));
       ("Y", String (digit_char y3) (String (digit_char y2)
               (String (digit_char y1) (String (digit_char y0) ""))))]
      k.
Proof.
  intros.
  cbn [exec]. rewrite field_Y by assumption.
  cbn [exec]. change (lit_eq true "-" "-") with true. cbn iota.
  rewrite field_m
    by (assumption || (apply literal_wants_separator; reflexivity)).
  cbn [exec]. change (lit_eq true "-" "-") with true. cbn iota.
  rewrite field_d by (assumption || apply spaces_want_separator).
  cbn beta. rewrite one_space by assumption.
  rewrite field_H
    by (assumption || (apply literal_wants_separator; reflexivity)).
  cbn [exec]. change (lit_eq true ":" ":") with true. cbn iota.
  rewrite field_M
    by (assumption || (apply literal_wants_separator; reflexivity)).
  cbn [exec]. change (lit_eq true ":" ":") with true. cbn iota.
  reflexivity.
Qed.

Lemma digit_val_digit_char (a : nat) :
  a < 10 -> digit_val (digit_char a) = Z.of_nat a.
Proof. intros H. split_digit a; reflexivity. Qed.

Lemma isspace_digit_char (a : nat) :
  a < 10 -> isspace (digit_char a) = false.
Proof. intros H. split_digit a; reflexivity. Qed.

Lemma int_two_digits (a b : nat) :
  a < 10 -> b < 10 ->
  int (strip (String (digit_char a) (String (digit_char b) "")))
  = Z.of_nat (10 * a + b).
Proof.
  intros Ha Hb. unfold strip.
  repeat (cbn [lstrip rstrip]; rewrite ?isspace_digit_char by assumption).
  unfold int. cbn [int_acc].
  rewrite !digit_val_digit_char by assumption. lia.
Qed.

Lemma int_four_digits (a b c d : nat) :
  a < 10 -> b < 10 -> c < 10 -> d < 10 ->
  int (String (digit_char a) (String (digit_char b)
         (String (digit_char c) (String (digit_char d) ""))))
  = Z.of_nat (1000 * a + 100 * b + 10 * c + d).
Proof.
  intros Ha Hb Hc Hd. unfold int. cbn [int_acc].
  rewrite !digit_val_digit_char by assumption. lia.
Qed.

Lemma fields_of_date_time (sS sM sH sd sm sY : string) :
  fields [("S", sS); ("M", sM); ("H", sH); ("d", sd); ("m", sm); ("Y", sY)]
  = {| year := int sY; month := int (strip sm); day := int (strip sd);
       hour := int (strip sH); minute := int (strip sM);
       second := int (strip sS); microsecond := 0 |}.
Proof. reflexivity. Qed.

Section DateTime.

Variables y3 y2 y1 y0 m1 m0 d1 d0 h1 h0 n1 n0 s1 s0 : nat.
Hypotheses (Hy3 : y3 < 10) (Hy2 : y2 < 10) (Hy1 : y1 < 10) (Hy0 : y0 < 10).
Hypotheses (Hm1 : m1 < 10) (Hm0 : m0 < 10) (Hm : 1 <= 10 * m1 + m0 <= 12).
Hypotheses (Hd1 : d1 < 10) (Hd0 : d0 < 10) (Hd : 1 <= 10 * d1 + d0 <= 31).
Hypotheses (Hh1 : h1 < 10) (Hh0 : h0 < 10) (Hh : 10 * h1 + h0 < 24).
Hypotheses (Hn1 : n1 < 10) (Hn0 : n0 < 10) (Hn : 10 * n1 + n0 < 60).
Hypotheses (Hs1 : s1 < 10) (Hs0 : s0 < 10) (Hs : 10 * s1 + s0 < 60).

Let stamp : string :=
  String (digit_char y3) (String (digit_char y2) (String (digit_char y1)
    (String (digit_char y0) (String "-"
    (String (digit_char m1) (String (digit_char m0) (String "-"
    (String (digit_char d1) (String (digit_char d0) (String " "
    (String (digit_char h1) (String (digit_char h0) (String ":"
    (String (digit_char n1) (String (digit_char n0) (String ":"
    (String (digit_char s1) (String (digit_char s0) "")))))))))))))))))).

Lemma date_time_with_fraction_fails :
  strptime stamp "%Y-%m-%d %H:%M:%S.%f" = inr DoesNotMatchFormat.
Proof.
  unfold strptime.
  change (pattern false "%Y-%m-%d %H:%M:%S.%f")
    with (Some
      (Cat (re_of "Y") (Cat (Lit "-") (Cat (re_of "m") (Cat (Lit "-")
        (Cat (re_of "d") (Cat (Repeat CSpace 1 None)
          (Cat (re_of "H") (Cat (Lit ":") (Cat (re_of "M") (Cat (Lit ":")
            (Cat (re_of "S") (Cat (Lit ".")
               (Cat (re_of "f") Empty)))))))))))))).
  unfold match_, match_at, stamp.
  rewrite date_time_prefix by assumption.
  cbn [exec].
  rewrite field_S
    by (assumption || (apply literal_wants_separator; reflexivity)).
  reflexivity.
Qed.

Lemma date_time_as_time_fails :
  strptime stamp "%H:%M:%S.%f" = inr DoesNotMatchFormat.
Proof.
  unfold strptime.
  change (pattern false "%H:%M:%S.%f")
    with (Some
      (Cat (re_of "H") (Cat (Lit ":") (Cat (re_of "M") (Cat (Lit ":")
        (Cat (re_of "S") (Cat (Lit ".") (Cat (re_of "f") Empty)))))))).
  unfold match_, match_at, stamp. cbn [exec].
  rewrite field_H_three_digits
    by (assumption || (apply literal_wants_separator; reflexivity)).
  reflexivity.
Qed.

Lemma date_time_matches :
  strptime stamp "%Y-%m-%d %H:%M:%S"
  = let dt :=
      {| year := Z.of_nat (1000 * y3 + 100 * y2 + 10 * y1 + y0);
         month := Z.of_nat (10 * m1 + m0);
         day := Z.of_nat (10 * d1 + d0);
         hour := Z.of_nat (10 * h1 + h0);
         minute := Z.of_nat (10 * n1 + n0);
         second := Z.of_nat (10 * s1 + s0);
         microsecond := 0 |} in
    if valid dt then inl dt else inr OutOfRange.
Proof.
  unfold strptime.
  change (pattern false "%Y-%m-%d %H:%M:%S")
    with (Some
      (Cat (re_of "Y") (Cat (Lit "-") (Cat (re_of "m") (Cat (Lit "-")
        (Cat (re_of "d") (Cat (Repeat CSpace 1 None)
          (Cat (re_of "H") (Cat (Lit ":") (Cat (re_of "M") (Cat (Lit ":")
            (Cat (re_of "S") Empty)))))))))))).
  unfold match_, match_at, stamp.
  rewrite date_time_prefix by assumption.
  cbn [exec].
  erewrite field_S_found by (assumption || reflexivity).
  cbn [span captured String.length Nat.eqb negb].
  rewrite fields_of_date_time.
  rewrite !int_two_digits, int_four_digits by assumption.
  reflexivity.
Qed.

End DateTime.

(** Adding [+0.0] to the float of a natural number changes nothing. *)
Lemma add_zero_of_int (n : Z) :
  (0 <= n)%Z ->
  PyFloat.add (PyFloat.of_int n) (S754_zero false) = PyFloat.of_int n.
Proof.
  intros Hn. unfold PyFloat.of_int, binary_normalize.
  destruct n as [|p|p]; [reflexivity| |lia].
  unfold binary_round. destruct (shl_align _ _ _) as [mz ez].
  unfold binary_round_aux.
  destruct (shr_fexp _ _ _ _ _) as [mrs e'].
  destruct (shr_fexp _ _ _ _ _) as [mrs' e''].
  destruct (shr_m mrs'); try reflexivity.
  destruct (e'' <=? _)%Z; reflexivity.
Qed.

Lemma seconds_of_day_whole (dt : datetime) :
  microsecond dt = 0%Z ->
  (0 <= hour dt * 3600 + minute dt * 60 + second dt)%Z ->
  seconds_of_day dt
  = PyFloat.of_int (hour dt * 3600 + minute dt * 60 + second dt).
Proof.
  intros H Hpos. unfold seconds_of_day. rewrite H.
  change (PyFloat.div (PyFloat.of_int 0) (PyFloat.of_int 1000000))
    with (S754_zero false).
  apply add_zero_of_int. exact Hpos.
Qed.

Lemma two_digit_split (n : nat) :
  n < 100 ->
  n / 10 < 10 /\ n mod 10 < 10 /\ 10 * (n / 10) + n mod 10 = n.
Proof.
  intros H. pose proof (Nat.div_mod_eq n 10).
  pose proof (Nat.mod_upper_bound n 10). lia.
Qed.

(** The row time of [YYYY-MM-DD HH:MM:SS] is [HH * 3600 + MM * 60 + SS]
    for every date of the calendar. *)
Lemma date_time_row_time (Y M D h m s : nat) :
  1 <= Y < 100 * 100 -> 1 <= M <= 12 -> 1 <= D ->
  (Z.of_nat D <= days_in_month (Z.of_nat Y) (Z.of_nat M))%Z ->
  h < 24 -> m < 60 -> s < 60 ->
  _parse_row_time (Iso.date_time Y M D h m s)
  = PyFloat.of_int (Z.of_nat (h * 3600 + m * 60 + s)).
Proof.
  intros HY HM HD1 HD Hh Hm Hs.
  assert (HD31 : D <= 31).
  { unfold days_in_month in HD.
    repeat match type of HD with context [if ?b then _ else _] =>
             destruct b end; lia. }
  pose proof (Nat.div_mod_eq Y 100) as HYs.
  pose proof (Nat.mod_upper_bound Y 100) as HYlo.
  assert (HYhi : Y / 100 < 100) by (apply Nat.Div0.div_lt_upper_bound; lia).
  destruct (two_digit_split (Y / 100) HYhi) as (Hy3 & Hy2 & EYhi).
  destruct (two_digit_split (Y mod 100)) as (Hy1 & Hy0 & EYlo); [lia|].
  destruct (two_digit_split M) as (Hm1 & Hm0 & EM); [lia|].
  destruct (two_digit_split D) as (Hd1 & Hd0 & ED); [lia|].
  destruct (two_digit_split h) as (Hh1 & Hh0 & Eh); [lia|].
  destruct (two_digit_split m) as (Hn1 & Hn0 & En); [lia|].
  destruct (two_digit_split s) as (Hs1 & Hs0 & Es); [lia|].
  unfold date_time, four_digits, two_digits. cbn [append].
  set (y3 := Y / 100 / 10) in *. set (y2 := (Y / 100) mod 10) in *.
  set (y1 := Y mod 100 / 10) in *. set (y0 := (Y mod 100) mod 10) in *.
  set (m1 := M / 10) in *. set (m0 := M mod 10) in *.
  set (d1 := D / 10) in *. set (d0 := D mod 10) in *.
  set (h1 := h / 10) in *. set (h0 := h mod 10) in *.
  set (n1 := m / 10) in *. set (n0 := m mod 10) in *.
  set (s1 := s / 10) in *. set (s0 := s mod 10) in *.
  assert (EY : 1000 * y3 + 100 * y2 + 10 * y1 + y0 = Y) by lia.
  clearbody y3 y2 y1 y0 m1 m0 d1 d0 h1 h0 n1 n0 s1 s0.
  unfold _parse_row_time.
  match goal with |- context [strip ?x] =>
    assert (Hstrip : strip x = x)
  end.
  { unfold strip. cbn [lstrip]. rewrite isspace_digit_char by assumption.
    repeat (cbn [rstrip]; rewrite ?isspace_digit_char by assumption).
    reflexivity. }
  rewrite Hstrip. cbn [row_fmts first_format].
  rewrite date_time_with_fraction_fails by (assumption || lia).
  rewrite date_time_as_time_fails by (assumption || lia).
  rewrite date_time_matches by (assumption || lia).
  cbv zeta. rewrite EY, EM, ED, Eh, En, Es.
  assert (Hv : valid {| year := Z.of_nat Y; month := Z.of_nat M;
                        day := Z.of_nat D; hour := Z.of_nat h;
                        minute := Z.of_nat m; second := Z.of_nat s;
                        microsecond := 0 |} = true).
  { unfold valid. cbn [year month day hour minute second microsecond].
    repeat (apply andb_true_intro; split); apply Z.leb_le; lia. }
  rewrite Hv.
  rewrite seconds_of_day_whole
    by (cbn [hour minute second microsecond]; reflexivity || lia).
  cbn [hour minute second]. f_equal. lia.
Qed.

(** C4 (counterexample). [1970-01-02 00:00:01] matches the format with a
    date; its row time is 1 second, the seconds since the epoch of that
    date-time are 86401. *)
Lemma row_time_ignores_the_date :
  strptime "1970-01-02 00:00:01" "%Y-%m-%d %H:%M:%S" = inl Sample.row_dt
  /\ _parse_row_time "1970-01-02 00:00:01" = PyFloat.of_int 1
  /\ timestamp utc_mktime Sample.row_dt = Ok (PyFloat.of_int 86401)
  /\ Ok (_parse_row_time "1970-01-02 00:00:01")
     <> timestamp utc_mktime Sample.row_dt.
Proof.
  split; [vm_compute; reflexivity|].
  split; [vm_compute; reflexivity|].
  split; [vm_compute; reflexivity|].
  vm_compute. discriminate.
Qed.

(** C4 (amended). A token that one of the five row-time formats parses
    has as its time the seconds since midnight of the parsed time of day,
    [hour * 3600 + minute * 60 + second + microsecond / 1e6], a value
    below 86400, whether the format has a date or not. The date is not
    used: for every date of the calendar, [YYYY-MM-DD HH:MM:SS] has the
    row time [HH * 3600 + MM * 60 + SS]. *)
Theorem row_time_is_seconds_since_midnight :
  (forall stamp,
     (exists fmt dt,
        List.In fmt row_fmts /\ strptime (strip stamp) fmt = inl dt) ->
     exists fmt dt,
       List.In fmt row_fmts
       /\ strptime (strip stamp) fmt = inl dt
       /\ _parse_row_time stamp
          = PyFloat.add
              (PyFloat.of_int (hour dt * 3600 + minute dt * 60 + second dt))
              (PyFloat.div (PyFloat.of_int (microsecond dt))
                           (PyFloat.of_int 1000000))
       /\ (0 <= hour dt * 3600 + minute dt * 60 + second dt < 86400)%Z
       /\ (0 <= microsecond dt < 1000000)%Z)
  /\ (forall Y M D h m s,
        1 <= Y < 100 * 100 -> 1 <= M <= 12 -> 1 <= D ->
        (Z.of_nat D <= days_in_month (Z.of_nat Y) (Z.of_nat M))%Z ->
        h < 24 -> m < 60 -> s < 60 ->
        _parse_row_time (Iso.date_time Y M D h m s)
        = PyFloat.of_int (Z.of_nat (h * 3600 + m * 60 + s))).
Proof.
  split; [|exact date_time_row_time].
  intros stamp (fmt0 & dt0 & Hin0 & Hs0).
  destruct (first_format (strip stamp) row_fmts) as [dt|] eqn:Hff.
  - destruct (first_format_some _ _ _ Hff) as (fmt & Hin & Hs).
    exists fmt, dt. split; [exact Hin|]. split; [exact Hs|].
    split.
    + unfold _parse_row_time. rewrite Hff. reflexivity.
    + apply valid_time_of_day. exact (strptime_valid _ _ _ Hs).
  - destruct (first_format_none _ _ Hff fmt0 Hin0) as [f Hf].
    rewrite Hs0 in Hf. discriminate Hf.
Qed.

Lemma row_time_is_seconds_since_midnight_witness :
  (exists fmt dt,
     List.In fmt row_fmts
     /\ strptime (strip "2023-01-02 13:42:52.946") fmt = inl dt
     /\ _parse_row_time "2023-01-02 13:42:52.946"
        = PyFloat.add
            (PyFloat.of_int (hour dt * 3600 + minute dt * 60 + second dt))
            (PyFloat.div (PyFloat.of_int (microsecond dt))
                         (PyFloat.of_int 1000000))
     /\ (0 <= hour dt * 3600 + minute dt * 60 + second dt < 86400)%Z
     /\ (0 <= microsecond dt < 1000000)%Z)
  /\ _parse_row_time (Iso.date_time 2023 1 2 13 42 52)
     = PyFloat.of_int 49372.
Proof.
  split.
  - apply (proj1 row_time_is_seconds_since_midnight).
    exists "%Y-%m-%d %H:%M:%S.%f". eexists.
    split; [left; reflexivity | vm_compute; reflexivity].
  - apply (proj2 row_time_is_seconds_since_midnight 2023 1 2 13 42 52);
      try lia.
    vm_compute. discriminate.
Defined.

(* ================================================================== *)

(** * Further properties of the reader *)

(** ** The first [date:] line *)

Lemma scan_header_first (n : nat) (before : list string) (ln : string)
  (after : list string) :
  List.length before < n ->
  (forall l, List.In l before -> startswith (lower l) "date:" = false) ->
  startswith (lower ln) "date:" = true ->
  scan_header (firstn n (before ++ ln :: after))
  = (date_str <- after_colon ln ;;
     dt <- _parse_header_date date_str ;;
     Ok (Some dt)).
Proof.
  revert n. induction before as [|p pre IH]; intros n Hn Hpre Hln.
  - destruct n as [|n]; [inversion Hn|].
    cbn [app firstn scan_header]. rewrite Hln. reflexivity.
  - destruct n as [|n]; [inversion Hn|].
    cbn [app firstn scan_header].
    rewrite (Hpre p (or_introl eq_refl)).
    apply IH; [cbn in Hn; lia | | exact Hln].
    intros l Hl. apply Hpre. right. exact Hl.
Qed.

(** X1. The first line among the first 40 that starts, in any letter
    case, with [date:] decides the header date, whatever follows it. When
    its date does not parse, [read] raises "Could not parse header date"
    with the stripped text after the colon, even if a later [Date:] line
    would parse. When [read] returns, its timestamp is the one of that
    date, the microseconds replaced by the milliseconds of the file name
    when the path has them. *)
Theorem first_date_line_decides
  (mktime : datetime -> Z + time_error)
  (before : list string) (ln : string)
  (after : list string) (path_to_file : string) (name : pyval)
  (cls : py_class) (d : string) :
  List.length before < 40 ->
  (forall l, List.In l before -> startswith (lower l) "date:" = false) ->
  startswith (lower ln) "date:" = true ->
  after_colon ln = Ok d ->
  (forall e,
     _parse_header_date d = Raise e ->
     read mktime (before ++ ln :: after) path_to_file name cls
     = Raise (ValueError (CouldNotParseHeaderDate d)))
  /\ (forall o,
        read mktime (before ++ ln :: after) path_to_file name cls = Ok o ->
        exists dt,
          _parse_header_date d = Ok dt
          /\ Ok (tstamp o)
             = timestamp mktime
                 (match _parse_filename_time
                          (PathLib.str (PathLib.of_str path_to_file)) with
                  | Some ms => replace_microsecond dt (ms * 1000)
                  | None => dt
                  end)).
Proof.
  intros Hlen Hb Hln Hac.
  pose proof (scan_header_first 40 before ln after Hlen Hb Hln) as Hs.
  rewrite Hac in Hs. cbn [bind] in Hs. split.
  - intros e Hd. pose proof (parse_header_date_raise _ _ Hd) as ->.
    unfold read. rewrite Hs, Hd. reflexivity.
  - intros o Ho. apply read_ok_inv in Ho.
    destruct Ho as (dt0 & dt & i & wl & wls & rows & t0 & Ho).
    destruct Ho as (Hh & Hre & _ & _ & _ & _ & _ & _ & _ & Hts & _).
    rewrite Hs in Hh.
    destruct (_parse_header_date d) as [dt1|e]; [|discriminate Hh].
    injection Hh as ->. exists dt0. split; [reflexivity|].
    rewrite <- Hts. f_equal. unfold refine in Hre.
    destruct (_parse_filename_time _); congruence.
Qed.

Lemma first_date_line_decides_witness :
  read utc_mktime Sample.lines_two_dates Sample.path PyNone
       OpticalSpectrumSeries
  = Raise (ValueError (CouldNotParseHeaderDate "yesterday")).
Proof.
  destruct (first_date_line_decides utc_mktime []
              ("Date: yesterday" ++ Sample.NL)
              (tl Sample.lines_two_dates) Sample.path PyNone
              OpticalSpectrumSeries "yesterday") as [H _].
  - cbn. lia.
  - intros l [].
  - vm_compute. reflexivity.
  - vm_compute. reflexivity.
  - eapply H. vm_compute. reflexivity.
Defined.

(** ** Stripping and splitting *)

Lemma lstrip_head (s : string) :
  lstrip s = "" \/ exists c t, lstrip s = String c t /\ isspace c = false.
Proof.
  induction s as [|c s IH]; cbn [lstrip]; [left; reflexivity|].
  destruct (isspace c) eqn:Hc; [exact IH | right; eauto].
Qed.

Lemma rstrip_head (c : ascii) (t : string) :
  isspace c = false -> rstrip (String c t) = String c (rstrip t).
Proof. intros Hc. cbn [rstrip]. rewrite Hc. destruct (rstrip t); reflexivity. Qed.

Lemma rstrip_idem (s : string) : rstrip (rstrip s) = rstrip s.
Proof.
  induction s as [|c s IH]; [reflexivity|].
  cbn [rstrip]. destruct (rstrip s) as [|a r] eqn:E.
  - destruct (isspace c) eqn:Hc; [reflexivity|].
    cbn [rstrip]. rewrite Hc. reflexivity.
  - cbn [rstrip] in IH |- *. cbn [rstrip]. rewrite IH. reflexivity.
Qed.

Lemma strip_idem (s : string) : strip (strip s) = strip s.
Proof.
  unfold strip. destruct (lstrip_head s) as [-> | (c & t & -> & Hc)];
    [reflexivity|].
  rewrite (rstrip_head _ _ Hc). cbn [lstrip]. rewrite Hc.
  rewrite (rstrip_head _ _ Hc), rstrip_idem. reflexivity.
Qed.

Lemma append_nil_r (s : string) : s ++ "" = s.
Proof. induction s as [|c s IH]; cbn; congruence. Qed.

Lemma append_assoc (s t u : string) : (s ++ t) ++ u = s ++ (t ++ u).
Proof. induction s as [|c s IH]; cbn; congruence. Qed.

Lemma pieces_cons (p : ascii -> bool) (s : string) :
  exists a rest, pieces p s = a :: rest.
Proof.
  destruct s as [|c s]; cbn [pieces]; [eauto|].
  destruct (p c); [eauto|]. destruct (pieces p s); eauto.
Qed.

(** [re.split(r"[\s\t]", s)] cuts at every whitespace character. *)
Lemma split_go_ws_pieces (s : string) (prev : option ascii) (cur : string) :
  split_go false re_ws prev s 0 cur
  = match pieces isspace s with
    | a :: rest => (cur ++ a) :: rest
    | [] => [cur]
    end.
Proof.
  revert prev cur. induction s as [|c s IH]; intros prev cur.
  - cbn [split_go pieces]. rewrite match_at_ws, append_nil_r. reflexivity.
  - cbn [split_go pieces]. rewrite match_at_ws.
    destruct (isspace c).
    + rewrite IH, append_nil_r.
      destruct (pieces_cons isspace s) as (a & rest & ->). reflexivity.
    + rewrite IH.
      destruct (pieces_cons isspace s) as (a & rest & ->).
      rewrite append_assoc. reflexivity.
Qed.

Lemma split_ws_pieces (s : string) :
  Re.split false re_ws s = pieces isspace s.
Proof.
  unfold Re.split. rewrite split_go_ws_pieces.
  destruct (pieces_cons isspace s) as (a & rest & ->). reflexivity.
Qed.

Lemma pieces_no_space (s : string) :
  Forall (fun x => any isspace x = false) (pieces isspace s).
Proof.
  rewrite <- split_ws_pieces. apply split_go_ws_no_space. reflexivity.
Qed.

Lemma nth_no_space (l : list string) (n : nat) :
  Forall (fun x => any isspace x = false) l ->
  any isspace (nth n l "") = false.
Proof.
  intros H. revert n. induction H as [|x l Hx _ IH]; intros [|n]; cbn;
    auto.
Qed.

(** [_split_stamp] returns for every line: the errors for an empty list
    of parts and for a missing second part of the tab split are never
    raised. *)
Lemma split_stamp_ok (line : string) :
  exists stamp rest,
    _split_stamp line = Ok (strip stamp, strip rest).
Proof.
  unfold _split_stamp. destruct (contains TAB line) eqn:Ht.
  - destruct (split1_two _ _ Ht) as (a & b & ->). eauto.
  - rewrite split_ws_pieces.
    destruct (pieces_cons isspace (strip line)) as (a & rest & ->). eauto.
Qed.

(** X2. [_split_stamp] returns for every line, and the two strings it
    returns are stripped. The [ValueError] "empty line" of the source is
    never raised, [re.split] giving at least one part, and the unpacking of
    the tab split cannot fail. *)
Theorem split_stamp_never_raises (line : string) :
  exists stamp rest,
    _split_stamp line = Ok (stamp, rest)
    /\ strip stamp = stamp /\ strip rest = rest.
Proof.
  destruct (split_stamp_ok line) as (stamp & rest & H).
  exists (strip stamp), (strip rest).
  split; [exact H|]. split; apply strip_idem.
Qed.

(** *** Rows without a tab *)

(** X3. On a line without a tab the stamp is the text of the stripped
    line before its first whitespace character, and the remainder is the
    text between the first and the second whitespace character, whatever
    follows: two spaces after the stamp leave an empty remainder. *)
Theorem split_stamp_without_tab_pieces (line : string) :
  contains TAB line = false ->
  _split_stamp line
  = Ok (nth 0 (pieces isspace (strip line)) "",
        nth 1 (pieces isspace (strip line)) "").
Proof.
  intros Ht. unfold _split_stamp. rewrite Ht, split_ws_pieces.
  pose proof (pieces_no_space (strip line)) as HF.
  destruct (pieces isspace (strip line)) as [|a more] eqn:E.
  - destruct (pieces_cons isspace (strip line)) as (a & rest & E').
    congruence.
  - rewrite (strip_no_space a) by exact (nth_no_space _ 0 HF).
    replace (match more with r :: _ => r | [] => "" end)
      with (nth 1 (a :: more) "") by (destruct more; reflexivity).
    rewrite (strip_no_space _ (nth_no_space _ 1 HF)). reflexivity.
Qed.

Lemma split_stamp_without_tab_pieces_witness :
  _split_stamp "00:00:01  1.0 2.0" = Ok ("00:00:01", "").
Proof.
  exact (split_stamp_without_tab_pieces "00:00:01  1.0 2.0" eq_refl).
Defined.

(** ** Tokens of a row *)

(** Stripping a string does not change its tokens. *)
Lemma split_lstrip (s : string) : PyStr.split (lstrip s) = PyStr.split s.
Proof.
  unfold PyStr.split. induction s as [|c s IH]; [reflexivity|].
  cbn [lstrip]. destruct (isspace c) eqn:Hc; [|reflexivity].
  cbn [pieces]. rewrite Hc. exact IH.
Qed.

Lemma pieces_String (p : ascii -> bool) (c : ascii) (s : string) :
  pieces p (String c s)
  = if p c then "" :: pieces p s
    else match pieces p s with
         | a :: rest => String c a :: rest
         | [] => [String c ""]
         end.
Proof. reflexivity. Qed.

Lemma rstrip_String (c : ascii) (s : string) :
  rstrip (String c s)
  = if isspace c
    then match rstrip s with "" => "" | _ => String c (rstrip s) end
    else String c (rstrip s).
Proof. cbn [rstrip]. destruct (rstrip s), (isspace c); reflexivity. Qed.

Lemma pieces_rstrip (s : string) :
  exists a rest rest',
    pieces isspace s = a :: rest
    /\ pieces isspace (rstrip s) = a :: rest'
    /\ filter nonempty rest = filter nonempty rest'.
Proof.
  induction s as [|c s IH].
  - exists "", [], []. auto.
  - destruct IH as (a & rest & rest' & E & E' & Hf).
    rewrite rstrip_String, (pieces_String isspace c s), E.
    destruct (isspace c) eqn:Hc.
    + destruct (rstrip s) as [|x r] eqn:Hr.
      * cbn [pieces] in E' |- *. injection E' as <- <-.
        exists "", ("" :: rest), []. cbn [filter nonempty]. auto.
      * rewrite pieces_String, Hc, E'.
        exists "", (a :: rest), (a :: rest').
        cbn [filter]. rewrite Hf. auto.
    + rewrite pieces_String, Hc, E'.
      exists (String c a), rest, rest'. auto.
Qed.

Lemma split_rstrip (s : string) : PyStr.split (rstrip s) = PyStr.split s.
Proof.
  unfold PyStr.split.
  destruct (pieces_rstrip s) as (a & rest & rest' & -> & -> & Hf).
  cbn [filter]. rewrite Hf. reflexivity.
Qed.

Lemma split_strip (s : string) : PyStr.split (strip s) = PyStr.split s.
Proof. unfold strip. rewrite split_rstrip. apply split_lstrip. Qed.

(** *** [re.split] on runs of whitespace *)

(** A run of at least [lo] whitespace characters at the front. *)
Lemma rep_ws_span (s : string) (lo pos : nat) (prev : option ascii)
  (m : match_obj) :
  rep false ws lo None pos prev s
    (fun n _ _ => Some {| span := n; captured := [] |}) = Some m ->
  exists pre rest,
    s = pre ++ rest /\ span m = pos + String.length pre
    /\ lo <= String.length pre
    /\ any (fun c => negb (isspace c)) pre = false.
Proof.
  revert lo pos prev.
  induction s as [|c s IH]; intros lo pos prev H.
  - cbn [rep] in H. unfold halt in H.
    destruct (lo =? 0) eqn:Hlo; [|discriminate H].
    apply Nat.eqb_eq in Hlo. injection H as <-.
    exists "", "". cbn. repeat split; lia.
  - cbn [rep more andb option_map] in H. rewrite in_class_ws in H.
    assert (Hhalt : halt lo pos prev (String c s)
                      (fun n _ _ => Some {| span := n; captured := [] |})
                    = Some m ->
                    exists pre rest,
                      String c s = pre ++ rest
                      /\ span m = pos + String.length pre
                      /\ lo <= String.length pre
                      /\ any (fun c => negb (isspace c)) pre = false).
    { unfold halt. destruct (lo =? 0) eqn:Hlo; [|discriminate].
      apply Nat.eqb_eq in Hlo. intros Hm. injection Hm as <-.
      exists "", (String c s). cbn. repeat split; lia. }
    destruct (isspace c) eqn:Hc; [|exact (Hhalt H)].
    destruct (rep false ws (pred lo) None (S pos) (Some c) s _) as [m'|] eqn:Hr;
      [|exact (Hhalt H)].
    injection H as <-.
    destruct (IH _ _ _ Hr) as (pre & rest & -> & Hsp & Hlo & Hall).
    exists (String c pre), rest. cbn [append String.length any].
    rewrite Hc, Hall. repeat split; lia.
Qed.

Lemma rep_ws_some (s : string) (pos : nat) (prev : option ascii) :
  rep false ws 0 None pos prev s
    (fun n _ _ => Some {| span := n; captured := [] |}) <> None.
Proof.
  revert pos prev. induction s as [|c s IH]; intros pos prev.
  - discriminate.
  - cbn [rep more andb option_map pred].
    destruct (in_class false ws c); [|discriminate].
    destruct (rep false ws 0 None (S pos) (Some c) s _) eqn:E;
      [discriminate|].
    exfalso. exact (IH _ _ E).
Qed.

Lemma match_at_ws_run (prev : option ascii) (c : ascii) (s : string) :
  if isspace c then
    exists n pre rest,
      option_map span (match_at false re_ws_run prev (String c s))
      = Some (S n)
      /\ s = pre ++ rest /\ String.length pre = n
      /\ any (fun c => negb (isspace c)) pre = false
  else match_at false re_ws_run prev (String c s) = None.
Proof.
  unfold match_at, re_ws_run. cbn [exec rep more andb option_map pred].
  rewrite in_class_ws. destruct (isspace c) eqn:Hc; [|reflexivity].
  destruct (rep false ws 0 None 1 (Some c) s _) as [m|] eqn:Hr.
  - destruct (rep_ws_span _ _ _ _ _ Hr) as (pre & rest & -> & Hsp & _ & Hall).
    exists (String.length pre), pre, rest. cbn [option_map].
    rewrite Hsp. auto.
  - exfalso. exact (rep_ws_some _ _ _ Hr).
Qed.

Lemma match_at_ws_run_empty (prev : option ascii) :
  match_at false re_ws_run prev "" = None.
Proof. reflexivity. Qed.

(** The non-empty parts of the split are the tokens of [str.split]. *)
Lemma split_go_ws_run_tokens (s : string) :
  forall (prev : option ascii) (pre rest cur : string),
    s = pre ++ rest ->
    any (fun c => negb (isspace c)) pre = false ->
    filter nonempty
      (split_go false re_ws_run prev s (String.length pre) cur)
    = match pieces isspace rest with
      | a :: more => filter nonempty ((cur ++ a) :: more)
      | [] => filter nonempty [cur]
      end.
Proof.
  induction s as [|c s IH]; intros prev pre rest cur Hs Hpre.
  - destruct pre as [|x pre]; [|discriminate Hs].
    cbn [append] in Hs. subst rest.
    cbn [String.length split_go pieces]. rewrite match_at_ws_run_empty.
    cbn [option_map]. rewrite append_nil_r. reflexivity.
  - destruct pre as [|x pre].
    + cbn [append] in Hs. subst rest. cbn [String.length split_go pieces].
      pose proof (match_at_ws_run prev c s) as Hm.
      destruct (isspace c) eqn:Hc.
      * destruct Hm as (n & pre' & rest' & -> & Hs' & Hn & Hall).
        cbn [filter]. rewrite append_nil_r.
        destruct (pieces_cons isspace s) as (a & more & Ep).
        assert (Hrec : filter nonempty (split_go false re_ws_run (Some c) s n "")
                       = filter nonempty (pieces isspace s)).
        { rewrite <- Hn, (IH (Some c) pre' rest' "" Hs' Hall).
          clear - Hs' Hall. subst s.
          induction pre' as [|y pre' IHp].
          - cbn [append]. destruct (pieces isspace rest'); reflexivity.
          - cbn [any] in Hall. apply orb_false_elim in Hall.
            destruct Hall as [Hy Hall]. apply negb_false_iff in Hy.
            cbn [append pieces]. rewrite Hy. cbn [filter nonempty].
            exact (IHp Hall). }
        rewrite Hrec. reflexivity.
      * rewrite Hm. cbn [option_map].
        pose proof (IH (Some c) "" s (cur ++ String c "") eq_refl eq_refl)
          as Hrec.
        cbn [String.length] in Hrec. rewrite Hrec.
        destruct (pieces_cons isspace s) as (a & more & ->).
        rewrite append_assoc. reflexivity.
    + cbn [append] in Hs. injection Hs as <- Hs.
      cbn [any] in Hpre. apply orb_false_elim in Hpre.
      destruct Hpre as [_ Hpre].
      cbn [String.length split_go].
      exact (IH (Some c) pre rest cur Hs Hpre).
Qed.

Lemma split_ws_run_tokens (s : string) :
  filter nonempty (Re.split false re_ws_run s) = PyStr.split s.
Proof.
  unfold Re.split, PyStr.split.
  pose proof (split_go_ws_run_tokens s None "" s "" eq_refl eq_refl) as H.
  cbn [String.length] in H. rewrite H.
  destruct (pieces_cons isspace s) as (a & more & ->). reflexivity.
Qed.

Lemma parse_float_row_split (s : string) :
  _parse_float_row s = for_each to_float (PyStr.split s).
Proof.
  unfold _parse_float_row.
  rewrite split_ws_run_tokens, split_strip. reflexivity.
Qed.

Lemma parse_float_row_strip (s : string) :
  _parse_float_row (strip s) = _parse_float_row s.
Proof. rewrite !parse_float_row_split, split_strip. reflexivity. Qed.

(** X4. The wavelength row is parsed like the intensities of a data row:
    the values are those of the tokens of [s.split()], each with its
    commas turned into dots, in order. Stripping first, splitting with the
    pattern and dropping the empty parts gives these tokens. *)
Theorem parse_float_row_tokens (s : string) :
  _parse_float_row s = for_each to_float (PyStr.split s)
  /\ _parse_float_row (strip s) = _parse_float_row s
  /\ forall vs,
       _parse_float_row s = Ok vs ->
       List.length vs = List.length (PyStr.split s).
Proof.
  split; [apply parse_float_row_split|].
  split; [apply parse_float_row_strip|].
  intros vs H. rewrite parse_float_row_split in H.
  exact (for_each_length _ _ _ H).
Qed.

(** *** Rows with a tab *)

Lemma split1_first (c : ascii) (a b : string) :
  contains c a = false -> split1 c (a ++ String c b) = [a; b].
Proof.
  induction a as [|x a IH]; cbn [contains append split1]; intros H.
  - rewrite Ascii.eqb_refl. reflexivity.
  - apply orb_false_elim in H. destruct H as [Hx Ha].
    rewrite Hx, (IH Ha). reflexivity.
Qed.

Lemma contains_app (c : ascii) (a b : string) :
  contains c (a ++ b) = contains c a || contains c b.
Proof.
  induction a as [|x a IH]; cbn [contains append]; [reflexivity|].
  rewrite IH. apply orb_assoc.
Qed.

Lemma parse_row_time_strip (stamp : string) :
  _parse_row_time (strip stamp) = _parse_row_time stamp.
Proof. unfold _parse_row_time. rewrite strip_idem. reflexivity. Qed.

(** X5. A data row is cut at its first tab: the row time is the one of
    the text before it, the intensities are the numbers of all the text
    after it, parsed as a wavelength row is. Later tabs separate
    intensities like any whitespace. *)
Theorem parse_row_with_tab (a b : string) :
  contains TAB a = false ->
  _split_stamp (a ++ String TAB b) = Ok (strip a, strip b)
  /\ parse_row (a ++ String TAB b)
     = (vals <- _parse_float_row b ;; Ok (_parse_row_time a, vals)).
Proof.
  intros Ha.
  assert (E : _split_stamp (a ++ String TAB b) = Ok (strip a, strip b)).
  { unfold _split_stamp. rewrite contains_app. cbn [contains].
    rewrite Ascii.eqb_refl, orb_true_r, (split1_first _ _ _ Ha).
    reflexivity. }
  split; [exact E|].
  unfold parse_row. rewrite E. cbn [bind].
  rewrite parse_row_time_strip, split_strip, parse_float_row_split.
  reflexivity.
Qed.

Lemma parse_row_with_tab_witness :
  parse_row ("00:00:01" ++ String TAB ("1,5" ++ String TAB "2.5" ++ Sample.NL))
  = Ok (PyFloat.of_int 1,
        [S754_finite false 6755399441055744 (-52);
         S754_finite false 5629499534213120 (-51)]).
Proof.
  destruct (parse_row_with_tab "00:00:01"
              ("1,5" ++ String TAB "2.5" ++ Sample.NL) eq_refl) as [_ H].
  rewrite H. vm_compute. reflexivity.
Defined.

(** ** Where the data section starts *)

(** [^\s*\d] looks at the first character that is not whitespace. *)
Lemma rep_space_then_digit (s : string) (pos : nat) (prev : option ascii) :
  found
    (rep false CSpace 0 None pos prev s
       (fun n p s' =>
          exec false (OneOf CDigit) n p s' []
            (fun n _ _ g => Some {| span := n; captured := g |})))
  = match lstrip s with
    | String d _ => isdigit d
    | "" => false
    end.
Proof.
  revert pos prev. induction s as [|c s IH]; intros pos prev.
  - reflexivity.
  - cbn [rep more andb option_map pred lstrip].
    change (in_class false CSpace c) with (isspace c).
    destruct (isspace c) eqn:Hc.
    + specialize (IH (S pos) (Some c)).
      destruct (rep false CSpace 0 None (S pos) (Some c) s _) as [m|].
      * exact IH.
      * rewrite <- IH. unfold halt. cbn [Nat.eqb exec].
        change (in_class false CDigit c) with (isdigit c).
        rewrite (isspace_not_digit _ Hc). reflexivity.
    + unfold halt. cbn [Nat.eqb exec].
      change (in_class false CDigit c) with (isdigit c).
      destruct (isdigit c); reflexivity.
Qed.

Lemma starts_with_digit_lstrip (ln : string) :
  starts_with_digit ln
  = match lstrip ln with
    | String d _ => isdigit d
    | "" => false
    end.
Proof.
  unfold starts_with_digit, match_, match_at, re_leading_digit.
  cbn [cat exec]. apply rep_space_then_digit.
Qed.

(** The loop stops at the first marker line that is followed by a line
    starting with a digit. *)
Lemma find_start_leftmost (ls : list string) (i k : nat) :
  find_start i ls = Ok (Some k) ->
  exists j ln nxt,
    k = i + j
    /\ nth_error ls j = Some ln /\ is_marker ln = true
    /\ nth_error ls (S j) = Some nxt /\ starts_with_digit nxt = true
    /\ forall j' l n,
         j' < j -> nth_error ls j' = Some l -> nth_error ls (S j') = Some n ->
         is_marker l && starts_with_digit n = false.
Proof.
  revert i. induction ls as [|ln rest IH]; intros i H; [discriminate H|].
  cbn [find_start] in H.
  assert (Hrec : (forall n, hd_error rest = Some n ->
                            is_marker ln && starts_with_digit n = false) ->
                 find_start (S i) rest = Ok (Some k) ->
                 exists j l nxt,
                   k = i + j
                   /\ nth_error (ln :: rest) j = Some l /\ is_marker l = true
                   /\ nth_error (ln :: rest) (S j) = Some nxt
                   /\ starts_with_digit nxt = true
                   /\ forall j' l' n,
                        j' < j -> nth_error (ln :: rest) j' = Some l' ->
                        nth_error (ln :: rest) (S j') = Some n ->
                        is_marker l' && starts_with_digit n = false).
  { intros Hhere Hr.
    destruct (IH _ Hr) as (j & l & nxt & -> & Hl & Hm & Hn & Hd & Hmin).
    exists (S j), l, nxt. split; [lia|].
    repeat (split; [assumption|]).
    intros [|j'] l' n Hlt Hl' Hn'.
    - cbn in Hl', Hn'. injection Hl' as <-. apply Hhere.
      destruct rest; [discriminate Hn' | exact Hn'].
    - apply (Hmin j' l' n); [lia | exact Hl' | exact Hn']. }
  destruct (is_marker ln) eqn:Hm; [|apply Hrec; [reflexivity | exact H]].
  destruct rest as [|nxt rest']; [discriminate H|].
  cbn [index nth_error bind] in H.
  destruct (starts_with_digit nxt) eqn:Hd.
  - injection H as <-. exists 0, ln, nxt.
    split; [lia|]. repeat (split; [assumption || reflexivity|]).
    intros j' l n Hlt. inversion Hlt.
  - apply Hrec; [|exact H].
    intros n Hn. cbn in Hn. injection Hn as <-. exact Hd.
Qed.

(** X6. When [read] returns, the data section it used starts at the
    first marker line that is immediately followed by a line whose first
    character after leading whitespace is a digit; marker lines before it
    were passed over. The wavelengths of the result are the numbers of the
    line after that marker, and there is at least one. *)
Theorem read_uses_first_data_section
  (mktime : datetime -> Z + time_error)
  (lines : list string) (path_to_file : string)
  (name : pyval) (cls : py_class) (o : SpectrumSeries) :
  read mktime lines path_to_file name cls = Ok o ->
  exists i ln nxt d t,
    nth_error lines i = Some ln /\ is_marker ln = true
    /\ nth_error lines (S i) = Some nxt
    /\ lstrip nxt = String d t /\ isdigit d = true
    /\ (forall j l n,
          j < i -> nth_error lines j = Some l ->
          nth_error lines (S j) = Some n ->
          is_marker l && starts_with_digit n = false)
    /\ _parse_float_row nxt
       = Ok (ds_data (snd (fd_axes_series (field o))))
    /\ ds_data (snd (fd_axes_series (field o))) <> [].
Proof.
  intros Ho. apply read_ok_inv in Ho.
  destruct Ho as (dt0 & dt & i & wl & wls & rows & t0 & Ho).
  destruct Ho as (_ & _ & Hi & Hwl & Hwls & _ & _ & _ & _ & _ & _ & _ & _ & Hds).
  destruct (find_start_leftmost _ _ _ Hi)
    as (j & ln & nxt & -> & Hl & Hm & Hn & Hd & Hmin).
  cbn [Nat.add] in *.
  replace (j + 1) with (S j) in Hwl by lia.
  unfold index in Hwl. rewrite Hn in Hwl. injection Hwl as <-.
  pose proof (parse_float_row_nonempty _ Hd _ Hwls) as Hne.
  rewrite starts_with_digit_lstrip in Hd.
  destruct (lstrip nxt) as [|d t] eqn:Hls; [discriminate Hd|].
  exists j, ln, nxt, d, t.
  repeat (split; [assumption || reflexivity|]).
  rewrite Hds. split.
  - rewrite <- Hwls, !parse_float_row_split, split_strip. reflexivity.
  - intros ->. discriminate Hne.
Qed.

Lemma read_uses_first_data_section_witness :
  exists o,
    read utc_mktime Sample.lines Sample.path PyNone OpticalSpectrumSeries
    = Ok o
    /\ exists i ln nxt d t,
         nth_error Sample.lines i = Some ln /\ is_marker ln = true
         /\ nth_error Sample.lines (S i) = Some nxt
         /\ lstrip nxt = String d t /\ isdigit d = true
         /\ (forall j l n,
               j < i -> nth_error Sample.lines j = Some l ->
               nth_error Sample.lines (S j) = Some n ->
               is_marker l && starts_with_digit n = false)
         /\ _parse_float_row nxt
            = Ok (ds_data (snd (fd_axes_series (field o))))
         /\ ds_data (snd (fd_axes_series (field o))) <> [].
Proof.
  eexists. split; [vm_compute; reflexivity|].
  apply (read_uses_first_data_section utc_mktime Sample.lines Sample.path
           PyNone OpticalSpectrumSeries).
  vm_compute. reflexivity.
Defined.

(** *** A marker on the last line *)

Lemma find_start_index_error (ls : list string) (i : nat) :
  is_marker (last ls "") = true ->
  ~ Spec.has_data_section ls ->
  find_start i ls = Raise IndexError.
Proof.
  revert i. induction ls as [|ln rest IH]; intros i Hlast Hno.
  - discriminate Hlast.
  - cbn [find_start].
    pose proof (has_data_section_cons ln rest) as Hc.
    destruct rest as [|nxt rest'].
    + cbn [last] in Hlast. rewrite Hlast. reflexivity.
    + assert (Hrec : find_start (S i) (nxt :: rest') = Raise IndexError).
      { apply IH; [exact Hlast|].
        intros Hs. apply Hno, Hc. right. exact Hs. }
      destruct (is_marker ln) eqn:Hm; [|exact Hrec].
      cbn [index nth_error bind].
      destruct (starts_with_digit nxt) eqn:Hd; [|exact Hrec].
      exfalso. apply Hno, Hc. left. split; [reflexivity|].
      exists nxt. split; [reflexivity | exact Hd].
Qed.

(** ** The exceptions of [read] *)

Lemma scan_header_raise_only (ls : list string) (e : exn) :
  scan_header ls = Raise e ->
  exists d, e = ValueError (CouldNotParseHeaderDate d).
Proof.
  induction ls as [|ln ls IH]; cbn [scan_header]; intros H; [discriminate H|].
  destruct (startswith (lower ln) "date:") eqn:Hp; [|exact (IH H)].
  destruct (after_colon_ok _ Hp) as [d Hd]. rewrite Hd in H. cbn [bind] in H.
  apply bind_raise in H. destruct H as [H | (x & _ & H)]; [|discriminate H].
  exists d. exact (parse_header_date_raise _ _ H).
Qed.

Lemma to_float_raise_only (tok : string) (e : exn) :
  to_float tok = Raise e ->
  e = ValueError (CouldNotConvertToFloat (replace "," "." tok)).
Proof.
  unfold to_float, PyFloat.parse.
  destruct (PyFloat.drop_underscores _ _) as [t|];
    [destruct (PyFloat.number t)|]; intros H; try discriminate H;
    congruence.
Qed.

Lemma tokens_raise_only (l : list string) (e : exn) :
  for_each to_float l = Raise e ->
  exists tok, e = ValueError (CouldNotConvertToFloat tok).
Proof.
  intros H. apply for_each_raise in H. destruct H as (tok & _ & H).
  eexists. exact (to_float_raise_only _ _ H).
Qed.

Lemma parse_row_raise_only (ln : string) (e : exn) :
  parse_row ln = Raise e ->
  exists tok, e = ValueError (CouldNotConvertToFloat tok).
Proof.
  unfold parse_row. destruct (split_stamp_ok ln) as (stamp & rest & ->).
  cbn [bind]. intros H.
  apply bind_raise in H. destruct H as [H | (vs & _ & H)]; [|discriminate H].
  exact (tokens_raise_only _ _ H).
Qed.

(** Where a failing [read] stopped. *)
Lemma read_raise_inv (mktime : datetime -> Z + time_error)
  (lines : list string)
  (path_to_file : string) (name : pyval) (cls : py_class) (e : exn) :
  read mktime lines path_to_file name cls = Raise e ->
  (exists d, scan_header (firstn 40 lines) = Raise e
             /\ e = ValueError (CouldNotParseHeaderDate d))
  \/ (scan_header (firstn 40 lines) = Ok None
      /\ e = AttributeError "NoneType" "timestamp")
  \/ exists dt dt',
       scan_header (firstn 40 lines) = Ok (Some dt)
       /\ refine (_parse_filename_time
                    (PathLib.str (PathLib.of_str path_to_file))) (Some dt)
          = Some dt'
       /\ ((exists te, mktime dt' = inr te /\ e = time_exn te)
           \/ (exists ts, timestamp mktime dt' = Ok ts)
              /\
           ((find_start 0 lines = Raise e /\ e = IndexError)
           \/ (find_start 0 lines = Ok None
               /\ e = ValueError NoSpectralDataSection)
           \/ exists i wl,
                find_start 0 lines = Ok (Some i)
                /\ nth_error lines (S i) = Some wl
                /\ ((exists tok,
                       _parse_float_row wl = Raise e
                       /\ e = ValueError (CouldNotConvertToFloat tok))
                    \/ exists wls,
                         _parse_float_row wl = Ok wls
                         /\ ((exists tok,
                                for_each parse_row
                                  (filter nonblank (skipn (i + 2) lines))
                                = Raise e
                                /\ e = ValueError (CouldNotConvertToFloat tok))
                             \/ exists rows,
                                  for_each parse_row
                                    (filter nonblank (skipn (i + 2) lines))
                                  = Ok rows
                                  /\ Np.stack (map snd rows) = Raise e)))).
Proof.
  unfold read. intros H.
  apply bind_raise in H. destruct H as [H | (hd & Hhd & H)].
  { left. destruct (scan_header_raise_only _ _ H) as [d Hd]. eauto. }
  right.
  destruct hd as [dt|]; cycle 1.
  { left. split; [exact Hhd|].
    unfold refine in H. destruct (_parse_filename_time _);
      cbn [bind] in H; congruence. }
  right.
  destruct (refine _ (Some dt)) as [dt'|] eqn:Hre; cycle 1.
  { unfold refine in Hre.
    destruct (_parse_filename_time _); discriminate Hre. }
  exists dt, dt'. split; [exact Hhd|]. split; [exact Hre|].
  apply bind_raise in H. destruct H as [H | (ts & Hts & H)].
  { left. exact (timestamp_raise _ _ _ H). }
  right. split; [eauto|].
  apply bind_raise in H. destruct H as [H | (fs & Hfs & H)].
  { left. split; [exact H | exact (find_start_raise _ _ _ H)]. }
  right.
  apply bind_raise in H. destruct H as [H | (i & Hi & H)].
  { left. destruct fs; [discriminate H|]. split; congruence. }
  right.
  destruct fs as [j|]; [|discriminate Hi]. injection Hi as <-.
  destruct (find_start_some _ _ _ Hfs) as (k & nxt & -> & Hn & Hd).
  cbn [Nat.add] in *. replace (k + 1) with (S k) in H by lia.
  unfold index at 1 in H. rewrite Hn in H. cbn [bind] in H.
  rewrite parse_float_row_strip in H.
  exists k, nxt. repeat (split; [assumption|]).
  apply bind_raise in H. destruct H as [H | (wls & Hw & H)].
  { left. pose proof H as H'. rewrite parse_float_row_split in H'.
    destruct (tokens_raise_only _ _ H') as [tok Ht]. eauto. }
  right. exists wls. split; [exact Hw|].
  rewrite <- parse_float_row_strip in Hw.
  rewrite (parse_float_row_nonempty _ Hd _ Hw) in H.
  apply bind_raise in H. destruct H as [H | (rows & Hrows & H)].
  { left. pose proof H as H'. apply for_each_raise in H'.
    destruct H' as (ln & _ & H').
    destruct (parse_row_raise_only _ _ H') as [tok Ht]. eauto. }
  right. exists rows. split; [exact Hrows|].
  apply bind_raise in H. destruct H as [H | (y & Hy & H)]; [exact H|].
  exfalso.
  apply bind_raise in H. destruct H as [H | (t0 & _ & H)]; [|discriminate H].
  unfold Np.stack in Hy. destruct rows as [|r rs]; [discriminate Hy|].
  discriminate H.
Qed.

(** X7. Given the lines of the file, [read] raises nothing but: the
    [AttributeError] of the missing header date, "Could not parse header
    date", what [dt_header.timestamp()] raises where the platform cannot
    place the header date ("year 0 is out of range" on 0001-01-01, an
    [OverflowError] or an [OSError]), [IndexError], "No spectral data
    section found!", "could not convert string to float", and the two
    [ValueError]s of [np.stack]. The errors "wavelength line is empty or
    malformed" and "empty line" of the source are never raised. *)
Theorem read_raises_only
  (mktime : datetime -> Z + time_error)
  (lines : list string) (path_to_file : string)
  (name : pyval) (cls : py_class) (e : exn) :
  read mktime lines path_to_file name cls = Raise e ->
  e = AttributeError "NoneType" "timestamp"
  \/ (exists d, e = ValueError (CouldNotParseHeaderDate d))
  \/ (exists y, e = ValueError (YearOutOfRange y))
  \/ e = OverflowError
  \/ e = OSError
  \/ e = IndexError
  \/ e = ValueError NoSpectralDataSection
  \/ (exists tok, e = ValueError (CouldNotConvertToFloat tok))
  \/ e = ValueError NeedAtLeastOneArray
  \/ e = ValueError ArraysMustHaveSameShape.
Proof.
  intros H. apply read_raise_inv in H.
  destruct H as [(d & _ & H) | [(_ & H) | (dt & dt' & _ & _ & H)]];
    [eauto | eauto |].
  destruct H as [(te & _ & H) | (_ & H)].
  { subst e. destruct te; cbn [time_exn]; eauto 6. }
  destruct H as [(_ & H) | [(_ & H) | (i & wl & _ & _ & H)]];
    [eauto 8 | eauto 8 |].
  destruct H as [(tok & _ & H) | (wls & _ & H)]; [eauto 10|].
  destruct H as [(tok & _ & H) | (rows & _ & H)]; [eauto 10|].
  do 8 right. unfold Np.stack in H. destruct (map snd rows) as [|r rs].
  - left. congruence.
  - right. destruct (forallb _ rs); [discriminate H | congruence].
Qed.

Lemma read_raises_only_witness :
  ValueError NoSpectralDataSection = AttributeError "NoneType" "timestamp"
  \/ (exists d, ValueError NoSpectralDataSection
                = ValueError (CouldNotParseHeaderDate d))
  \/ (exists y, ValueError NoSpectralDataSection
                = ValueError (YearOutOfRange y))
  \/ ValueError NoSpectralDataSection = OverflowError
  \/ ValueError NoSpectralDataSection = OSError
  \/ ValueError NoSpectralDataSection = IndexError
  \/ ValueError NoSpectralDataSection = ValueError NoSpectralDataSection
  \/ (exists tok, ValueError NoSpectralDataSection
                  = ValueError (CouldNotConvertToFloat tok))
  \/ ValueError NoSpectralDataSection = ValueError NeedAtLeastOneArray
  \/ ValueError NoSpectralDataSection = ValueError ArraysMustHaveSameShape.
Proof.
  apply (read_raises_only utc_mktime Sample.lines_no_section Sample.path
           PyNone OpticalSpectrumSeries).
  vm_compute. reflexivity.
Defined.

(** ** The shape of the result *)

Lemma read_ok_class (mktime : datetime -> Z + time_error)
  (lines : list string)
  (path_to_file : string) (name : pyval) (cls : py_class)
  (o : SpectrumSeries) :
  read mktime lines path_to_file name cls = Ok o ->
  Ixdat.cls o = (if is_spectrum_series cls then cls else OpticalSpectrumSeries)
  /\ technique o = "Optical" /\ continuous o = true.
Proof.
  unfold read. intros H.
  bind_inv H as hd Hhd. bind_inv H as ts Hts.
  bind_inv H as fs Hfs. bind_inv H as i Hi.
  bind_inv H as wl_line Hwl. bind_inv H as wavelengths Hwls.
  destruct (List.length wavelengths =? 0); [discriminate H|].
  bind_inv H as rows Hrows. bind_inv H as y_matrix Hy. bind_inv H as t0 Ht0.
  injection H as <-. auto.
Qed.

Lemma stack_ok (rows : list (list PyFloat.float)) :
  Np.stack rows = Ok rows ->
  exists r rs,
    rows = r :: rs
    /\ Forall (fun x => List.length x = List.length r) rows.
Proof.
  unfold Np.stack. destruct rows as [|r rs]; [discriminate|].
  destruct (forallb _ rs) eqn:Hf; [|discriminate]. intros _.
  exists r, rs. split; [reflexivity|]. constructor; [reflexivity|].
  apply Forall_forall. intros x Hx.
  rewrite forallb_forall in Hf. apply Nat.eqb_eq. exact (Hf x Hx).
Qed.

(** X8. When [read] returns, the intensity matrix has one row for every
    non-blank line after the wavelength line and at least one row, all
    rows have the same length, there are as many relative times as rows,
    and the class of the object is a subclass of [SpectrumSeries]: the
    class that was passed if it is one. *)
Theorem read_result_shape
  (mktime : datetime -> Z + time_error)
  (lines : list string) (path_to_file : string)
  (name : pyval) (cls : py_class) (o : SpectrumSeries) :
  read mktime lines path_to_file name cls = Ok o ->
  exists i n,
    find_start 0 lines = Ok (Some i)
    /\ List.length (fd_data (field o))
       = List.length (filter nonblank (skipn (i + 2) lines))
    /\ List.length (ts_data (fst (fd_axes_series (field o))))
       = List.length (fd_data (field o))
    /\ 0 < List.length (fd_data (field o))
    /\ Forall (fun row => List.length row = n) (fd_data (field o))
    /\ is_spectrum_series (Ixdat.cls o) = true
    /\ (is_spectrum_series cls = true -> Ixdat.cls o = cls).
Proof.
  intros Ho. destruct (read_ok_class _ _ _ _ _ _ Ho) as (Hcls & _ & _).
  apply read_ok_inv in Ho.
  destruct Ho as (dt0 & dt & i & wl & wls & rows & t0 & Ho).
  destruct Ho as (_ & _ & Hi & _ & _ & Hrows & Hst & _ & _ & _ & Hfd & Hts & _).
  destruct (stack_ok _ Hst) as (r & rs & Hr & HF).
  exists i, (List.length r). rewrite Hfd, Hts.
  unfold Np.subtract_scalar. rewrite !length_map.
  split; [exact Hi|].
  split; [exact (for_each_length _ _ _ Hrows)|].
  split; [reflexivity|].
  split; [destruct rows; [discriminate Hr | cbn; lia]|].
  split; [exact HF|].
  rewrite Hcls. destruct (is_spectrum_series cls) eqn:Hc.
  - split; [exact Hc | reflexivity].
  - split; [reflexivity | discriminate].
Qed.

Lemma read_result_shape_witness :
  exists o,
    read utc_mktime Sample.lines Sample.path PyNone
         {| class_name := "dict"; is_spectrum_series := false |} = Ok o
    /\ exists i n,
         find_start 0 Sample.lines = Ok (Some i)
         /\ List.length (fd_data (field o))
            = List.length (filter nonblank (skipn (i + 2) Sample.lines))
         /\ List.length (ts_data (fst (fd_axes_series (field o))))
            = List.length (fd_data (field o))
         /\ 0 < List.length (fd_data (field o))
         /\ Forall (fun row => List.length row = n) (fd_data (field o))
         /\ is_spectrum_series (Ixdat.cls o) = true
         /\ (false = true -> Ixdat.cls o
                             = {| class_name := "dict";
                                  is_spectrum_series := false |}).
Proof.
  eexists. split; [vm_compute; reflexivity|].
  apply (read_result_shape utc_mktime Sample.lines Sample.path PyNone
           {| class_name := "dict"; is_spectrum_series := false |}).
  vm_compute. reflexivity.
Defined.

(** *** Rows without a tab, in a whole file *)

(** X9. When no line of the file has a tab and [read] returns, every
    row of the intensity matrix has at most one value, however many
    wavelengths there are: of a row written with spaces, only the first
    value after the stamp is read. *)
Theorem tab_free_rows_give_one_column
  (mktime : datetime -> Z + time_error)
  (lines : list string) (path_to_file : string)
  (name : pyval) (cls : py_class) (o : SpectrumSeries) :
  read mktime lines path_to_file name cls = Ok o ->
  (forall ln, List.In ln lines -> contains TAB ln = false) ->
  Forall (fun row => List.length row <= 1) (fd_data (field o)).
Proof.
  intros Ho Htab. apply read_ok_inv in Ho.
  destruct Ho as (dt0 & dt & i & wl & wls & rows & t0 & Ho).
  destruct Ho as (_ & _ & _ & _ & _ & Hrows & _ & _ & _ & _ & Hfd & _).
  rewrite Hfd. clear Hfd.
  assert (Hsub : forall ln, List.In ln (filter nonblank (skipn (i + 2) lines))
                            -> contains TAB ln = false).
  { intros ln Hin. apply filter_In in Hin. destruct Hin as [Hin _].
    apply Htab. rewrite <- (firstn_skipn (i + 2) lines).
    apply in_or_app. right. exact Hin. }
  revert rows Hrows Hsub.
  induction (filter nonblank (skipn (i + 2) lines)) as [|ln data IH];
    intros rows Hrows Hsub.
  - injection Hrows as <-. constructor.
  - apply for_each_cons_inv in Hrows.
    destruct Hrows as ([t vs] & rows' & Hb & Hrows & ->).
    cbn [map snd]. constructor.
    + apply parse_row_inv in Hb. destruct Hb as (stamp & vals & Hsp & _ & Hv).
      destruct (split_stamp_without_tab ln (Hsub ln (or_introl eq_refl)))
        as (stamp' & rest' & Hsp' & _ & Hlen).
      rewrite Hsp in Hsp'. injection Hsp' as <- <-.
      rewrite (for_each_length _ _ _ Hv). exact Hlen.
    + apply IH; [exact Hrows|]. intros l Hl. apply Hsub. right. exact Hl.
Qed.

Lemma tab_free_rows_give_one_column_witness :
  exists o,
    read utc_mktime Sample.lines_without_tabs Sample.path PyNone
         OpticalSpectrumSeries = Ok o
    /\ List.length (ds_data (snd (fd_axes_series (field o)))) = 3
    /\ Forall (fun row => List.length row <= 1) (fd_data (field o)).
Proof.
  eexists. split; [vm_compute; reflexivity|].
  split; [reflexivity|].
  apply (tab_free_rows_give_one_column utc_mktime
           Sample.lines_without_tabs Sample.path PyNone
           OpticalSpectrumSeries).
  - vm_compute. reflexivity.
  - intros ln Hin. cbv [Sample.lines_without_tabs List.In] in Hin.
    repeat (destruct Hin as [<- | Hin]; [vm_compute; reflexivity|]).
    destruct Hin.
Defined.

(** ** The time axis *)

Lemma sub_nan (x : PyFloat.float) : PyFloat.sub x PyFloat.nan = PyFloat.nan.
Proof. destruct x as [[]|[]| |s m e]; reflexivity. Qed.

Lemma rows_stamps (data : list string)
  (rows : list (PyFloat.float * list PyFloat.float)) :
  for_each parse_row data = Ok rows ->
  exists stamps,
    Forall2 (fun ln st => exists vals, _split_stamp ln = Ok (st, vals))
            data stamps
    /\ map fst rows = map _parse_row_time stamps.
Proof.
  revert rows. induction data as [|ln data IH]; intros rows H.
  - injection H as <-. exists []. split; [constructor | reflexivity].
  - apply for_each_cons_inv in H.
    destruct H as ([t vs] & rows' & Hb & H & ->).
    destruct (IH _ H) as (stamps & HF & Hm).
    apply parse_row_inv in Hb. destruct Hb as (stamp & vals & Hsp & -> & _).
    exists (stamp :: stamps). split.
    + constructor; [eauto | exact HF].
    + cbn [map fst]. rewrite Hm. reflexivity.
Qed.

(** X10. Every relative time of the result is the row time of its line
    minus the row time of the first data line, in binary64. When the stamp
    of the first data line is no time, so that its row time is NaN, every
    relative time of the result is NaN. *)
Theorem relative_times_from_first_row
  (mktime : datetime -> Z + time_error)
  (lines : list string) (path_to_file : string)
  (name : pyval) (cls : py_class) (o : SpectrumSeries) :
  read mktime lines path_to_file name cls = Ok o ->
  exists i stamps,
    find_start 0 lines = Ok (Some i)
    /\ Forall2 (fun ln st => exists vals, _split_stamp ln = Ok (st, vals))
               (filter nonblank (skipn (i + 2) lines)) stamps
    /\ ts_data (fst (fd_axes_series (field o)))
       = map (fun st => PyFloat.sub (_parse_row_time st)
                          (_parse_row_time (hd "" stamps))) stamps
    /\ (_parse_row_time (hd "" stamps) = PyFloat.nan ->
        Forall (fun t => t = PyFloat.nan)
               (ts_data (fst (fd_axes_series (field o))))).
Proof.
  intros Ho. apply read_ok_inv in Ho.
  destruct Ho as (dt0 & dt & i & wl & wls & rows & t0 & Ho).
  destruct Ho as (_ & _ & Hi & _ & _ & Hrows & _ & Ht0 & _ & _ & _ & Hts & _).
  destruct (rows_stamps _ _ Hrows) as (stamps & HF & Hm).
  rewrite Hm in Ht0, Hts.
  assert (E : t0 = _parse_row_time (hd "" stamps)).
  { destruct stamps as [|st stamps]; [discriminate Ht0|].
    cbn in Ht0. injection Ht0 as <-. reflexivity. }
  subst t0.
  assert (Hd : ts_data (fst (fd_axes_series (field o)))
               = map (fun st => PyFloat.sub (_parse_row_time st)
                                  (_parse_row_time (hd "" stamps))) stamps).
  { rewrite Hts. unfold Np.subtract_scalar. apply map_map. }
  exists i, stamps. repeat (split; [assumption|]).
  intros Hnan. rewrite Hd, Hnan. apply Forall_forall.
  intros t Hin. apply in_map_iff in Hin. destruct Hin as (st & <- & _).
  apply sub_nan.
Qed.

Lemma relative_times_from_first_row_witness :
  exists o,
    read utc_mktime Sample.lines_nan_first Sample.path PyNone
         OpticalSpectrumSeries = Ok o
    /\ exists i stamps,
         find_start 0 Sample.lines_nan_first = Ok (Some i)
         /\ Forall2 (fun ln st => exists vals, _split_stamp ln = Ok (st, vals))
                    (filter nonblank (skipn (i + 2) Sample.lines_nan_first))
                    stamps
         /\ ts_data (fst (fd_axes_series (field o)))
            = map (fun st => PyFloat.sub (_parse_row_time st)
                               (_parse_row_time (hd "" stamps))) stamps
         /\ (_parse_row_time (hd "" stamps) = PyFloat.nan ->
             Forall (fun t => t = PyFloat.nan)
                    (ts_data (fst (fd_axes_series (field o))))).
Proof.
  eexists. split; [vm_compute; reflexivity|].
  apply (relative_times_from_first_row utc_mktime Sample.lines_nan_first
           Sample.path PyNone OpticalSpectrumSeries).
  vm_compute. reflexivity.
Defined.

(** ** The timestamp of the result *)

Lemma rep_exact {R} (cls : cclass) (n pos : nat) (prev : option ascii)
  (s : string) (k : nat -> option ascii -> string -> option R) (x : R) :
  rep false cls n (Some n) pos prev s k = Some x ->
  exists pre rest p,
    s = pre ++ rest /\ String.length pre = n
    /\ any (fun c => negb (member cls c)) pre = false
    /\ k (pos + n) p rest = Some x.
Proof.
  revert pos prev s. induction n as [|n IH]; intros pos prev s H.
  - rewrite rep_done in H. unfold halt in H. cbn [Nat.eqb] in H.
    exists "", s, prev. rewrite Nat.add_0_r. auto.
  - destruct s as [|c s]; [discriminate H|].
    cbn [rep more andb option_map pred] in H.
    unfold in_class in H.
    destruct (member cls c) eqn:Hc; [|discriminate H].
    destruct (rep false cls n (Some n) (S pos) (Some c) s k) as [y|] eqn:Hr;
      [|discriminate H].
    injection H as <-.
    destruct (IH _ _ _ Hr) as (pre & rest & p & -> & Hlen & Hall & Hk).
    exists (String c pre), rest, p. cbn [append String.length any].
    rewrite Hc, Hall, Hlen. replace (pos + S n) with (S pos + n) by lia.
    auto.
Qed.

Lemma digit_val_range (c : ascii) :
  isdigit c = true -> (0 <= digit_val c <= 9)%Z.
Proof.
  unfold isdigit, in_range, digit_val. generalize (code c) as n. intros n H.
  apply andb_prop in H. destruct H as [H1 H2].
  apply N.leb_le in H1, H2. lia.
Qed.

Lemma int_three_digits (s : string) :
  String.length s = 3 ->
  any (fun c => negb (isdigit c)) s = false ->
  (0 <= int s <= 999)%Z.
Proof.
  destruct s as [|a [|b [|c [|d s]]]]; try discriminate. intros _ H.
  cbn [any] in H.
  repeat (apply orb_false_elim in H; destruct H as [?H H]).
  repeat match goal with
         | H : negb _ = false |- _ =>
             apply negb_false_iff, digit_val_range in H
         end.
  unfold int. cbn [int_acc]. lia.
Qed.

Lemma search_from_some (ic : bool) (r : regex) (prev : option ascii)
  (s : string) (m : match_obj) :
  search_from ic r prev s = Some m ->
  exists prev' s', match_at ic r prev' s' = Some m.
Proof.
  revert prev. induction s as [|c s IH]; intros prev; cbn [search_from].
  - destruct (match_at ic r prev "") eqn:E; [|discriminate].
    intros H. injection H as <-. eauto.
  - destruct (match_at ic r prev (String c s)) eqn:E.
    + intros H. injection H as <-. eauto.
    + apply IH.
Qed.

(** The fourth group of a match of [__(\d{2})-(\d{2})-(\d{2})-(\d{3})]
    is three digits. *)
Lemma filename_time_group (prev : option ascii) (s : string) (m : match_obj) :
  match_at false re_filename_time prev s = Some m ->
  exists v,
    group "4" (captured m) = Some v
    /\ String.length v = 3
    /\ any (fun c => negb (isdigit c)) v = false.
Proof.
  unfold match_at, re_filename_time. cbn [cat lit exec]. intros H.
  destruct s as [|c1 [|c2 s]]; try discriminate H;
    try (destruct (lit_eq false "_" c1); discriminate H).
  destruct (lit_eq false "_" c1); [|discriminate H].
  destruct (lit_eq false "_" c2); [|discriminate H].
  apply rep_exact in H. destruct H as (p1 & s1 & q1 & -> & _ & _ & H).
  destruct s1 as [|x s1]; [discriminate H|].
  destruct (lit_eq false "-" x); [|discriminate H].
  apply rep_exact in H. destruct H as (p2 & s2 & q2 & -> & _ & _ & H).
  destruct s2 as [|y s2]; [discriminate H|].
  destruct (lit_eq false "-" y); [|discriminate H].
  apply rep_exact in H. destruct H as (p3 & s3 & q3 & -> & _ & _ & H).
  destruct s3 as [|z s3]; [discriminate H|].
  destruct (lit_eq false "-" z); [|discriminate H].
  apply rep_exact in H. destruct H as (p4 & s4 & q4 & -> & Hlen & Hall & H).
  injection H as <-. cbn [captured group String.eqb Ascii.eqb Bool.eqb].
  destruct p4 as [|a [|b [|c [|d p4]]]]; try discriminate Hlen.
  cbn [append]. eexists. split; [reflexivity|]. split; [reflexivity|].
  exact Hall.
Qed.

Lemma parse_filename_time_range (path : string) (ms : Z) :
  _parse_filename_time path = Some ms -> (0 <= ms <= 999)%Z.
Proof.
  unfold _parse_filename_time, search.
  destruct (search_from false re_filename_time None path) as [m|] eqn:Hs;
    [|discriminate].
  destruct (search_from_some _ _ _ _ _ Hs) as (prev & s & Hm).
  destruct (filename_time_group _ _ _ Hm) as (v & -> & Hlen & Hall).
  cbn [option_map]. intros H. injection H as <-.
  exact (int_three_digits _ Hlen Hall).
Qed.

Lemma valid_replace_microsecond (dt : datetime) (us : Z) :
  valid dt = true -> (0 <= us <= 999999)%Z ->
  valid (replace_microsecond dt us) = true.
Proof.
  unfold valid. cbn [replace_microsecond year month day hour minute second
                       microsecond].
  intros H Hus.
  repeat (apply andb_prop in H; destruct H as [H ?]).
  repeat (apply andb_true_intro; split); try assumption;
    apply Z.leb_le; lia.
Qed.

(** X11. The milliseconds read from a path are between 0 and 999, so
    [replace(microsecond=ms * 1000)] is called with a value below one
    million and turns a valid date-time into a valid one: it cannot
    raise. *)
Theorem filename_milliseconds_in_range (path : string) (ms : Z)
  (dt : datetime) :
  _parse_filename_time path = Some ms ->
  (0 <= ms <= 999)%Z
  /\ (valid dt = true -> valid (replace_microsecond dt (ms * 1000)) = true).
Proof.
  intros H. apply parse_filename_time_range in H. split; [exact H|].
  intros Hv. apply valid_replace_microsecond; [exact Hv | lia].
Qed.

Lemma filename_milliseconds_in_range_witness :
  (0 <= 946 <= 999)%Z
  /\ (valid Sample.header_dt = true ->
      valid (replace_microsecond Sample.header_dt (946 * 1000)) = true).
Proof.
  apply (filename_milliseconds_in_range Sample.path 946 Sample.header_dt).
  vm_compute. reflexivity.
Defined.

Lemma parse_header_date_valid (date_str : string) (dt : datetime) :
  _parse_header_date date_str = Ok dt -> valid dt = true.
Proof.
  unfold _parse_header_date. intros H. bind_inv H as s Hs.
  destruct (first_format _ header_fmts) as [dt'|] eqn:Hff; [|discriminate H].
  injection H as <-.
  destruct (first_format_some _ _ _ Hff) as (fmt & _ & Hp).
  exact (strptime_valid _ _ _ Hp).
Qed.

Lemma scan_header_valid (ls : list string) (dt : datetime) :
  scan_header ls = Ok (Some dt) -> valid dt = true.
Proof.
  induction ls as [|ln ls IH]; cbn [scan_header]; intros H; [discriminate H|].
  destruct (startswith (lower ln) "date:"); [|exact (IH H)].
  bind_inv H as d Hd. bind_inv H as dt' Hdt. injection H as <-.
  exact (parse_header_date_valid _ _ Hdt).
Qed.

(** X12. When [read] returns, its timestamp, which is also the one of
    the time axis, is the timestamp of a valid date-time: the header date
    with every field but the microseconds kept. The microseconds are 1000
    times the milliseconds of the path when the path has a time, and those
    of the header date otherwise. *)
Theorem read_timestamp_of_valid_datetime
  (mktime : datetime -> Z + time_error)
  (lines : list string) (path_to_file : string)
  (name : pyval) (cls : py_class) (o : SpectrumSeries) :
  read mktime lines path_to_file name cls = Ok o ->
  exists dt_header dt,
    scan_header (firstn 40 lines) = Ok (Some dt_header)
    /\ valid dt_header = true /\ valid dt = true
    /\ Ok (tstamp o) = timestamp mktime dt
    /\ ts_tstamp (fst (fd_axes_series (field o))) = tstamp o
    /\ year dt = year dt_header /\ month dt = month dt_header
    /\ day dt = day dt_header /\ hour dt = hour dt_header
    /\ minute dt = minute dt_header /\ second dt = second dt_header
    /\ microsecond dt
       = match _parse_filename_time
                 (PathLib.str (PathLib.of_str path_to_file)) with
         | Some ms => (ms * 1000)%Z
         | None => microsecond dt_header
         end.
Proof.
  intros Ho. apply read_ok_inv in Ho.
  destruct Ho as (dt0 & dt & i & wl & wls & rows & t0 & Ho).
  destruct Ho as (Hh & Hre & _ & _ & _ & _ & _ & _ & _ & Hts & _ & _ & Htt & _).
  pose proof (scan_header_valid _ _ Hh) as Hv.
  exists dt0, dt. split; [exact Hh|]. split; [exact Hv|].
  unfold refine in Hre.
  destruct (_parse_filename_time _) as [ms|] eqn:Hms;
    injection Hre as <-.
  - split.
    { apply valid_replace_microsecond; [exact Hv|].
      apply parse_filename_time_range in Hms. lia. }
    repeat (split; [congruence || reflexivity|]). reflexivity.
  - split; [exact Hv|].
    repeat (split; [congruence || reflexivity|]). reflexivity.
Qed.

Lemma read_timestamp_of_valid_datetime_witness :
  exists o,
    read utc_mktime Sample.lines Sample.path PyNone OpticalSpectrumSeries
    = Ok o
    /\ exists dt_header dt,
         scan_header (firstn 40 Sample.lines) = Ok (Some dt_header)
         /\ valid dt_header = true /\ valid dt = true
         /\ Ok (tstamp o) = timestamp utc_mktime dt
         /\ ts_tstamp (fst (fd_axes_series (field o))) = tstamp o
         /\ year dt = year dt_header /\ month dt = month dt_header
         /\ day dt = day dt_header /\ hour dt = hour dt_header
         /\ minute dt = minute dt_header /\ second dt = second dt_header
         /\ microsecond dt
            = match _parse_filename_time
                      (PathLib.str (PathLib.of_str Sample.path)) with
              | Some ms => (ms * 1000)%Z
              | None => microsecond dt_header
              end.
Proof.
  eexists. split; [vm_compute; reflexivity|].
  apply (read_timestamp_of_valid_datetime utc_mktime Sample.lines Sample.path
           PyNone OpticalSpectrumSeries).
  vm_compute. reflexivity.
Defined.

(** ** Blank lines among the data rows *)

Lemma scan_header_app (n : nat) (head more : list string) (dt : datetime) :
  scan_header (firstn n head) = Ok (Some dt) ->
  scan_header (firstn n (head ++ more)) = Ok (Some dt).
Proof.
  revert n. induction head as [|ln head IH]; intros n H.
  - destruct n; discriminate H.
  - destruct n as [|n]; [discriminate H|].
    cbn [app firstn scan_header] in H |- *.
    destruct (startswith (lower ln) "date:"); [exact H | exact (IH _ H)].
Qed.

Lemma find_start_app (head more : list string) (i k : nat) :
  find_start i head = Ok (Some k) ->
  find_start i (head ++ more) = Ok (Some k).
Proof.
  revert i. induction head as [|ln head IH]; intros i H; [discriminate H|].
  cbn [app find_start] in H |- *.
  destruct (is_marker ln); [|exact (IH _ H)].
  destruct head as [|nxt head']; [discriminate H|].
  cbn [app index nth_error bind] in H |- *.
  destruct (starts_with_digit nxt); [exact H | exact (IH _ H)].
Qed.

(** X13. Blank lines among or after the data rows change nothing: when
    the header date and the data section are found in the head of a file,
    two files with that head and the same non-blank lines after it give the
    same result, or the same exception. *)
Theorem blank_data_lines_are_skipped
  (mktime : datetime -> Z + time_error)
  (head data data' : list string)
  (path_to_file : string) (name : pyval) (cls : py_class) :
  (exists dt, scan_header (firstn 40 head) = Ok (Some dt)) ->
  (exists i, find_start 0 head = Ok (Some i)) ->
  filter nonblank data = filter nonblank data' ->
  read mktime (head ++ data) path_to_file name cls
  = read mktime (head ++ data') path_to_file name cls.
Proof.
  intros [dt Hh] [i Hi] Hd.
  destruct (find_start_some _ _ _ Hi) as (j & nxt & -> & Hn & _).
  cbn [Nat.add] in Hi.
  assert (Hlen : j + 2 <= List.length head).
  { assert (S j < List.length head); [|lia].
    apply nth_error_Some. congruence. }
  assert (Hidx : forall more, index (head ++ more) (j + 1) = Ok nxt).
  { intros more. unfold index. replace (j + 1) with (S j) by lia.
    rewrite nth_error_app1 by lia. rewrite Hn. reflexivity. }
  assert (Hskip : forall more,
             filter nonblank (skipn (j + 2) (head ++ more))
             = (filter nonblank (skipn (j + 2) head)
                ++ filter nonblank more)%list).
  { intros more. rewrite skipn_app, filter_app.
    replace (j + 2 - List.length head) with 0 by lia. reflexivity. }
  unfold read.
  rewrite !(scan_header_app 40 head _ dt Hh). cbn [bind].
  destruct (refine _ (Some dt)) as [dt'|]; [|reflexivity]. cbn [bind].
  rewrite !(find_start_app head _ 0 j Hi). cbn [bind].
  rewrite !Hidx. cbn [bind]. rewrite !Hskip, Hd. reflexivity.
Qed.

Lemma blank_data_lines_are_skipped_witness :
  read utc_mktime
       (Sample.lines ++ [Sample.NL; "  " ++ Sample.NL])
       Sample.path PyNone OpticalSpectrumSeries
  = read utc_mktime (Sample.lines ++ []) Sample.path PyNone
         OpticalSpectrumSeries.
Proof.
  apply blank_data_lines_are_skipped.
  - eexists. vm_compute. reflexivity.
  - eexists. vm_compute. reflexivity.
  - vm_compute. reflexivity.
Defined.

(** ** The marker line *)

Lemma search_found_app (ic : bool) (r : regex) (pre s : string)
  (prev : option ascii) :
  (forall p, found (match_at ic r p s) = true) ->
  found (search_from ic r prev (pre ++ s)) = true.
Proof.
  intros H. revert prev. induction pre as [|c pre IH]; intros prev.
  - cbn [append]. specialize (H prev).
    destruct s as [|c s]; cbn [search_from];
      destruct (match_at ic r prev _); [reflexivity | discriminate H
                                       | reflexivity | discriminate H].
  - cbn [append search_from].
    destruct (match_at ic r prev (String c (pre ++ s))); [reflexivity|].
    apply IH.
Qed.

Lemma space_in_class (c : ascii) :
  isspace c = true -> in_class true CSpace c = true.
Proof.
  destruct c as [[] [] [] [] [] [] [] []]; intros H; try discriminate H;
    reflexivity.
Qed.

Lemma letter_not_in_space_class (c : ascii) :
  islower (lower_char c) = true -> in_class true CSpace c = false.
Proof.
  destruct c as [[] [] [] [] [] [] [] []]; intros H; try discriminate H;
    reflexivity.
Qed.

Lemma lit_eq_lower (x c : ascii) :
  lower_char c = lower_char x -> lit_eq true x c = true.
Proof. unfold lit_eq. intros ->. apply Ascii.eqb_refl. Qed.

(** A run of whitespace before a letter matches [\s+]. *)
Lemma rep_space_run (sp : string) (c : ascii) (r : string) (lo pos : nat)
  (prev : option ascii)
  (k : nat -> option ascii -> string -> option match_obj) :
  any (fun a => negb (isspace a)) sp = false ->
  lo <= String.length sp ->
  in_class true CSpace c = false ->
  (forall p, found (k (pos + String.length sp) p (String c r)) = true) ->
  found (rep true CSpace lo None pos prev (sp ++ String c r) k) = true.
Proof.
  revert lo pos prev. induction sp as [|a sp IH]; intros lo pos prev Hsp Hlo Hc Hk.
  - cbn [append rep more andb]. rewrite Hc. unfold halt.
    cbn [String.length] in Hlo, Hk. replace lo with 0 by lia. cbn [Nat.eqb].
    rewrite Nat.add_0_r in Hk. apply Hk.
  - cbn [any] in Hsp. apply orb_false_elim in Hsp. destruct Hsp as [Ha Hsp].
    apply negb_false_iff in Ha.
    cbn [append rep more andb option_map]. rewrite (space_in_class _ Ha).
    assert (Hrec : found (rep true CSpace (pred lo) None (S pos) (Some a)
                            (sp ++ String c r) k) = true).
    { apply IH; [exact Hsp | cbn [String.length] in Hlo; lia | exact Hc|].
      intros p. cbn [String.length] in Hk.
      replace (S pos + String.length sp) with (pos + S (String.length sp))
        by lia.
      apply Hk. }
    destruct (rep true CSpace (pred lo) None (S pos) (Some a) _ k);
      [reflexivity | discriminate Hrec].
Qed.

Ltac word_chars H w :=
  repeat (destruct w as [|? w]; [discriminate H|];
          cbn [lower] in H;
          let Hc := fresh "Hc" in injection H as Hc H);
  destruct w; [clear H | discriminate H].

Ltac match_letter :=
  match goal with
  | Hc : lower_char ?c = _ |- context [lit_eq true ?x ?c] =>
      rewrite (lit_eq_lower x c) by (rewrite Hc; reflexivity)
  end.

(** X14. The marker is recognised in any letter case, with any non-empty
    runs of whitespace between its three words, wherever it stands in the
    line. *)
Theorem marker_in_any_case (pre w1 sp1 w2 sp2 w3 post : string) :
  lower w1 = "begin" -> lower w2 = "spectral" -> lower w3 = "data" ->
  sp1 <> "" -> any (fun c => negb (isspace c)) sp1 = false ->
  sp2 <> "" -> any (fun c => negb (isspace c)) sp2 = false ->
  is_marker (pre ++ w1 ++ sp1 ++ w2 ++ sp2 ++ w3 ++ post) = true.
Proof.
  intros H1 H2 H3 Hn1 Hs1 Hn2 Hs2.
  unfold is_marker, search. apply search_found_app. intros p.
  word_chars H1 w1. word_chars H2 w2. word_chars H3 w3.
  unfold match_at, re_begin. cbn [append cat lit exec].
  repeat match_letter.
  apply rep_space_run;
    [exact Hs1 | destruct sp1; [congruence | cbn; lia]
    | apply letter_not_in_space_class;
      match goal with H : lower_char ?c = _ |- context [lower_char ?c] =>
        rewrite H end; reflexivity
    |].
  intros q. cbn [exec]. repeat match_letter.
  apply rep_space_run;
    [exact Hs2 | destruct sp2; [congruence | cbn; lia]
    | apply letter_not_in_space_class;
      match goal with H : lower_char ?c = _ |- context [lower_char ?c] =>
        rewrite H end; reflexivity
    |].
  intros q'. cbn [exec]. repeat match_letter. reflexivity.
Qed.

Lemma marker_in_any_case_witness :
  is_marker (">>>>>" ++ "BEGIN" ++ (" " ++ Sample.TAB) ++ "Spectral" ++ " "
             ++ "data" ++ "<<<<<") = true.
Proof.
  apply marker_in_any_case; try reflexivity; discriminate.
Defined.

(** ** Times of day *)

Lemma digit_in_range_class (c : ascii) :
  isdigit c = true -> in_class true (CRange "0" "9") c = true.
Proof.
  destruct c as [[] [] [] [] [] [] [] []]; intros H; try discriminate H;
    reflexivity.
Qed.

Lemma take_all (s : string) : take (String.length s) s = s.
Proof. induction s as [|c s IH]; cbn; congruence. Qed.

(** A greedy repetition takes a whole string of the class. *)
Lemma rep_all {R} (cls : cclass) (f : string) (lo hi pos : nat)
  (prev : option ascii) (k : nat -> option ascii -> string -> option R)
  (x : R) :
  any (fun c => negb (in_class true cls c)) f = false ->
  lo <= String.length f <= hi ->
  (forall p, k (pos + String.length f) p "" = Some x) ->
  rep true cls lo (Some hi) pos prev f k = Some x.
Proof.
  revert lo hi pos prev. induction f as [|c f IH]; intros lo hi pos prev Hf Hl Hk.
  - cbn [String.length] in Hl, Hk. cbn [rep]. unfold halt.
    replace lo with 0 by lia. cbn [Nat.eqb]. rewrite Nat.add_0_r in Hk.
    apply Hk.
  - cbn [any] in Hf. apply orb_false_elim in Hf. destruct Hf as [Hc Hf].
    apply negb_false_iff in Hc. cbn [String.length] in Hl, Hk.
    destruct hi as [|hi]; [lia|].
    cbn [rep more andb option_map pred]. rewrite Hc.
    rewrite (IH (pred lo) hi (S pos) (Some c)); [reflexivity | exact Hf | lia|].
    intros p. replace (S pos + String.length f)
                with (pos + S (String.length f)) by lia.
    apply Hk.
Qed.

Lemma sub_add_l (pos n : nat) : pos + n - pos = n.
Proof. lia. Qed.

Lemma all_digits_class (f : string) :
  all_digits f ->
  any (fun c => negb (in_class true (CRange "0" "9") c)) f = false.
Proof.
  induction f as [|c f IH]; cbn [any]; [reflexivity|]. intros H.
  apply orb_false_elim in H. destruct H as [Hc Hf].
  apply negb_false_iff in Hc.
  rewrite (digit_in_range_class _ Hc), (IH Hf). reflexivity.
Qed.

(** [%f] at the end of the pattern takes all of one to six digits. *)
Lemma field_f {R} (f : string) (pos : nat) (prev : option ascii)
  (g : groups) (K : nat -> option ascii -> string -> groups -> option R)
  (x : R) :
  all_digits f -> 1 <= String.length f <= 6 ->
  (forall p, K (pos + String.length f) p "" (("f", f) :: g) = Some x) ->
  exec true (re_of "f") pos prev f g K = Some x.
Proof.
  intros Hf Hl Hk. unfold re_of. cbn [directive exec].
  apply rep_all; [exact (all_digits_class _ Hf) | exact Hl|].
  intros p. rewrite sub_add_l, take_all. apply Hk.
Qed.

Lemma all_digits_no_space (f : string) :
  all_digits f -> any isspace f = false.
Proof.
  induction f as [|c f IH]; cbn [any]; [reflexivity|]. intros H.
  apply orb_false_elim in H. destruct H as [Hc Hf].
  apply negb_false_iff in Hc. rewrite (IH Hf), orb_false_r.
  destruct (isspace c) eqn:Hs; [|reflexivity].
  apply isspace_not_digit in Hs. congruence.
Qed.

(** The microseconds of a fraction: its digits, padded with zeros on the
    right to six. *)
Lemma microseconds_range (f : string) :
  all_digits f -> 1 <= String.length f <= 6 ->
  (0 <= int (pad6 f) <= 999999)%Z.
Proof.
  intros Hf Hl.
  destruct f as [|c1 [|c2 [|c3 [|c4 [|c5 [|c6 [|c7 f]]]]]]];
    cbn [String.length] in Hl; try lia;
    cbn [any] in Hf;
    repeat (apply orb_false_elim in Hf; destruct Hf as [?H Hf]);
    repeat match goal with
           | H : negb _ = false |- _ =>
               apply negb_false_iff, digit_val_range in H
           end;
    unfold int, pad6; cbn [String.length Nat.sub take append int_acc];
    change (digit_val "0") with 0%Z; lia.
Qed.

(** [%Y] needs four digits. *)
Lemma field_Y_short {R} (a b x : ascii) (rest : string) (pos : nat)
  (prev : option ascii) (g : groups)
  (K : nat -> option ascii -> string -> groups -> option R) :
  in_class true CDigit x = false ->
  exec true (re_of "Y") pos prev (String a (String b (String x rest))) g K
  = None.
Proof.
  intros Hx. unfold re_of. cbn [directive cat digit exec].
  destruct (in_class true CDigit a); [|reflexivity].
  destruct (in_class true CDigit b); [|reflexivity].
  rewrite Hx. reflexivity.
Qed.

Lemma strptime_no_year (a b x : ascii) (rest fmt : string) :
  in_class true CDigit x = false ->
  strptime (String a (String b (String x rest)))
           (String "%" (String "Y" fmt))
  = inr (match pattern false fmt with
         | Some _ => DoesNotMatchFormat
         | None => BadDirective
         end).
Proof.
  intros Hx. unfold strptime.
  change (pattern false (String "%" (String "Y" fmt)))
    with (match pattern false fmt with
          | Some rs => Some (Cat (re_of "Y") rs)
          | None => None
          end).
  destruct (pattern false fmt) as [rs|]; [|reflexivity].
  unfold match_, match_at. cbn [exec].
  rewrite field_Y_short by exact Hx. reflexivity.
Qed.

Section TimeOfDay.

Variables h1 h0 n1 n0 s1 s0 : nat.
Hypotheses (Hh1 : h1 < 10) (Hh0 : h0 < 10) (Hh : 10 * h1 + h0 < 24).
Hypotheses (Hn1 : n1 < 10) (Hn0 : n0 < 10) (Hn : 10 * n1 + n0 < 60).
Hypotheses (Hs1 : s1 < 10) (Hs0 : s0 < 10) (Hs : 10 * s1 + s0 < 60).

(** [HH<sep>MM<sep>SS<tail>] *)
Let stamp (sep : ascii) (tail : string) : string :=
  String (digit_char h1) (String (digit_char h0) (String sep
    (String (digit_char n1) (String (digit_char n0) (String sep
    (String (digit_char s1) (String (digit_char s0) tail))))))).

Let time_of_day (us : Z) : datetime :=
  {| year := 1900; month := 1; day := 1;
     hour := Z.of_nat (10 * h1 + h0);
     minute := Z.of_nat (10 * n1 + n0);
     second := Z.of_nat (10 * s1 + s0);
     microsecond := us |}.

Lemma time_of_day_valid (us : Z) :
  (0 <= us <= 999999)%Z -> valid (time_of_day us) = true.
Proof.
  intros Hus. unfold valid, time_of_day.
  cbn [year month day hour minute second microsecond].
  change (days_in_month 1900 1) with 31%Z.
  repeat (apply andb_true_intro; split); apply Z.leb_le; lia.
Qed.

Lemma stamp_no_year (sep : ascii) (tail fmt : string) :
  in_class true CDigit sep = false ->
  exists f, strptime (stamp sep tail) (String "%" (String "Y" fmt)) = inr f.
Proof.
  intros Hsep. unfold stamp. rewrite strptime_no_year by exact Hsep. eauto.
Qed.

(** The three fields and their separators, up to the seconds. *)
Lemma time_prefix {R} (sep : ascii) (tail : string) (r : regex)
  (k : nat -> option ascii -> string -> groups -> option R) :
  isdigit sep = false -> lit_eq true sep sep = true ->
  exec true
    (Cat (re_of "H") (Cat (Lit sep) (Cat (re_of "M") (Cat (Lit sep) r))))
    0 None (stamp sep tail) [] k
  = exec true r 6 (Some sep)
      (String (digit_char s1) (String (digit_char s0) tail))
      [("M", String (digit_char n1) (String (digit_char n0) ""));
       ("H", String (digit_char h1) (String (digit_char h0) ""))]
      k.
Proof.
  intros Hsep Heq. unfold stamp. cbn [exec].
  rewrite field_H
    by (assumption || (apply literal_wants_separator; exact Hsep)).
  cbn [exec]. rewrite Heq.
  rewrite field_M
    by (assumption || (apply literal_wants_separator; exact Hsep)).
  cbn [exec]. rewrite Heq. reflexivity.
Qed.

(** A time written with hyphens matches no format with colons. *)
Lemma hyphen_time_no_colon (tail : string) (r : regex) :
  match_ true (Cat (re_of "H") (Cat (Lit ":") r)) (stamp "-" tail) = None.
Proof.
  unfold match_, match_at, stamp. cbn [exec].
  rewrite field_H
    by (assumption || (apply literal_wants_separator; reflexivity)).
  reflexivity.
Qed.

Lemma hyphen_time_formats (tail : string) :
  strptime (stamp "-" tail) "%H:%M:%S.%f" = inr DoesNotMatchFormat
  /\ strptime (stamp "-" tail) "%H:%M:%S" = inr DoesNotMatchFormat.
Proof.
  unfold strptime.
  change (pattern false "%H:%M:%S.%f")
    with (Some
      (Cat (re_of "H") (Cat (Lit ":") (Cat (re_of "M") (Cat (Lit ":")
        (Cat (re_of "S") (Cat (Lit ".") (Cat (re_of "f") Empty)))))))).
  change (pattern false "%H:%M:%S")
    with (Some
      (Cat (re_of "H") (Cat (Lit ":") (Cat (re_of "M") (Cat (Lit ":")
        (Cat (re_of "S") Empty)))))).
  cbv beta iota. rewrite !hyphen_time_no_colon. split; reflexivity.
Qed.

(** [HH:MM:SS] has no fraction. *)
Lemma time_without_fraction :
  strptime (stamp ":" "") "%H:%M:%S.%f" = inr DoesNotMatchFormat.
Proof.
  unfold strptime.
  change (pattern false "%H:%M:%S.%f")
    with (Some
      (Cat (re_of "H") (Cat (Lit ":") (Cat (re_of "M") (Cat (Lit ":")
        (Cat (re_of "S") (Cat (Lit ".") (Cat (re_of "f") Empty)))))))).
  unfold match_, match_at. rewrite time_prefix by reflexivity.
  cbn [exec].
  rewrite field_S
    by (assumption || (apply literal_wants_separator; reflexivity)).
  reflexivity.
Qed.

Lemma time_matches :
  strptime (stamp ":" "") "%H:%M:%S" = inl (time_of_day 0).
Proof.
  unfold strptime.
  change (pattern false "%H:%M:%S")
    with (Some
      (Cat (re_of "H") (Cat (Lit ":") (Cat (re_of "M") (Cat (Lit ":")
        (Cat (re_of "S") Empty)))))).
  unfold match_, match_at. rewrite time_prefix by reflexivity.
  cbn [exec].
  erewrite field_S_found by (assumption || reflexivity).
  cbn [span captured stamp String.length Nat.eqb negb].
  assert (E : fields
                [("S", String (digit_char s1) (String (digit_char s0) ""));
                 ("M", String (digit_char n1) (String (digit_char n0) ""));
                 ("H", String (digit_char h1) (String (digit_char h0) ""))]
              = time_of_day 0).
  { unfold fields, Strptime.field, time_of_day.
    cbn [group String.eqb Ascii.eqb Bool.eqb].
    rewrite !int_two_digits by assumption. reflexivity. }
  rewrite E, time_of_day_valid by lia. reflexivity.
Qed.

Section Fraction.

Variable f : string.
Hypotheses (Hf : all_digits f) (Hl : 1 <= String.length f <= 6).

Lemma fields_with_fraction :
  fields
    [("f", f);
     ("S", String (digit_char s1) (String (digit_char s0) ""));
     ("M", String (digit_char n1) (String (digit_char n0) ""));
     ("H", String (digit_char h1) (String (digit_char h0) ""))]
  = time_of_day (int (pad6 f)).
Proof.
  unfold fields, Strptime.field, time_of_day.
  cbn [group String.eqb Ascii.eqb Bool.eqb].
  rewrite !int_two_digits by assumption. reflexivity.
Qed.

Lemma time_with_fraction_matches (sep dot : ascii) :
  isdigit sep = false -> lit_eq true sep sep = true ->
  lit_eq true dot dot = true ->
  match_ true
    (Cat (re_of "H") (Cat (Lit sep) (Cat (re_of "M") (Cat (Lit sep)
      (Cat (re_of "S") (Cat (Lit dot) (Cat (re_of "f") Empty)))))))
    (stamp sep (String dot f))
  = Some {| span := 9 + String.length f;
            captured :=
              [("f", f);
               ("S", String (digit_char s1) (String (digit_char s0) ""));
               ("M", String (digit_char n1) (String (digit_char n0) ""));
               ("H", String (digit_char h1) (String (digit_char h0) ""))] |}.
Proof.
  intros Hsep Heq Hdot.
  unfold match_, match_at. rewrite time_prefix by assumption.
  cbn [exec].
  apply field_S_found; try assumption.
  cbn [exec]. rewrite Hdot.
  apply field_f; [exact Hf | exact Hl|].
  intros p. reflexivity.
Qed.

Lemma stamp_length (sep : ascii) (tail : string) :
  String.length (stamp sep tail) = 8 + String.length tail.
Proof. reflexivity. Qed.

Lemma colon_time_with_fraction :
  strptime (stamp ":" (String "." f)) "%H:%M:%S.%f"
  = inl (time_of_day (int (pad6 f))).
Proof.
  unfold strptime.
  change (pattern false "%H:%M:%S.%f")
    with (Some
      (Cat (re_of "H") (Cat (Lit ":") (Cat (re_of "M") (Cat (Lit ":")
        (Cat (re_of "S") (Cat (Lit ".") (Cat (re_of "f") Empty)))))))).
  cbv beta iota. rewrite time_with_fraction_matches by reflexivity.
  cbn [span captured]. rewrite stamp_length. cbn [String.length].
  replace (9 + String.length f =? 8 + S (String.length f)) with true
    by (symmetry; apply Nat.eqb_eq; lia).
  cbn [negb]. rewrite fields_with_fraction.
  rewrite time_of_day_valid by (apply microseconds_range; assumption).
  reflexivity.
Qed.

Lemma hyphen_time_with_fraction :
  strptime (stamp "-" (String "-" f)) "%H-%M-%S-%f"
  = inl (time_of_day (int (pad6 f))).
Proof.
  unfold strptime.
  change (pattern false "%H-%M-%S-%f")
    with (Some
      (Cat (re_of "H") (Cat (Lit "-") (Cat (re_of "M") (Cat (Lit "-")
        (Cat (re_of "S") (Cat (Lit "-") (Cat (re_of "f") Empty)))))))).
  cbv beta iota. rewrite time_with_fraction_matches by reflexivity.
  cbn [span captured]. rewrite stamp_length. cbn [String.length].
  replace (9 + String.length f =? 8 + S (String.length f)) with true
    by (symmetry; apply Nat.eqb_eq; lia).
  cbn [negb]. rewrite fields_with_fraction.
  rewrite time_of_day_valid by (apply microseconds_range; assumption).
  reflexivity.
Qed.

End Fraction.

Lemma stamp_strip (sep : ascii) (tail : string) :
  isspace sep = false -> any isspace tail = false ->
  strip (stamp sep tail) = stamp sep tail.
Proof.
  intros Hsep Ht. apply strip_no_space. unfold stamp. cbn [any].
  rewrite !isspace_digit_char by assumption. rewrite Hsep, Ht. reflexivity.
Qed.

Lemma seconds_of_time_of_day (us : Z) :
  seconds_of_day (time_of_day us)
  = PyFloat.add
      (PyFloat.of_int
         (Z.of_nat ((10 * h1 + h0) * 3600 + (10 * n1 + n0) * 60
                    + (10 * s1 + s0))))
      (PyFloat.div (PyFloat.of_int us) (PyFloat.of_int 1000000)).
Proof.
  unfold seconds_of_day, time_of_day. cbn [hour minute second microsecond].
  do 2 f_equal. lia.
Qed.

(** [HH:MM:SS] *)
Lemma time_row_time :
  _parse_row_time (stamp ":" "")
  = PyFloat.of_int
      (Z.of_nat ((10 * h1 + h0) * 3600 + (10 * n1 + n0) * 60
                 + (10 * s1 + s0))).
Proof.
  unfold _parse_row_time. rewrite stamp_strip by reflexivity.
  cbn [row_fmts first_format].
  destruct (stamp_no_year ":" "" "-%m-%d %H:%M:%S.%f" eq_refl) as [e1 ->].
  rewrite time_without_fraction.
  destruct (stamp_no_year ":" "" "-%m-%d %H:%M:%S" eq_refl) as [e3 ->].
  rewrite time_matches, seconds_of_time_of_day.
  change (PyFloat.div (PyFloat.of_int 0) (PyFloat.of_int 1000000))
    with (S754_zero false).
  apply add_zero_of_int. lia.
Qed.

(** [HH:MM:SS.f] *)
Lemma time_fraction_row_time (f : string) :
  all_digits f -> 1 <= String.length f <= 6 ->
  _parse_row_time (stamp ":" (String "." f))
  = PyFloat.add
      (PyFloat.of_int
         (Z.of_nat ((10 * h1 + h0) * 3600 + (10 * n1 + n0) * 60
                    + (10 * s1 + s0))))
      (PyFloat.div (PyFloat.of_int (int (pad6 f))) (PyFloat.of_int 1000000)).
Proof.
  intros Hf Hl. unfold _parse_row_time.
  rewrite stamp_strip
    by (reflexivity || (cbn [any]; rewrite all_digits_no_space by exact Hf;
                        reflexivity)).
  cbn [row_fmts first_format].
  destruct (stamp_no_year ":" (String "." f) "-%m-%d %H:%M:%S.%f" eq_refl)
    as [e1 ->].
  rewrite colon_time_with_fraction by assumption.
  apply seconds_of_time_of_day.
Qed.

(** [HH-MM-SS-f] *)
Lemma hyphen_time_row_time (f : string) :
  all_digits f -> 1 <= String.length f <= 6 ->
  _parse_row_time (stamp "-" (String "-" f))
  = PyFloat.add
      (PyFloat.of_int
         (Z.of_nat ((10 * h1 + h0) * 3600 + (10 * n1 + n0) * 60
                    + (10 * s1 + s0))))
      (PyFloat.div (PyFloat.of_int (int (pad6 f))) (PyFloat.of_int 1000000)).
Proof.
  intros Hf Hl. unfold _parse_row_time.
  rewrite stamp_strip
    by (reflexivity || (cbn [any]; rewrite all_digits_no_space by exact Hf;
                        reflexivity)).
  cbn [row_fmts first_format].
  destruct (stamp_no_year "-" (String "-" f) "-%m-%d %H:%M:%S.%f" eq_refl)
    as [e1 ->].
  destruct (hyphen_time_formats (String "-" f)) as [-> E4].
  destruct (stamp_no_year "-" (String "-" f) "-%m-%d %H:%M:%S" eq_refl)
    as [e3 ->].
  rewrite E4, hyphen_time_with_fraction by assumption.
  apply seconds_of_time_of_day.
Qed.

End TimeOfDay.

(** X15. The stamp [HH:MM:SS] has the row time
    [HH * 3600 + MM * 60 + SS]. With a fraction of one to six digits,
    [HH:MM:SS.f], the fraction is padded with zeros on the right to six
    digits, read as microseconds, divided by 1e6 and added. *)
Theorem colon_time_row_time (h m s : nat) :
  h < 24 -> m < 60 -> s < 60 ->
  _parse_row_time (two_digits h ++ ":" ++ two_digits m ++ ":" ++ two_digits s)
  = PyFloat.of_int (Z.of_nat (h * 3600 + m * 60 + s))
  /\ forall f,
       all_digits f -> 1 <= String.length f <= 6 ->
       _parse_row_time
         (two_digits h ++ ":" ++ two_digits m ++ ":" ++ two_digits s
          ++ "." ++ f)
       = PyFloat.add
           (PyFloat.of_int (Z.of_nat (h * 3600 + m * 60 + s)))
           (PyFloat.div (PyFloat.of_int (int (pad6 f)))
                        (PyFloat.of_int 1000000)).
Proof.
  intros Hh Hm Hs.
  destruct (two_digit_split h) as (Hh1 & Hh0 & Eh); [lia|].
  destruct (two_digit_split m) as (Hn1 & Hn0 & En); [lia|].
  destruct (two_digit_split s) as (Hs1 & Hs0 & Es); [lia|].
  unfold two_digits. cbn [append].
  set (h1 := h / 10) in *. set (h0 := h mod 10) in *.
  set (n1 := m / 10) in *. set (n0 := m mod 10) in *.
  set (s1 := s / 10) in *. set (s0 := s mod 10) in *.
  clearbody h1 h0 n1 n0 s1 s0. subst h m s.
  split.
  - apply time_row_time; assumption.
  - intros f Hf Hl. apply time_fraction_row_time; assumption.
Qed.

Lemma colon_time_row_time_witness :
  _parse_row_time ("13" ++ ":" ++ "42" ++ ":" ++ "52")
  = PyFloat.of_int 49372
  /\ forall f,
       all_digits f -> 1 <= String.length f <= 6 ->
       _parse_row_time ("13" ++ ":" ++ "42" ++ ":" ++ "52" ++ "." ++ f)
       = PyFloat.add
           (PyFloat.of_int 49372)
           (PyFloat.div (PyFloat.of_int (int (pad6 f)))
                        (PyFloat.of_int 1000000)).
Proof. apply (colon_time_row_time 13 42 52); lia. Defined.

(** X16. A stamp in the format of the file names, [HH-MM-SS-f] with one
    to six digits [f], has the row time of [HH:MM:SS.f]. *)
Theorem hyphen_time_row_time_ms (h m s : nat) (f : string) :
  h < 24 -> m < 60 -> s < 60 ->
  all_digits f -> 1 <= String.length f <= 6 ->
  _parse_row_time
    (two_digits h ++ "-" ++ two_digits m ++ "-" ++ two_digits s ++ "-" ++ f)
  = PyFloat.add
      (PyFloat.of_int (Z.of_nat (h * 3600 + m * 60 + s)))
      (PyFloat.div (PyFloat.of_int (int (pad6 f))) (PyFloat.of_int 1000000)).
Proof.
  intros Hh Hm Hs Hf Hl.
  destruct (two_digit_split h) as (Hh1 & Hh0 & Eh); [lia|].
  destruct (two_digit_split m) as (Hn1 & Hn0 & En); [lia|].
  destruct (two_digit_split s) as (Hs1 & Hs0 & Es); [lia|].
  unfold two_digits. cbn [append].
  set (h1 := h / 10) in *. set (h0 := h mod 10) in *.
  set (n1 := m / 10) in *. set (n0 := m mod 10) in *.
  set (s1 := s / 10) in *. set (s0 := s mod 10) in *.
  clearbody h1 h0 n1 n0 s1 s0. subst h m s.
  apply hyphen_time_row_time; assumption.
Qed.

Lemma hyphen_time_row_time_ms_witness :
  _parse_row_time "13-42-52-946"
  = PyFloat.add (PyFloat.of_int 49372)
      (PyFloat.div (PyFloat.of_int 946000) (PyFloat.of_int 1000000)).
Proof.
  apply (hyphen_time_row_time_ms 13 42 52 "946");
    [lia | lia | lia | reflexivity | cbn; lia].
Defined.

(** ** Date-times with a fraction *)

Section DateTimeFraction.

Variables y3 y2 y1 y0 m1 m0 d1 d0 h1 h0 n1 n0 s1 s0 : nat.
Variable f : string.
Hypotheses (Hy3 : y3 < 10) (Hy2 : y2 < 10) (Hy1 : y1 < 10) (Hy0 : y0 < 10).
Hypotheses (Hm1 : m1 < 10) (Hm0 : m0 < 10) (Hm : 1 <= 10 * m1 + m0 <= 12).
Hypotheses (Hd1 : d1 < 10) (Hd0 : d0 < 10) (Hd : 1 <= 10 * d1 + d0 <= 31).
Hypotheses (Hh1 : h1 < 10) (Hh0 : h0 < 10) (Hh : 10 * h1 + h0 < 24).
Hypotheses (Hn1 : n1 < 10) (Hn0 : n0 < 10) (Hn : 10 * n1 + n0 < 60).
Hypotheses (Hs1 : s1 < 10) (Hs0 : s0 < 10) (Hs : 10 * s1 + s0 < 60).
Hypotheses (Hf : all_digits f) (Hl : 1 <= String.length f <= 6).

Let stamp : string :=
  String (digit_char y3) (String (digit_char y2) (String (digit_char y1)
    (String (digit_char y0) (String "-"
    (String (digit_char m1) (String (digit_char m0) (String "-"
    (String (digit_char d1) (String (digit_char d0) (String " "
    (String (digit_char h1) (String (digit_char h0) (String ":"
    (String (digit_char n1) (String (digit_char n0) (String ":"
    (String (digit_char s1) (String (digit_char s0)
    (String "." f))))))))))))))))))).

Lemma date_time_fraction_matches :
  strptime stamp "%Y-%m-%d %H:%M:%S.%f"
  = let dt :=
      {| year := Z.of_nat (1000 * y3 + 100 * y2 + 10 * y1 + y0);
         month := Z.of_nat (10 * m1 + m0);
         day := Z.of_nat (10 * d1 + d0);
         hour := Z.of_nat (10 * h1 + h0);
         minute := Z.of_nat (10 * n1 + n0);
         second := Z.of_nat (10 * s1 + s0);
         microsecond := int (pad6 f) |} in
    if valid dt then inl dt else inr OutOfRange.
Proof.
  unfold strptime.
  change (pattern false "%Y-%m-%d %H:%M:%S.%f")
    with (Some
      (Cat (re_of "Y") (Cat (Lit "-") (Cat (re_of "m") (Cat (Lit "-")
        (Cat (re_of "d") (Cat (Repeat CSpace 1 None)
          (Cat (re_of "H") (Cat (Lit ":") (Cat (re_of "M") (Cat (Lit ":")
            (Cat (re_of "S") (Cat (Lit ".")
               (Cat (re_of "f") Empty)))))))))))))).
  unfold match_, match_at, stamp.
  rewrite date_time_prefix by assumption.
  cbn [exec].
  erewrite field_S_found;
    [| assumption | assumption | assumption
     | cbn [exec]; change (lit_eq true "." ".") with true; cbn iota;
       apply field_f; [exact Hf | exact Hl | intros p; reflexivity]].
  cbn [span captured String.length].
  cbn [Nat.add]. rewrite Nat.eqb_refl.
  cbn [negb].
  assert (E : forall sS sM sH sd sm sY,
             fields [("f", f); ("S", sS); ("M", sM); ("H", sH); ("d", sd);
                     ("m", sm); ("Y", sY)]
             = {| year := int sY; month := int (strip sm);
                  day := int (strip sd); hour := int (strip sH);
                  minute := int (strip sM); second := int (strip sS);
                  microsecond := int (pad6 f) |}) by reflexivity.
  rewrite E, !int_two_digits, int_four_digits by assumption.
  reflexivity.
Qed.

End DateTimeFraction.

Lemma rstrip_keeps (c : ascii) (t : string) :
  rstrip t = t -> t <> "" -> rstrip (String c t) = String c t.
Proof.
  intros E Hne. cbn [rstrip]. rewrite E. destruct t; congruence.
Qed.

(** X17. For every date of the calendar, [YYYY-MM-DD HH:MM:SS.f] with a
    fraction of one to six digits has the row time of [HH:MM:SS.f]: the
    date is parsed and not used. *)
Theorem date_time_fraction_row_time (Y M D h m s : nat) (f : string) :
  1 <= Y < 100 * 100 -> 1 <= M <= 12 -> 1 <= D ->
  (Z.of_nat D <= days_in_month (Z.of_nat Y) (Z.of_nat M))%Z ->
  h < 24 -> m < 60 -> s < 60 ->
  all_digits f -> 1 <= String.length f <= 6 ->
  _parse_row_time (Iso.date_time Y M D h m s ++ "." ++ f)
  = PyFloat.add
      (PyFloat.of_int (Z.of_nat (h * 3600 + m * 60 + s)))
      (PyFloat.div (PyFloat.of_int (int (pad6 f))) (PyFloat.of_int 1000000)).
Proof.
  intros HY HM HD1 HD Hh Hm Hs Hf Hl.
  assert (HD31 : D <= 31).
  { unfold days_in_month in HD.
    repeat match type of HD with context [if ?b then _ else _] =>
             destruct b end; lia. }
  pose proof (Nat.div_mod_eq Y 100) as HYs.
  pose proof (Nat.mod_upper_bound Y 100) as HYlo.
  assert (HYhi : Y / 100 < 100) by (apply Nat.Div0.div_lt_upper_bound; lia).
  destruct (two_digit_split (Y / 100) HYhi) as (Hy3 & Hy2 & EYhi).
  destruct (two_digit_split (Y mod 100)) as (Hy1 & Hy0 & EYlo); [lia|].
  destruct (two_digit_split M) as (Hm1 & Hm0 & EM); [lia|].
  destruct (two_digit_split D) as (Hd1 & Hd0 & ED); [lia|].
  destruct (two_digit_split h) as (Hh1 & Hh0 & Eh); [lia|].
  destruct (two_digit_split m) as (Hn1 & Hn0 & En); [lia|].
  destruct (two_digit_split s) as (Hs1 & Hs0 & Es); [lia|].
  unfold date_time, four_digits, two_digits. cbn [append].
  set (y3 := Y / 100 / 10) in *. set (y2 := (Y / 100) mod 10) in *.
  set (y1 := Y mod 100 / 10) in *. set (y0 := (Y mod 100) mod 10) in *.
  set (m1 := M / 10) in *. set (m0 := M mod 10) in *.
  set (d1 := D / 10) in *. set (d0 := D mod 10) in *.
  set (h1 := h / 10) in *. set (h0 := h mod 10) in *.
  set (n1 := m / 10) in *. set (n0 := m mod 10) in *.
  set (s1 := s / 10) in *. set (s0 := s mod 10) in *.
  assert (EY : 1000 * y3 + 100 * y2 + 10 * y1 + y0 = Y) by lia.
  clearbody y3 y2 y1 y0 m1 m0 d1 d0 h1 h0 n1 n0 s1 s0.
  unfold _parse_row_time.
  match goal with |- context [strip ?x] =>
    assert (Hstrip : strip x = x)
  end.
  { unfold strip. cbn [lstrip]. rewrite isspace_digit_char by assumption.
    repeat (apply rstrip_keeps; [|discriminate]).
    apply rstrip_keeps.
    - apply rstrip_no_space, all_digits_no_space, Hf.
    - destruct f; [cbn in Hl; lia | discriminate]. }
  rewrite Hstrip. cbn [row_fmts first_format].
  rewrite date_time_fraction_matches by (assumption || lia).
  cbv zeta. rewrite EY, EM, ED, Eh, En, Es.
  assert (Hv : valid {| year := Z.of_nat Y; month := Z.of_nat M;
                        day := Z.of_nat D; hour := Z.of_nat h;
                        minute := Z.of_nat m; second := Z.of_nat s;
                        microsecond := int (pad6 f) |} = true).
  { pose proof (microseconds_range f Hf Hl).
    unfold valid. cbn [year month day hour minute second microsecond].
    repeat (apply andb_true_intro; split); apply Z.leb_le; lia. }
  rewrite Hv. unfold seconds_of_day.
  cbn [hour minute second microsecond]. do 2 f_equal. lia.
Qed.

Lemma date_time_fraction_row_time_witness :
  _parse_row_time "1970-01-01 01:24:29.367452"
  = PyFloat.add (PyFloat.of_int 5069)
      (PyFloat.div (PyFloat.of_int 367452) (PyFloat.of_int 1000000)).
Proof.
  apply (date_time_fraction_row_time 1970 1 1 1 24 29 "367452");
    [lia | lia | lia | vm_compute; discriminate | lia | lia | lia
    | reflexivity | cbn; lia].
Defined.

(** ** What [_parse_header_date] returns *)

(** X18. [_parse_header_date] returns a valid date-time or raises the
    [ValueError] "Could not parse header date" carrying its argument as it
    was given; so [split(":", 1)[1]] inside it cannot fail. Whitespace
    around the argument does not change the date that is returned. *)
Theorem parse_header_date_valid_or_value_error (date_str : string) :
  ((exists dt, _parse_header_date date_str = Ok dt /\ valid dt = true)
   \/ _parse_header_date date_str
      = Raise (ValueError (CouldNotParseHeaderDate date_str)))
  /\ forall dt,
       _parse_header_date (strip date_str) = Ok dt
       <-> _parse_header_date date_str = Ok dt.
Proof.
  split.
  - destruct (_parse_header_date date_str) as [dt|e] eqn:H.
    + left. exists dt. split; [reflexivity|].
      exact (parse_header_date_valid _ _ H).
    + right. rewrite (parse_header_date_raise _ _ H). reflexivity.
  - intros dt. unfold _parse_header_date. rewrite strip_idem.
    destruct (if startswith (lower (strip date_str)) "date:"
              then after_colon (strip date_str) else Ok (strip date_str))
      as [s|e]; cbn [bind]; [|split; intros H; exact H].
    destruct (first_format _ header_fmts); split; intros H;
      try exact H; discriminate H.
Qed.

(** ** Row times that are plain numbers *)

(** When [exec] succeeds, the continuation was called on a suffix of the
    subject. *)
Lemma rep_suffix {R} (ic : bool) (cls : cclass) (s : string) (lo : nat)
  (hi : option nat) (pos : nat) (prev : option ascii)
  (k : nat -> option ascii -> string -> option R) (x : R) :
  rep ic cls lo hi pos prev s k = Some x ->
  exists n p pre s', s = pre ++ s' /\ k n p s' = Some x.
Proof.
  revert lo hi pos prev. induction s as [|c s IH]; intros lo hi pos prev H.
  - cbn [rep] in H. unfold halt in H. destruct (lo =? 0); [|discriminate H].
    exists pos, prev, "", "". auto.
  - cbn [rep] in H.
    assert (Hh : halt lo pos prev (String c s) k = Some x ->
                 exists n p pre s',
                   String c s = pre ++ s' /\ k n p s' = Some x).
    { unfold halt. destruct (lo =? 0); [|discriminate]. intros Hk.
      exists pos, prev, "", (String c s). auto. }
    destruct (more hi && in_class ic cls c); [|exact (Hh H)].
    destruct (rep ic cls (pred lo) (option_map pred hi) (S pos) (Some c) s k)
      as [y|] eqn:Hr; [|exact (Hh H)].
    injection H as <-.
    destruct (IH _ _ _ _ Hr) as (n & p & pre & s' & -> & Hk).
    exists n, p, (String c pre), s'. auto.
Qed.

Lemma exec_suffix {R} (ic : bool) (r : regex) :
  forall (pos : nat) (prev : option ascii) (s : string) (g : groups)
         (k : nat -> option ascii -> string -> groups -> option R) (x : R),
    exec ic r pos prev s g k = Some x ->
    exists n p pre s' g', s = pre ++ s' /\ k n p s' g' = Some x.
Proof.
  induction r as [|c|cls|r1 IH1 r2 IH2|r1 IH1 r2 IH2|cls lo hi|r1 IH1
                 |nm r1 IH1|r1 IH1| | |];
    intros pos prev s g k x H; cbn [exec] in H.
  - exists pos, prev, "", s, g. auto.
  - destruct s as [|a s]; [discriminate H|].
    destruct (lit_eq ic c a); [|discriminate H].
    exists (S pos), (Some a), (String a ""), s, g. auto.
  - destruct s as [|a s]; [discriminate H|].
    destruct (in_class ic cls a); [|discriminate H].
    exists (S pos), (Some a), (String a ""), s, g. auto.
  - apply IH1 in H. destruct H as (n & p & pre & s' & g' & -> & H).
    apply IH2 in H. destruct H as (n' & p' & pre' & s'' & g'' & -> & H).
    exists n', p', (pre ++ pre'), s'', g''.
    rewrite append_assoc. auto.
  - destruct (exec ic r1 pos prev s g k) as [y|] eqn:E.
    + injection H as <-. exact (IH1 _ _ _ _ _ _ E).
    + exact (IH2 _ _ _ _ _ _ H).
  - apply rep_suffix in H. destruct H as (n & p & pre & s' & -> & H).
    exists n, p, pre, s', g. auto.
  - destruct (exec ic r1 pos prev s g k) as [y|] eqn:E.
    + injection H as <-. exact (IH1 _ _ _ _ _ _ E).
    + exists pos, prev, "", s, g. auto.
  - apply IH1 in H. destruct H as (n & p & pre & s' & g' & -> & H). eauto 8.
  - destruct (exec ic r1 pos prev s g _) as [g'|]; [|discriminate H].
    exists pos, prev, "", s, g'. auto.
  - destruct (xorb _ _); [|discriminate H].
    exists pos, prev, "", s, g. auto.
  - destruct prev; [discriminate H|]. exists pos, None, "", s, g. auto.
  - exists pos, prev, "", s, g. split; [reflexivity|].
    destruct s as [|c [|d s]]; try discriminate H; [exact H|].
    destruct (Ascii.eqb c "010"); [exact H | discriminate H].
Qed.

Lemma lit_eq_separator (c a : ascii) :
  c = ":"%char \/ c = "-"%char -> lit_eq true c a = true -> a = c.
Proof.
  intros [-> | ->]; destruct a as [[] [] [] [] [] [] [] []]; intros H;
    try discriminate H; reflexivity.
Qed.

(** A pattern that goes on with a literal [:] or [-] matches no string
    without that character. *)
Lemma needs_separator (c : ascii) (r1 r2 : regex) (s : string) :
  c = ":"%char \/ c = "-"%char ->
  contains c s = false ->
  match_ true (Cat r1 (Cat (Lit c) r2)) s = None.
Proof.
  intros Hc Hs. unfold match_, match_at.
  destruct (exec true _ 0 None s [] _) as [m|] eqn:E; [|reflexivity].
  exfalso. cbn [exec] in E. apply exec_suffix in E.
  destruct E as (n & p & pre & s' & g' & -> & E).
  destruct s' as [|a s']; [discriminate E|].
  destruct (lit_eq true c a) eqn:Ha; [|discriminate E].
  apply (lit_eq_separator _ _ Hc) in Ha. subst a.
  rewrite contains_app in Hs. cbn [contains] in Hs.
  rewrite Ascii.eqb_refl, orb_true_r in Hs. discriminate Hs.
Qed.

Lemma contains_lstrip (c : ascii) (s : string) :
  contains c s = false -> contains c (lstrip s) = false.
Proof.
  induction s as [|a s IH]; cbn [contains lstrip]; [reflexivity|].
  intros H. destruct (isspace a); [|exact H].
  apply orb_false_elim in H. apply IH, H.
Qed.

Lemma contains_rstrip (c : ascii) (s : string) :
  contains c s = false -> contains c (rstrip s) = false.
Proof.
  induction s as [|a s IH]; [reflexivity|]. cbn [contains]. intros H.
  apply orb_false_elim in H. destruct H as [Ha Hs].
  specialize (IH Hs). rewrite rstrip_String.
  destruct (isspace a).
  - destruct (rstrip s) as [|x r]; [reflexivity|].
    cbn [contains] in IH |- *. rewrite Ha. exact IH.
  - cbn [contains]. rewrite Ha. exact IH.
Qed.

(** X19. A stamp without a colon and without a hyphen matches none of
    the five formats: its row time is [float] of the stripped stamp with
    its commas turned into dots, and NaN when that is no number. *)
Theorem plain_number_row_time (stamp : string) :
  contains ":" stamp = false -> contains "-" stamp = false ->
  first_format (strip stamp) row_fmts = None
  /\ _parse_row_time stamp = bare_number (strip stamp)
  /\ (forall x, PyFloat.parse (replace "," "." (strip stamp)) = Ok x ->
                _parse_row_time stamp = x)
  /\ (forall e, PyFloat.parse (replace "," "." (strip stamp)) = Raise e ->
                _parse_row_time stamp = PyFloat.nan).
Proof.
  intros Hc Hh.
  assert (Hc' : contains ":" (strip stamp) = false)
    by (apply contains_rstrip, contains_lstrip, Hc).
  assert (Hh' : contains "-" (strip stamp) = false)
    by (apply contains_rstrip, contains_lstrip, Hh).
  assert (Hff : first_format (strip stamp) row_fmts = None).
  { cbn [row_fmts first_format]. unfold strptime.
    change (pattern false "%Y-%m-%d %H:%M:%S.%f")
      with (Some
        (Cat (re_of "Y") (Cat (Lit "-") (Cat (re_of "m") (Cat (Lit "-")
          (Cat (re_of "d") (Cat (Repeat CSpace 1 None)
            (Cat (re_of "H") (Cat (Lit ":") (Cat (re_of "M") (Cat (Lit ":")
              (Cat (re_of "S") (Cat (Lit ".")
                 (Cat (re_of "f") Empty)))))))))))))).
    change (pattern false "%Y-%m-%d %H:%M:%S")
      with (Some
        (Cat (re_of "Y") (Cat (Lit "-") (Cat (re_of "m") (Cat (Lit "-")
          (Cat (re_of "d") (Cat (Repeat CSpace 1 None)
            (Cat (re_of "H") (Cat (Lit ":") (Cat (re_of "M") (Cat (Lit ":")
              (Cat (re_of "S") Empty)))))))))))).
    change (pattern false "%H:%M:%S.%f")
      with (Some
        (Cat (re_of "H") (Cat (Lit ":") (Cat (re_of "M") (Cat (Lit ":")
          (Cat (re_of "S") (Cat (Lit ".") (Cat (re_of "f") Empty)))))))).
    change (pattern false "%H:%M:%S")
      with (Some
        (Cat (re_of "H") (Cat (Lit ":") (Cat (re_of "M") (Cat (Lit ":")
          (Cat (re_of "S") Empty)))))).
    change (pattern false "%H-%M-%S-%f")
      with (Some
        (Cat (re_of "H") (Cat (Lit "-") (Cat (re_of "M") (Cat (Lit "-")
          (Cat (re_of "S") (Cat (Lit "-") (Cat (re_of "f") Empty)))))))).
    cbv beta iota.
    rewrite !(needs_separator "-") by (auto || exact Hh').
    rewrite !(needs_separator ":") by (auto || exact Hc').
    reflexivity. }
  split; [exact Hff|].
  assert (Hb : _parse_row_time stamp = bare_number (strip stamp)).
  { unfold _parse_row_time. rewrite Hff. reflexivity. }
  split; [exact Hb|]. split.
  - intros x Hx. rewrite Hb. unfold bare_number, to_float. rewrite Hx.
    reflexivity.
  - intros e He. rewrite Hb. unfold bare_number, to_float. rewrite He.
    reflexivity.
Qed.

Lemma plain_number_row_time_witness :
  _parse_row_time " 12,5 " = S754_finite false 7036874417766400 (-49).
Proof.
  destruct (plain_number_row_time " 12,5 " eq_refl eq_refl)
    as (_ & _ & H & _).
  apply H. vm_compute. reflexivity.
Defined.

(** ** A data section without rows *)

(** X20. [read] raises "need at least one array to stack" exactly when
    the header date was found and [timestamp()] returned for it (after
    the refinement by the file name), the data section was found, the
    wavelength line parsed, and no non-blank line follows it. *)
Theorem need_at_least_one_row
  (mktime : datetime -> Z + time_error)
  (lines : list string) (path_to_file : string)
  (name : pyval) (cls : py_class) :
  read mktime lines path_to_file name cls
  = Raise (ValueError NeedAtLeastOneArray)
  <-> exists dt dt' ts i wl wls,
        scan_header (firstn 40 lines) = Ok (Some dt)
        /\ refine (_parse_filename_time
                     (PathLib.str (PathLib.of_str path_to_file))) (Some dt)
           = Some dt'
        /\ timestamp mktime dt' = Ok ts
        /\ find_start 0 lines = Ok (Some i)
        /\ nth_error lines (S i) = Some wl
        /\ _parse_float_row wl = Ok wls
        /\ filter nonblank (skipn (i + 2) lines) = [].
Proof.
  split.
  - intros H. apply read_raise_inv in H.
    destruct H as [(d & _ & H) | [(_ & H) | (dt & dt' & Hh & Hre & H)]];
      [discriminate H | discriminate H |].
    destruct H as [(te & _ & H) | ([ts Hts] & H)];
      [destruct te; discriminate H|].
    destruct H as [(_ & H) | [(_ & H) | (i & wl & Hi & Hn & H)]];
      [discriminate H | discriminate H |].
    destruct H as [(tok & _ & H) | (wls & Hw & H)]; [discriminate H|].
    destruct H as [(tok & _ & H) | (rows & Hrows & H)]; [discriminate H|].
    exists dt, dt', ts, i, wl, wls. repeat (split; [assumption|]).
    apply for_each_length in Hrows.
    destruct rows as [|r rows].
    + destruct (filter nonblank _); [reflexivity | discriminate Hrows].
    + exfalso. cbn [map Np.stack] in H.
      destruct (forallb _ _); discriminate H.
  - intros (dt & dt' & ts & i & wl & wls & Hh & Hre & Hts & Hf & Hn & Hw
            & Hd).
    destruct (find_start_some _ _ _ Hf) as (k & nxt & -> & Hn' & Hdg).
    cbn [Nat.add] in *. rewrite Hn in Hn'. injection Hn' as <-.
    unfold read. rewrite Hh. cbn [bind].
    rewrite Hre, Hts. cbn [bind]. rewrite Hf. cbn [bind].
    replace (k + 1) with (S k) by lia.
    unfold index at 1. rewrite Hn. cbn [bind].
    rewrite parse_float_row_strip, Hw. cbn [bind].
    rewrite <- parse_float_row_strip in Hw.
    rewrite (parse_float_row_nonempty _ Hdg _ Hw), Hd. reflexivity.
Qed.

(** ** The errors of the header and of the search, exactly *)

Lemma find_start_finds (ls : list string) (i : nat) :
  Spec.has_data_section ls -> exists k, find_start i ls = Ok (Some k).
Proof.
  revert i. induction ls as [|ln rest IH]; intros i Hs.
  - destruct Hs as (j & l & nxt & Hl & _). destruct j; discriminate Hl.
  - pose proof (has_data_section_cons ln rest) as Hc. apply Hc in Hs.
    cbn [find_start].
    destruct Hs as [(Hm & nxt & Hn & Hd) | Hs].
    + rewrite Hm. destruct rest as [|x rest']; [discriminate Hn|].
      cbn in Hn. injection Hn as ->.
      cbn [index nth_error bind]. rewrite Hd. eauto.
    + destruct (IH (S i) Hs) as [k Hk].
      destruct (is_marker ln); [|eauto].
      destruct rest as [|x rest']; [discriminate Hk|].
      cbn [index nth_error bind].
      destruct (starts_with_digit x); eauto.
Qed.

Lemma find_start_index_error_iff (ls : list string) (i : nat) :
  find_start i ls = Raise IndexError
  <-> is_marker (last ls "") = true /\ ~ Spec.has_data_section ls.
Proof.
  split.
  - intros H. split.
    + destruct (is_marker (last ls "")) eqn:Hl; [reflexivity|].
      destruct (find_start_spec ls i Hl) as [[Hf _] | (k & Hf & _)];
        congruence.
    + intros Hs. destruct (find_start_finds ls i Hs) as [k Hk]. congruence.
  - intros [Hl Hn]. exact (find_start_index_error _ _ Hl Hn).
Qed.

(** X21. [read] raises [IndexError] exactly when the header date was
    found and parsed, [timestamp()] returned for it (after the refinement
    by the file name), the last line of the file has the marker, and no
    marker line is followed by a line starting with a digit: the search
    then reads [lines[i + 1]] past the end of the file. *)
Theorem index_error_iff_marker_on_last_line
  (mktime : datetime -> Z + time_error)
  (lines : list string) (path_to_file : string)
  (name : pyval) (cls : py_class) :
  read mktime lines path_to_file name cls = Raise IndexError
  <-> (exists dt dt' ts,
         scan_header (firstn 40 lines) = Ok (Some dt)
         /\ refine (_parse_filename_time
                      (PathLib.str (PathLib.of_str path_to_file))) (Some dt)
            = Some dt'
         /\ timestamp mktime dt' = Ok ts)
      /\ is_marker (last lines "") = true
      /\ ~ Spec.has_data_section lines.
Proof.
  split.
  - intros H. apply read_raise_inv in H.
    destruct H as [(d & _ & H) | [(_ & H) | (dt & dt' & Hh & Hre & H)]];
      [discriminate H | discriminate H |].
    destruct H as [(te & _ & H) | ([ts Hts] & H)];
      [destruct te; discriminate H|].
    split; [eauto 6|].
    destruct H as [(H & _) | [(_ & H) | (i & wl & Hi & Hn & H)]];
      [exact (proj1 (find_start_index_error_iff lines 0) H)
      | discriminate H |].
    exfalso.
    destruct H as [(tok & _ & H) | (wls & Hw & H)]; [discriminate H|].
    destruct H as [(tok & _ & H) | (rows & Hrows & H)]; [discriminate H|].
    unfold Np.stack in H. destruct (map snd rows) as [|r rs];
      [discriminate H|].
    destruct (forallb _ rs); discriminate H.
  - intros ((dt & dt' & ts & Hh & Hre & Hts) & Hlast & Hno).
    unfold read. rewrite Hh. cbn [bind]. rewrite Hre, Hts. cbn [bind].
    rewrite (find_start_index_error _ 0 Hlast Hno). reflexivity.
Qed.

Lemma scan_header_none (ls : list string) :
  scan_header ls = Ok None ->
  forall ln, List.In ln ls -> startswith (lower ln) "date:" = false.
Proof.
  induction ls as [|l ls IH]; cbn [scan_header]; intros H ln Hin.
  - destruct Hin.
  - destruct (startswith (lower l) "date:") eqn:Hp.
    + bind_inv H as d Hd. bind_inv H as dt Hdt. discriminate H.
    + destruct Hin as [<- | Hin]; [exact Hp | exact (IH H ln Hin)].
Qed.

(** X22. An [AttributeError] of [read] is the one of
    [None.timestamp()], and it is raised only if none of the first 40
    lines starts, in any letter case, with [date:]. *)
Theorem attribute_error_only_without_date_line
  (mktime : datetime -> Z + time_error)
  (lines : list string) (path_to_file : string)
  (name : pyval) (cls : py_class) (obj attr : string) :
  read mktime lines path_to_file name cls = Raise (AttributeError obj attr) ->
  obj = "NoneType" /\ attr = "timestamp"
  /\ forall ln, List.In ln (firstn 40 lines) ->
                startswith (lower ln) "date:" = false.
Proof.
  intros H. apply read_raise_inv in H.
  destruct H as [(d & _ & H) | [(Hs & H) | (dt & dt' & _ & _ & H)]].
  - discriminate H.
  - injection H as -> ->. repeat split. exact (scan_header_none _ Hs).
  - exfalso.
    destruct H as [(te & _ & H) | (_ & H)]; [destruct te; discriminate H|].
    destruct H as [(_ & H) | [(_ & H) | (i & wl & _ & _ & H)]];
      [discriminate H | discriminate H |].
    destruct H as [(tok & _ & H) | (wls & _ & H)]; [discriminate H|].
    destruct H as [(tok & _ & H) | (rows & _ & H)]; [discriminate H|].
    unfold Np.stack in H. destruct (map snd rows) as [|r rs];
      [discriminate H|].
    destruct (forallb _ rs); discriminate H.
Qed.

Lemma attribute_error_only_without_date_line_witness :
  "NoneType" = "NoneType" /\ "timestamp" = "timestamp"
  /\ forall ln, List.In ln (firstn 40 Sample.lines_without_date) ->
                startswith (lower ln) "date:" = false.
Proof.
  apply (attribute_error_only_without_date_line utc_mktime
           Sample.lines_without_date Sample.path PyNone
           OpticalSpectrumSeries).
  vm_compute. reflexivity.
Defined.

(** ** Header dates as the instrument writes them *)

(** *** The three substitutions *)

Lemma sub_go_keep (ic : bool) (r : regex) (repl : string)
  (prev : option ascii) (c : ascii) (s : string) :
  match_at ic r prev (String c s) = None ->
  sub_go ic r repl prev (String c s) 0
  = String c (sub_go ic r repl (Some c) s 0).
Proof. intros H. cbn [sub_go]. rewrite H. reflexivity. Qed.

Lemma sub_go_end (ic : bool) (r : regex) (prev : option ascii) :
  sub_go ic r "" prev "" 0 = "".
Proof.
  cbn [sub_go]. destruct (option_map span _) as [[|n]|]; reflexivity.
Qed.

(** [\s+] replaced by one space. *)
Lemma spaces_pass (s : string) (prev : option ascii) :
  single_spaced s = true ->
  sub_go false re_spaces " " prev s 0 = s.
Proof.
  revert prev. induction s as [|c s IH]; intros prev H.
  - reflexivity.
  - cbn [single_spaced] in H. apply andb_prop in H. destruct H as [Hc Hs].
    destruct (isspace c) eqn:Ec.
    + apply andb_prop in Hc. destruct Hc as [Hsp Hd].
      apply Ascii.eqb_eq in Hsp. subst c.
      destruct s as [|d s]; [discriminate Hd|].
      apply negb_true_iff in Hd.
      assert (Hm : option_map span
                     (match_at false re_spaces prev (String " " (String d s)))
                   = Some 1).
      { unfold match_at, re_spaces. cbn [exec rep more andb option_map pred].
        change (in_class false CSpace " ") with true. cbn iota.
        change (in_class false CSpace d) with (isspace d). rewrite Hd.
        reflexivity. }
      cbn [sub_go]. rewrite Hm. cbn [append]. f_equal.
      exact (IH _ Hs).
    + rewrite sub_go_keep.
      * f_equal. exact (IH _ Hs).
      * unfold match_at, re_spaces. cbn [exec rep more andb].
        change (in_class false CSpace c) with (isspace c). rewrite Ec.
        reflexivity.
Qed.

(** [\bGMT...] needs a [G]. *)
Lemma gmt_pass (s : string) (prev : option ascii) :
  contains "G" s = false ->
  sub_go false re_gmt_offset "" prev s 0 = s.
Proof.
  revert prev. induction s as [|c s IH]; intros prev H.
  - apply sub_go_end.
  - cbn [contains] in H. apply orb_false_elim in H. destruct H as [Hc Hs].
    rewrite sub_go_keep.
    + f_equal. exact (IH _ Hs).
    + unfold match_at, re_gmt_offset. cbn [cat lit exec].
      destruct (xorb _ _); [|reflexivity].
      unfold lit_eq. rewrite Ascii.eqb_sym, Hc. reflexivity.
Qed.

(** [\b[A-Z]{2,5}\b...] needs two capitals in a row. *)
Lemma tz_no_match (prev : option ascii) (c : ascii) (s : string) :
  isupper c && match s with String d _ => isupper d | "" => false end = false ->
  match_at false re_tz_abbrev prev (String c s) = None.
Proof.
  intros H. unfold match_at, re_tz_abbrev. cbn [cat exec].
  destruct (xorb _ _); [|reflexivity].
  cbn [rep more andb option_map pred].
  change (in_class false (CRange "A" "Z") c) with (isupper c).
  destruct (isupper c); [|reflexivity].
  destruct s as [|d s]; [reflexivity|].
  cbn [rep more andb option_map pred].
  change (in_class false (CRange "A" "Z") d) with (isupper d).
  cbn [andb] in H. rewrite H. reflexivity.
Qed.

Lemma tz_pass_none (s : string) (prev : option ascii) :
  no_capital_pair s = true ->
  sub_go false re_tz_abbrev "" prev s 0 = s.
Proof.
  revert prev. induction s as [|c s IH]; intros prev H.
  - apply sub_go_end.
  - cbn [no_capital_pair] in H. apply andb_prop in H. destruct H as [Hc Hs].
    apply negb_true_iff in Hc.
    rewrite sub_go_keep by exact (tz_no_match _ _ _ Hc).
    f_equal. exact (IH _ Hs).
Qed.

(** Up to a space, a text without two capitals in a row is kept. *)
Lemma tz_pass_upto_space (p rest : string) (prev : option ascii) :
  no_capital_pair p = true ->
  sub_go false re_tz_abbrev "" prev (p ++ String " " rest) 0
  = p ++ String " " (sub_go false re_tz_abbrev "" (Some " "%char) rest 0).
Proof.
  revert prev. induction p as [|c p IH]; intros prev H.
  - cbn [append]. rewrite sub_go_keep; [reflexivity|].
    apply tz_no_match. reflexivity.
  - cbn [no_capital_pair] in H. apply andb_prop in H. destruct H as [Hc Hs].
    apply negb_true_iff in Hc.
    cbn [append]. rewrite sub_go_keep.
    + f_equal. exact (IH _ Hs).
    + apply tz_no_match. destruct p as [|d p]; cbn [append].
      * apply andb_false_r.
      * exact Hc.
Qed.

Lemma upper_is_word (c : ascii) : isupper c = true -> isword c = true.
Proof. intros H. unfold isword. rewrite H, orb_true_r. reflexivity. Qed.

(** A run of capitals is taken whole when the continuation accepts it. *)
Lemma rep_capitals {R} (f : string) (c : ascii) (rest : string)
  (lo hi pos : nat) (prev : option ascii)
  (k : nat -> option ascii -> string -> option R) (x : R) :
  any (fun a => negb (isupper a)) f = false -> f <> "" ->
  lo <= String.length f <= hi -> isupper c = false ->
  (forall a, isupper a = true ->
             k (pos + String.length f) (Some a) (String c rest) = Some x) ->
  rep false (CRange "A" "Z") lo (Some hi) pos prev (f ++ String c rest) k
  = Some x.
Proof.
  revert lo hi pos prev.
  induction f as [|a f IH]; intros lo hi pos prev Hf Hne Hl Hc Hk;
    [congruence|].
  cbn [any] in Hf. apply orb_false_elim in Hf. destruct Hf as [Ha Hf].
  apply negb_false_iff in Ha. cbn [String.length] in Hl, Hk.
  destruct hi as [|hi]; [lia|].
  cbn [append rep more andb option_map pred].
  change (in_class false (CRange "A" "Z") a) with (isupper a). rewrite Ha.
  assert (Hrec : rep false (CRange "A" "Z") (pred lo) (Some hi) (S pos)
                   (Some a) (f ++ String c rest) k = Some x).
  { destruct f as [|b f].
    - cbn [append rep].
      change (in_class false (CRange "A" "Z") c) with (isupper c).
      rewrite Hc, andb_false_r. unfold halt.
      cbn [String.length] in Hl. replace (pred lo) with 0 by lia.
      cbn [Nat.eqb]. specialize (Hk a Ha). cbn [String.length] in Hk.
      replace (pos + 1) with (S pos) in Hk by lia. exact Hk.
    - apply IH; [exact Hf | discriminate | lia | exact Hc|].
      intros a' Ha'. specialize (Hk a' Ha').
      replace (S pos + String.length (String b f))
        with (pos + S (String.length (String b f))) by lia.
      exact Hk. }
  rewrite Hrec. reflexivity.
Qed.

(** An abbreviation of two to five capitals before the year is the match
    of the pattern. *)
Lemma tz_match_at (tz : string) (y3 y2 y1 y0 : nat) :
  2 <= String.length tz <= 5 ->
  any (fun c => negb (isupper c)) tz = false ->
  y3 < 10 -> y2 < 10 -> y1 < 10 -> y0 < 10 ->
  match_at false re_tz_abbrev (Some " "%char)
    (tz ++ String " "
       (String (digit_char y3) (String (digit_char y2)
          (String (digit_char y1) (String (digit_char y0) "")))))
  = Some {| span := String.length tz; captured := [] |}.
Proof.
  intros Hl Hu H3 H2 H1 H0.
  unfold match_at, re_tz_abbrev. cbn [cat exec].
  destruct tz as [|c1 tz]; [cbn in Hl; lia|].
  assert (Hc1 : isupper c1 = true).
  { cbn [any] in Hu. apply orb_false_elim in Hu. destruct Hu as [Hc _].
    apply negb_false_iff in Hc. exact Hc. }
  cbn [append peek is_word]. rewrite (upper_is_word _ Hc1).
  change (isword " ") with false. cbn [xorb].
  change (String c1 (tz ++ String " " ?r))
    with ((String c1 tz) ++ String " " r).
  apply rep_capitals; [exact Hu | discriminate | exact Hl | reflexivity|].
  intros a Ha. cbn [exec peek is_word]. rewrite (upper_is_word _ Ha).
  change (isword " ") with false. cbn [xorb rep more andb option_map pred].
  change (in_class false CSpace " ") with true. cbn iota.
  change (in_class false CSpace (digit_char y3)) with (isspace (digit_char y3)).
  rewrite isspace_digit_char by assumption. unfold halt at 1. cbn [Nat.eqb].
  cbn [exec rep more andb option_map pred].
  repeat match goal with
         | |- context [in_class false CDigit (digit_char ?y)] =>
             change (in_class false CDigit (digit_char y))
               with (isdigit (digit_char y))
         end.
  rewrite !isdigit_digit_char by assumption. cbn iota.
  unfold halt. cbn [Nat.eqb exec]. reflexivity.
Qed.

Lemma digit_char_not_upper (a : nat) :
  a < 10 -> isupper (digit_char a) = false.
Proof. intros H. split_digit a; reflexivity. Qed.

Lemma sub_go_skip (ic : bool) (r : regex) (repl f rest : string)
  (prev : option ascii) :
  exists p,
    sub_go ic r repl prev (f ++ rest) (String.length f)
    = sub_go ic r repl p rest 0.
Proof.
  revert prev. induction f as [|c f IH]; intros prev.
  - exists prev. reflexivity.
  - cbn [append String.length sub_go]. apply IH.
Qed.

(** The abbreviation is removed, the spaces around it stay. *)
Lemma tz_pass_zone (tz : string) (y3 y2 y1 y0 : nat) :
  2 <= String.length tz <= 5 ->
  any (fun c => negb (isupper c)) tz = false ->
  y3 < 10 -> y2 < 10 -> y1 < 10 -> y0 < 10 ->
  sub_go false re_tz_abbrev "" (Some " "%char)
    (tz ++ String " "
       (String (digit_char y3) (String (digit_char y2)
          (String (digit_char y1) (String (digit_char y0) ""))))) 0
  = String " "
      (String (digit_char y3) (String (digit_char y2)
         (String (digit_char y1) (String (digit_char y0) "")))).
Proof.
  intros Hl Hu H3 H2 H1 H0.
  pose proof (tz_match_at tz y3 y2 y1 y0 Hl Hu H3 H2 H1 H0) as Hm.
  destruct tz as [|c tz]; [cbn in Hl; lia|].
  cbn [append] in Hm |- *. cbn [sub_go]. rewrite Hm.
  cbn [option_map span String.length append].
  destruct (sub_go_skip false re_tz_abbrev "" tz
              (String " "
                 (String (digit_char y3) (String (digit_char y2)
                    (String (digit_char y1) (String (digit_char y0) "")))))
              (Some c)) as [p ->].
  apply tz_pass_none. cbn [no_capital_pair].
  rewrite !digit_char_not_upper by assumption. reflexivity.
Qed.

(** *** The names of the day and of the month *)

Lemma sub_three (n : nat) : S (S (S n)) - n = 3.
Proof. lia. Qed.

Lemma field_a_found {R} (wd rest : string) (pos : nat) (prev : option ascii)
  (g : groups) (K : nat -> option ascii -> string -> groups -> option R)
  (x : R) :
  List.In wd weekday_names ->
  (forall p, K (S (S (S pos))) p rest (("a", wd) :: g) = Some x) ->
  exec true (re_of "a") pos prev (wd ++ rest) g K = Some x.
Proof.
  intros Hin HK. cbv [weekday_names List.In] in Hin.
  repeat (destruct Hin as [<- | Hin];
          [unfold re_of; cbn; rewrite ?sub_three; cbn [take];
           rewrite ?HK; reflexivity|]).
  destruct Hin.
Qed.

Lemma field_b_found {R} (mo rest : string) (pos : nat) (prev : option ascii)
  (g : groups) (K : nat -> option ascii -> string -> groups -> option R)
  (x : R) :
  List.In mo month_names ->
  (forall p, K (S (S (S pos))) p rest (("b", mo) :: g) = Some x) ->
  exec true (re_of "b") pos prev (mo ++ rest) g K = Some x.
Proof.
  intros Hin HK. cbv [month_names List.In] in Hin.
  repeat (destruct Hin as [<- | Hin];
          [unfold re_of; cbn; rewrite ?sub_three; cbn [take];
           rewrite ?HK; reflexivity|]).
  destruct Hin.
Qed.

Lemma month_first_letter (mo rest : string) :
  List.In mo month_names ->
  exists c t, mo ++ rest = String c t /\ in_class true CSpace c = false.
Proof.
  intros Hin. cbv [month_names List.In] in Hin.
  repeat (destruct Hin as [<- | Hin]; [cbn [append]; eauto|]).
  destruct Hin.
Qed.

(** One space before a character that is no whitespace. *)
Lemma one_space_before {R} (c : ascii) (rest : string) (pos : nat)
  (prev : option ascii) (k : nat -> option ascii -> string -> option R) :
  in_class true CSpace c = false ->
  rep true CSpace 1 None pos prev (String " " (String c rest)) k
  = k (S pos) (Some " "%char) (String c rest).
Proof.
  intros Hc. cbn [rep more andb pred option_map]. rewrite Hc.
  change (in_class true CSpace " ") with true. cbn iota.
  unfold halt. cbn [Nat.eqb]. destruct (k _ _ _); reflexivity.
Qed.

(** Two spaces before a digit, when the pattern goes on with a digit. *)
Lemma two_spaces_before {R} (a : nat) (rest : string) (pos : nat)
  (prev : option ascii) (k : nat -> option ascii -> string -> option R)
  (x : R) :
  a < 10 ->
  k (S (S pos)) (Some " "%char) (String (digit_char a) rest) = Some x ->
  rep true CSpace 1 None pos prev
    (String " " (String " " (String (digit_char a) rest))) k
  = Some x.
Proof.
  intros Ha Hk. cbn [rep more andb pred option_map].
  rewrite (digit_not_space_class _ (isdigit_digit_char a Ha)).
  change (in_class true CSpace " ") with true. cbn iota.
  unfold halt at 1. cbn [Nat.eqb]. rewrite Hk. reflexivity.
Qed.

(** *** The characters of a written date *)

Lemma name_chars (nm : string) :
  List.In nm weekday_names \/ List.In nm month_names ->
  exists a b c,
    nm = String a (String b (String c ""))
    /\ plain_char a true /\ plain_char b false /\ plain_char c false.
Proof.
  intros [Hin | Hin]; cbv [weekday_names month_names List.In] in Hin;
    repeat (destruct Hin as [<- | Hin];
            [do 3 eexists; split; [reflexivity|];
             repeat split; reflexivity|]);
    destruct Hin.
Qed.

Lemma digit_chars (a : nat) : a < 10 -> plain_char (digit_char a) false.
Proof. intros H. split_digit a; split; reflexivity. Qed.

Lemma weekday_no_date_prefix (wd rest : string) :
  List.In wd weekday_names ->
  startswith (lower (wd ++ rest)) "date:" = false.
Proof.
  intros Hin. cbv [weekday_names List.In] in Hin.
  repeat (destruct Hin as [<- | Hin]; [reflexivity|]).
  destruct Hin.
Qed.

Lemma capital_chars (c : ascii) :
  isupper c = true -> isspace c = false.
Proof.
  destruct c as [[] [] [] [] [] [] [] []]; intros H; try discriminate H;
    reflexivity.
Qed.

Lemma single_spaced_app (f rest : string) :
  any isspace f = false ->
  single_spaced (f ++ rest) = single_spaced rest.
Proof.
  induction f as [|c f IH]; cbn [any append single_spaced]; [reflexivity|].
  intros H. apply orb_false_elim in H. destruct H as [-> Hf].
  exact (IH Hf).
Qed.

Lemma capitals_no_space (f : string) :
  any (fun c => negb (isupper c)) f = false -> any isspace f = false.
Proof.
  induction f as [|c f IH]; cbn [any]; [reflexivity|]. intros H.
  apply orb_false_elim in H. destruct H as [Hc Hf].
  apply negb_false_iff in Hc.
  rewrite (capital_chars _ Hc), (IH Hf). reflexivity.
Qed.

Lemma rstrip_newline (s : string) : rstrip (s ++ Sample.NL) = rstrip s.
Proof.
  induction s as [|c s IH]; [reflexivity|].
  cbn [append rstrip]. rewrite IH. reflexivity.
Qed.

Lemma rstrip_app_keeps (f t : string) :
  rstrip t = t -> t <> "" -> rstrip (f ++ t) = f ++ t /\ f ++ t <> "".
Proof.
  intros Ht Hne. induction f as [|c f [IH IHne]]; [auto|].
  cbn [append]. split; [|discriminate].
  apply rstrip_keeps; assumption.
Qed.

Ltac char_facts :=
  repeat match goal with
         | F : plain_char ?c _ |- _ =>
             rewrite ?(pc_space _ _ F), ?(pc_upper _ _ F), ?(pc_G _ _ F);
             revert F
         end;
  intros.

Section Written.

Variables wd mo : string.
Variables d1 d0 h1 h0 n1 n0 s1 s0 y3 y2 y1 y0 : nat.
Hypotheses (Hwd : List.In wd weekday_names) (Hmo : List.In mo month_names).
Hypotheses (Hd1 : d1 < 10) (Hd0 : d0 < 10) (Hd : 1 <= 10 * d1 + d0 <= 31).
Hypotheses (Hh1 : h1 < 10) (Hh0 : h0 < 10) (Hh : 10 * h1 + h0 < 24).
Hypotheses (Hn1 : n1 < 10) (Hn0 : n0 < 10) (Hn : 10 * n1 + n0 < 60).
Hypotheses (Hs1 : s1 < 10) (Hs0 : s0 < 10) (Hs : 10 * s1 + s0 < 60).
Hypotheses (Hy3 : y3 < 10) (Hy2 : y2 < 10) (Hy1 : y1 < 10) (Hy0 : y0 < 10).

Let year_digits : string :=
  String (digit_char y3) (String (digit_char y2)
    (String (digit_char y1) (String (digit_char y0) ""))).

(** [Www Mmm DD HH:MM:SS] and what follows. *)
Let body (tail : string) : string :=
  wd ++ String " " (mo ++ String " "
    (String (digit_char d1) (String (digit_char d0) (String " "
    (String (digit_char h1) (String (digit_char h0) (String ":"
    (String (digit_char n1) (String (digit_char n0) (String ":"
    (String (digit_char s1) (String (digit_char s0) tail)))))))))))).

Ltac written :=
  destruct (name_chars wd (or_introl Hwd))
    as (w1 & w2 & w3 & Ewd & Fw1 & Fw2 & Fw3);
  destruct (name_chars mo (or_intror Hmo))
    as (b1 & b2 & b3 & Emo & Fb1 & Fb2 & Fb3);
  pose proof (digit_chars d1 Hd1); pose proof (digit_chars d0 Hd0);
  pose proof (digit_chars h1 Hh1); pose proof (digit_chars h0 Hh0);
  pose proof (digit_chars n1 Hn1); pose proof (digit_chars n0 Hn0);
  pose proof (digit_chars s1 Hs1); pose proof (digit_chars s0 Hs0);
  pose proof (digit_chars y3 Hy3); pose proof (digit_chars y2 Hy2);
  pose proof (digit_chars y1 Hy1); pose proof (digit_chars y0 Hy0);
  unfold body, year_digits; rewrite Ewd, Emo; cbn [append].

Lemma body_app (tail : string) : body tail = body "" ++ tail.
Proof.
  unfold body. rewrite !append_assoc. cbn [append].
  rewrite !append_assoc. reflexivity.
Qed.

Lemma body_single_spaced (tail : string) :
  single_spaced (body tail) = single_spaced tail.
Proof. written. cbn [single_spaced]. char_facts. reflexivity. Qed.

Lemma body_no_capital_pair (tail : string) :
  no_capital_pair (body tail) = no_capital_pair tail.
Proof. written. cbn [no_capital_pair]. char_facts. reflexivity. Qed.

Lemma body_no_G (tail : string) :
  contains "G" (body tail) = contains "G" tail.
Proof. written. cbn [contains]. char_facts. reflexivity. Qed.

Lemma body_lstrip (tail : string) : lstrip (body tail) = body tail.
Proof. written. cbn [lstrip]. char_facts. reflexivity. Qed.

Lemma body_rstrip (tail : string) :
  rstrip tail = tail -> tail <> "" -> rstrip (body tail) = body tail.
Proof.
  intros Ht Hne. written.
  repeat (apply rstrip_keeps; [|discriminate]).
  apply rstrip_keeps; assumption.
Qed.

Lemma year_rstrip (pre : string) :
  any isspace pre = false \/ pre = " " \/ pre = "  " ->
  rstrip (pre ++ year_digits) = pre ++ year_digits
  /\ pre ++ year_digits <> "".
Proof.
  assert (Hy : rstrip year_digits = year_digits).
  { apply rstrip_no_space. unfold year_digits. cbn [any].
    rewrite !isspace_digit_char by assumption. reflexivity. }
  intros [Hp | [-> | ->]].
  - split.
    + apply rstrip_no_space. rewrite any_app, Hp.
      unfold year_digits. cbn [any].
      rewrite !isspace_digit_char by assumption. reflexivity.
    + unfold year_digits. destruct pre; discriminate.
  - cbn [append]. split; [|discriminate].
    apply rstrip_keeps; [exact Hy | discriminate].
  - cbn [append]. split; [|discriminate].
    do 2 (apply rstrip_keeps; [|discriminate]). exact Hy.
Qed.

(** *** The first header format *)

Lemma written_matches (sp : string) :
  sp = " " \/ sp = "  " ->
  match_ true
    (Cat (re_of "a") (Cat (Repeat CSpace 1 None)
      (Cat (re_of "b") (Cat (Repeat CSpace 1 None)
        (Cat (re_of "d") (Cat (Repeat CSpace 1 None)
          (Cat (re_of "H") (Cat (Lit ":") (Cat (re_of "M") (Cat (Lit ":")
            (Cat (re_of "S") (Cat (Repeat CSpace 1 None)
              (Cat (re_of "Y") Empty)))))))))))))
    (body (sp ++ year_digits))
  = Some {| span := String.length (body (sp ++ year_digits));
            captured :=
              [("Y", year_digits);
               ("S", String (digit_char s1) (String (digit_char s0) ""));
               ("M", String (digit_char n1) (String (digit_char n0) ""));
               ("H", String (digit_char h1) (String (digit_char h0) ""));
               ("d", String (digit_char d1) (String (digit_char d0) ""));
               ("b", mo); ("a", wd)] |}.
Proof.
  intros Hsp.
  assert (Hlen : String.length (body (sp ++ year_digits))
                 = 19 + String.length sp + 4).
  { destruct (name_chars wd (or_introl Hwd)) as (w1 & w2 & w3 & -> & _).
    destruct (name_chars mo (or_intror Hmo)) as (b1 & b2 & b3 & -> & _).
    destruct Hsp as [-> | ->]; reflexivity. }
  rewrite Hlen. clear Hlen.
  unfold match_, match_at, body, year_digits.
  cbn [exec].
  apply field_a_found; [exact Hwd|]. intros p.
  match goal with |- context [mo ++ ?r] =>
    destruct (month_first_letter mo r Hmo) as (c & t & E & Hc)
  end.
  rewrite E, one_space_before by exact Hc. rewrite <- E.
  apply field_b_found; [exact Hmo|]. intros p'.
  rewrite one_space by assumption.
  rewrite field_d by (assumption || apply spaces_want_separator).
  cbn beta. rewrite one_space by assumption.
  rewrite field_H
    by (assumption || (apply literal_wants_separator; reflexivity)).
  cbn [exec]. change (lit_eq true ":" ":") with true. cbn iota.
  rewrite field_M
    by (assumption || (apply literal_wants_separator; reflexivity)).
  cbn [exec]. change (lit_eq true ":" ":") with true. cbn iota.
  rewrite field_S by (assumption || apply spaces_want_separator).
  cbn beta.
  destruct Hsp as [-> | ->]; cbn [append String.length Nat.add].
  - rewrite one_space by assumption.
    rewrite field_Y by assumption. reflexivity.
  - apply two_spaces_before; [assumption|].
    rewrite field_Y by assumption. reflexivity.
Qed.

(** The date-time of the fields. *)
Let written_dt : datetime :=
  {| year := Z.of_nat (1000 * y3 + 100 * y2 + 10 * y1 + y0);
     month := position (lower mo) a_month;
     day := Z.of_nat (10 * d1 + d0);
     hour := Z.of_nat (10 * h1 + h0);
     minute := Z.of_nat (10 * n1 + n0);
     second := Z.of_nat (10 * s1 + s0);
     microsecond := 0 |}.

Hypothesis Hvalid : valid written_dt = true.

Lemma written_strptime (sp : string) :
  sp = " " \/ sp = "  " ->
  strptime (body (sp ++ year_digits)) "%a %b %d %H:%M:%S %Y"
  = inl written_dt.
Proof.
  intros Hsp. unfold strptime.
  change (pattern false "%a %b %d %H:%M:%S %Y")
    with (Some
      (Cat (re_of "a") (Cat (Repeat CSpace 1 None)
        (Cat (re_of "b") (Cat (Repeat CSpace 1 None)
          (Cat (re_of "d") (Cat (Repeat CSpace 1 None)
            (Cat (re_of "H") (Cat (Lit ":") (Cat (re_of "M") (Cat (Lit ":")
              (Cat (re_of "S") (Cat (Repeat CSpace 1 None)
                (Cat (re_of "Y") Empty)))))))))))))).
  cbv beta iota. rewrite (written_matches sp Hsp).
  cbn [span captured]. rewrite Nat.eqb_refl. cbn [negb].
  assert (E : forall sY sS sM sH sd sb sa,
             fields [("Y", sY); ("S", sS); ("M", sM); ("H", sH); ("d", sd);
                     ("b", sb); ("a", sa)]
             = {| year := int sY; month := position (lower sb) a_month;
                  day := int (strip sd); hour := int (strip sH);
                  minute := int (strip sM); second := int (strip sS);
                  microsecond := 0 |}) by reflexivity.
  rewrite E. unfold year_digits.
  rewrite !int_two_digits, int_four_digits by assumption.
  fold written_dt. rewrite Hvalid. reflexivity.
Qed.

Lemma body_strip (pre : string) :
  any isspace pre = false \/ pre = " " \/ pre = "  " ->
  strip (body (pre ++ year_digits)) = body (pre ++ year_digits).
Proof.
  intros Hp. destruct (year_rstrip pre Hp) as [Hr Hne].
  unfold strip. rewrite body_lstrip. apply body_rstrip; assumption.
Qed.

Lemma year_shape :
  single_spaced (String " " year_digits) = true
  /\ no_capital_pair year_digits = true
  /\ contains "G" year_digits = false.
Proof.
  pose proof (digit_chars y3 Hy3). pose proof (digit_chars y2 Hy2).
  pose proof (digit_chars y1 Hy1). pose proof (digit_chars y0 Hy0).
  unfold year_digits.
  cbn [single_spaced no_capital_pair contains]. char_facts. auto.
Qed.

(** [Www Mmm DD HH:MM:SS YYYY] *)
Lemma written_plain :
  _parse_header_date (body (" " ++ year_digits)) = Ok written_dt.
Proof.
  destruct year_shape as (Hy1' & Hy2' & Hy3').
  unfold _parse_header_date.
  rewrite body_strip by auto.
  unfold body at 1. rewrite weekday_no_date_prefix by exact Hwd.
  cbn [bind]. unfold Re.sub.
  rewrite spaces_pass by (rewrite body_single_spaced; exact Hy1').
  rewrite tz_pass_none
    by (rewrite body_no_capital_pair; cbn [append no_capital_pair];
        exact Hy2').
  rewrite gmt_pass
    by (rewrite body_no_G; cbn [append contains]; exact Hy3').
  rewrite body_strip by auto.
  cbn [header_fmts first_format].
  rewrite written_strptime by auto. reflexivity.
Qed.

Lemma body_strip_zone (tz : string) :
  strip (body (" " ++ tz ++ " " ++ year_digits))
  = body (" " ++ tz ++ " " ++ year_digits).
Proof.
  unfold strip. rewrite body_lstrip. apply body_rstrip; [|discriminate].
  destruct (year_rstrip " ") as [Hr Hne]; [auto|].
  cbn [append] in Hr, Hne |- *.
  destruct (rstrip_app_keeps tz _ Hr Hne) as [Hr' Hne'].
  apply rstrip_keeps; assumption.
Qed.

(** [Www Mmm DD HH:MM:SS ZONE YYYY] *)
Lemma written_zone (tz : string) :
  2 <= String.length tz <= 5 ->
  any (fun c => negb (isupper c)) tz = false ->
  _parse_header_date (body (" " ++ tz ++ " " ++ year_digits))
  = Ok written_dt.
Proof.
  intros Hl Hu.
  destruct year_shape as (Hy1' & Hy2' & Hy3').
  pose proof (capitals_no_space _ Hu) as Hns.
  unfold _parse_header_date. rewrite body_strip_zone.
  unfold body at 1. rewrite weekday_no_date_prefix by exact Hwd.
  cbn [bind]. unfold Re.sub.
  rewrite spaces_pass; cycle 1.
  { rewrite body_single_spaced. cbn [append single_spaced].
    destruct tz as [|c tz]; [cbn in Hl; lia|].
    cbn [any] in Hns. apply orb_false_elim in Hns. destruct Hns as [Hc Hns].
    cbn [append]. rewrite Hc. cbn [single_spaced]. rewrite Hc.
    rewrite (single_spaced_app _ _ Hns). exact Hy1'. }
  rewrite body_app. cbn [append].
  rewrite tz_pass_upto_space by (rewrite body_no_capital_pair; reflexivity).
  unfold year_digits.
  rewrite tz_pass_zone by assumption.
  fold year_digits.
  change (body "" ++ String " " (String " " year_digits))
    with (body "" ++ ("  " ++ year_digits)).
  rewrite <- body_app.
  rewrite gmt_pass
    by (rewrite body_no_G; cbn [append contains]; exact Hy3').
  rewrite body_strip by auto.
  cbn [header_fmts first_format].
  rewrite written_strptime by auto. reflexivity.
Qed.

(** The line of the header: the date is what stands between the first
    colon and the end of the line. *)
Lemma written_after_colon (tail : string) :
  strip (body tail) = body tail ->
  after_colon ("Date: " ++ body tail ++ Sample.NL) = Ok (body tail).
Proof.
  intros Hst. unfold after_colon. cbn [append split1 Ascii.eqb Bool.eqb].
  cbn [index nth_error bind]. f_equal.
  unfold strip in Hst |- *. cbn [lstrip].
  change (isspace " ") with true. cbn iota.
  assert (E : body tail ++ Sample.NL = body (tail ++ Sample.NL)).
  { rewrite (body_app tail), (body_app (tail ++ Sample.NL)).
    apply append_assoc. }
  rewrite E, body_lstrip, <- E, rstrip_newline.
  rewrite body_lstrip in Hst. exact Hst.
Qed.

Lemma written_line (tail : string) (rest : list string) :
  strip (body tail) = body tail ->
  _parse_header_date (body tail) = Ok written_dt ->
  scan_header (("Date: " ++ body tail ++ Sample.NL) :: rest)
  = Ok (Some written_dt).
Proof.
  intros Hst Hp. cbn [scan_header].
  assert (E : startswith (lower ("Date: " ++ body tail ++ Sample.NL)) "date:"
              = true) by reflexivity.
  rewrite E, (written_after_colon tail Hst). cbn [bind].
  rewrite Hp. reflexivity.
Qed.

End Written.

Lemma month_number (M : nat) (mo : string) :
  1 <= M -> nth_error month_names (M - 1) = Some mo ->
  List.In mo month_names /\ position (lower mo) a_month = Z.of_nat M.
Proof.
  intros HM H. split; [exact (nth_error_In _ _ H)|].
  do 13 (destruct M as [|M]; [try lia; cbn in H; injection H as <-;
                              reflexivity|]).
  cbn in H. destruct M; discriminate H.
Qed.

(** X23. A header date as the instrument writes it,
    [Www Mmm DD HH:MM:SS YYYY] with the day and month names of the C
    locale, parses to that date and time for every date of the calendar;
    with a time-zone abbreviation of two to five capitals before the year
    it parses to the same date-time, the abbreviation being removed. The
    [Date:] line of such a date gives that header date. *)
Theorem header_date_as_written (wd mo zone : string) (M D h m s Y : nat) :
  List.In wd weekday_names ->
  1 <= M -> nth_error month_names (M - 1) = Some mo ->
  1 <= Y < 100 * 100 -> 1 <= D ->
  (Z.of_nat D <= days_in_month (Z.of_nat Y) (Z.of_nat M))%Z ->
  h < 24 -> m < 60 -> s < 60 ->
  zone = ""
  \/ (exists tz,
        zone = tz ++ " " /\ 2 <= String.length tz <= 5
        /\ any (fun c => negb (isupper c)) tz = false) ->
  _parse_header_date (ctime wd mo D h m s zone Y) = Ok (naive Y M D h m s)
  /\ forall rest,
       scan_header
         (("Date: " ++ ctime wd mo D h m s zone Y ++ Sample.NL) :: rest)
       = Ok (Some (naive Y M D h m s)).
Proof.
  intros Hwd HM Hmo HY HD1 HD Hh Hm Hs Hzone.
  destruct (month_number M mo HM Hmo) as [Hin Hpos].
  assert (HM12 : M <= 12).
  { assert (M - 1 < List.length month_names)
      by (apply nth_error_Some; congruence).
    cbn in H. lia. }
  assert (HD31 : D <= 31).
  { unfold days_in_month in HD.
    repeat match type of HD with context [if ?b then _ else _] =>
             destruct b end; lia. }
  pose proof (Nat.div_mod_eq Y 100) as HYs.
  pose proof (Nat.mod_upper_bound Y 100) as HYlo.
  assert (HYhi : Y / 100 < 100) by (apply Nat.Div0.div_lt_upper_bound; lia).
  destruct (two_digit_split (Y / 100) HYhi) as (Hy3 & Hy2 & EYhi).
  destruct (two_digit_split (Y mod 100)) as (Hy1 & Hy0 & EYlo); [lia|].
  destruct (two_digit_split D) as (Hd1 & Hd0 & ED); [lia|].
  destruct (two_digit_split h) as (Hh1 & Hh0 & Eh); [lia|].
  destruct (two_digit_split m) as (Hn1 & Hn0 & En); [lia|].
  destruct (two_digit_split s) as (Hs1 & Hs0 & Es); [lia|].
  assert (Ec : ctime wd mo D h m s zone Y
               = wd ++ String " " (mo ++ String " "
                   (String (digit_char (D / 10)) (String (digit_char (D mod 10))
                   (String " "
                   (String (digit_char (h / 10)) (String (digit_char (h mod 10))
                   (String ":"
                   (String (digit_char (m / 10)) (String (digit_char (m mod 10))
                   (String ":"
                   (String (digit_char (s / 10)) (String (digit_char (s mod 10))
                   (String " "
                   (zone ++
                    String (digit_char (Y / 100 / 10))
                      (String (digit_char ((Y / 100) mod 10))
                         (String (digit_char (Y mod 100 / 10))
                            (String (digit_char ((Y mod 100) mod 10))
                               "")))))))))))))))))) by reflexivity.
  rewrite Ec. clear Ec.
  set (y3 := Y / 100 / 10) in *. set (y2 := (Y / 100) mod 10) in *.
  set (y1 := Y mod 100 / 10) in *. set (y0 := (Y mod 100) mod 10) in *.
  set (d1 := D / 10) in *. set (d0 := D mod 10) in *.
  set (h1 := h / 10) in *. set (h0 := h mod 10) in *.
  set (n1 := m / 10) in *. set (n0 := m mod 10) in *.
  set (s1 := s / 10) in *. set (s0 := s mod 10) in *.
  assert (EY : 1000 * y3 + 100 * y2 + 10 * y1 + y0 = Y) by lia.
  clearbody y3 y2 y1 y0 d1 d0 h1 h0 n1 n0 s1 s0.
  assert (Edt : naive Y M D h m s
                = {| year := Z.of_nat (1000 * y3 + 100 * y2 + 10 * y1 + y0);
                     month := position (lower mo) a_month;
                     day := Z.of_nat (10 * d1 + d0);
                     hour := Z.of_nat (10 * h1 + h0);
                     minute := Z.of_nat (10 * n1 + n0);
                     second := Z.of_nat (10 * s1 + s0);
                     microsecond := 0 |}).
  { unfold naive. rewrite EY, ED, Eh, En, Es, Hpos. reflexivity. }
  assert (Hv : valid (naive Y M D h m s) = true).
  { unfold valid, naive. cbn [year month day hour minute second microsecond].
    repeat (apply andb_true_intro; split); apply Z.leb_le; lia. }
  rewrite Edt in Hv |- *.
  assert (Hh' : 10 * h1 + h0 < 24) by lia.
  assert (Hn' : 10 * n1 + n0 < 60) by lia.
  assert (Hs' : 10 * s1 + s0 < 60) by lia.
  assert (Hd' : 1 <= 10 * d1 + d0 <= 31) by lia.
  destruct Hzone as [-> | (tz & -> & Hl & Hu)].
  - cbn [append].
    pose proof (written_plain wd mo d1 d0 h1 h0 n1 n0 s1 s0 y3 y2 y1 y0
                  Hwd Hin Hd1 Hd0 Hd' Hh1 Hh0 Hh' Hn1 Hn0 Hn' Hs1 Hs0 Hs'
                  Hy3 Hy2 Hy1 Hy0 Hv) as Hp.
    split; [exact Hp|]. intros rest.
    eapply written_line; try eassumption.
    apply body_strip with (pre := " "); auto.
  - rewrite append_assoc.
    pose proof (written_zone wd mo d1 d0 h1 h0 n1 n0 s1 s0 y3 y2 y1 y0
                  Hwd Hin Hd1 Hd0 Hd' Hh1 Hh0 Hh' Hn1 Hn0 Hn' Hs1 Hs0 Hs'
                  Hy3 Hy2 Hy1 Hy0 Hv tz Hl Hu) as Hp.
    split; [exact Hp|]. intros rest.
    eapply written_line; try eassumption.
    eapply (body_strip_zone wd mo d1 d0 h1 h0 n1 n0 s1 s0 y3 y2 y1 y0);
      eassumption.
Qed.

Lemma header_date_as_written_witness :
  _parse_header_date (ctime "Mon" "Jan" 2 3 4 5 ("CET" ++ " ") 2023)
  = Ok (naive 2023 1 2 3 4 5)
  /\ forall rest,
       scan_header
         (("Date: " ++ ctime "Mon" "Jan" 2 3 4 5 ("CET" ++ " ") 2023
           ++ Sample.NL) :: rest)
       = Ok (Some (naive 2023 1 2 3 4 5)).
Proof.
  apply (header_date_as_written "Mon" "Jan" ("CET" ++ " ") 1 2 3 4 5 2023).
  - left. reflexivity.
  - lia.
  - reflexivity.
  - lia.
  - lia.
  - vm_compute. discriminate.
  - lia.
  - lia.
  - lia.
  - right. exists "CET". split; [reflexivity|]. split; [cbn; lia|].
    reflexivity.
Defined.

(** ** Files of the documented layout *)

(** The search passes over lines without the marker. *)
Lemma find_start_skips (before : list string) (marker wl : string)
  (rest : list string) (i : nat) :
  (forall l, List.In l before -> is_marker l = false) ->
  is_marker marker = true -> starts_with_digit wl = true ->
  find_start i (before ++ marker :: wl :: rest)
  = Ok (Some (i + List.length before)).
Proof.
  revert i. induction before as [|l before IH]; intros i Hb Hm Hd.
  - cbn [app find_start]. rewrite Hm. cbn [index nth_error bind].
    rewrite Hd. cbn [List.length]. rewrite Nat.add_0_r. reflexivity.
  - cbn [app find_start]. rewrite (Hb l (or_introl eq_refl)).
    rewrite IH; [|intros x Hx; apply Hb; right; exact Hx | exact Hm | exact Hd].
    cbn [List.length]. do 2 f_equal. lia.
Qed.

(** A row with a tab whose numbers parse. *)
Lemma parse_row_tab_ok (a b : string) (vs : list PyFloat.float) :
  contains TAB a = false -> _parse_float_row b = Ok vs ->
  parse_row (a ++ String TAB b) = Ok (_parse_row_time a, vs).
Proof.
  intros Ha Hb. unfold parse_row, _split_stamp.
  rewrite contains_app. cbn [contains].
  rewrite Ascii.eqb_refl, orb_true_r, (split1_first _ _ _ Ha). cbn [bind].
  rewrite parse_row_time_strip, split_strip, <- parse_float_row_split, Hb.
  reflexivity.
Qed.

Lemma rows_parse (rows : list (string * string))
  (vals : list (list PyFloat.float)) :
  Forall2 (fun r vs =>
             contains TAB (fst r) = false
             /\ nonblank (fst r ++ String TAB (snd r)) = true
             /\ _parse_float_row (snd r) = Ok vs) rows vals ->
  filter nonblank (map (fun r => fst r ++ String TAB (snd r)) rows)
  = map (fun r => fst r ++ String TAB (snd r)) rows
  /\ exists parsed,
       for_each parse_row (map (fun r => fst r ++ String TAB (snd r)) rows)
       = Ok parsed
       /\ map fst parsed = map (fun r => _parse_row_time (fst r)) rows
       /\ map snd parsed = vals.
Proof.
  induction 1 as [|r vs rows vals (Ha & Hn & Hv) _ (IHf & parsed & IHp & IH1 & IH2)].
  - split; [reflexivity|]. exists []. auto.
  - cbn [map filter]. rewrite Hn, IHf. split; [reflexivity|].
    exists ((_parse_row_time (fst r), vs) :: parsed).
    cbn [for_each]. rewrite (parse_row_tab_ok _ _ _ Ha Hv). cbn [bind].
    rewrite IHp. cbn [bind map fst snd]. rewrite IH1, IH2. auto.
Qed.

Lemma stack_same_length (n : nat) (vals : list (list PyFloat.float)) :
  vals <> [] -> Forall (fun vs => List.length vs = n) vals ->
  Np.stack vals = Ok vals.
Proof.
  intros Hne HF. unfold Np.stack. destruct vals as [|r rs]; [congruence|].
  inversion HF as [|? ? Hr Hrs]; subst.
  assert (E : forallb (fun x => List.length x =? List.length r) rs = true).
  { apply forallb_forall. intros x Hx. apply Nat.eqb_eq.
    rewrite Forall_forall in Hrs. exact (Hrs x Hx). }
  rewrite E. reflexivity.
Qed.

(** X24. A file of the documented layout is read. The layout: fewer
    than 40 lines without a date, a [Date:] line whose date parses and,
    with the milliseconds of the file name if there are any, is one that
    [timestamp()] places ([ts]; the platform refuses a date on
    0001-01-01), lines without the marker, a marker line, a wavelength
    line that starts with a digit and whose tokens are numbers, and at
    least one non-blank row [stamp TAB numbers], every row with the same
    count of numbers. [read] returns; the timestamp is [ts]; the
    wavelengths and the intensity matrix are the numbers of the file; the
    relative times are the row times minus the first. *)
Theorem read_accepts_well_formed_file
  (mktime : datetime -> Z + time_error)
  (before : list string) (date_line : string)
  (mid : list string) (marker wl : string) (rows : list (string * string))
  (path_to_file : string) (name : pyval) (cls : py_class)
  (d : string) (dt : datetime) (ts : PyFloat.float)
  (wls : list PyFloat.float) (vals : list (list PyFloat.float)) (n : nat) :
  List.length before < 40 ->
  (forall l, List.In l before -> startswith (lower l) "date:" = false) ->
  startswith (lower date_line) "date:" = true ->
  after_colon date_line = Ok d -> _parse_header_date d = Ok dt ->
  timestamp mktime
    (match _parse_filename_time
             (PathLib.str (PathLib.of_str path_to_file)) with
     | Some ms => replace_microsecond dt (ms * 1000)
     | None => dt
     end) = Ok ts ->
  (forall l, List.In l (before ++ date_line :: mid) -> is_marker l = false) ->
  is_marker marker = true ->
  starts_with_digit wl = true -> _parse_float_row wl = Ok wls ->
  rows <> [] ->
  Forall2 (fun r vs =>
             contains TAB (fst r) = false
             /\ nonblank (fst r ++ String TAB (snd r)) = true
             /\ _parse_float_row (snd r) = Ok vs) rows vals ->
  Forall (fun vs => List.length vs = n) vals ->
  exists o,
    read mktime
      (before ++ date_line :: mid ++ marker :: wl
       :: map (fun r => fst r ++ String TAB (snd r)) rows)
      path_to_file name cls = Ok o
    /\ tstamp o = ts
    /\ ts_tstamp (fst (fd_axes_series (field o))) = ts
    /\ ds_data (snd (fd_axes_series (field o))) = wls
    /\ fd_data (field o) = vals
    /\ ts_data (fst (fd_axes_series (field o)))
       = map (fun r => PyFloat.sub (_parse_row_time (fst r))
                         (_parse_row_time (fst (hd ("", "") rows)))) rows.
Proof.
  intros Hlen Hb Hdl Hac Hd Hts Hnm Hm Hdg Hw Hne HF Hn.
  destruct (rows_parse rows vals HF) as (Hfilter & parsed & Hp & Hp1 & Hp2).
  set (head := (before ++ date_line :: mid)%list) in *.
  set (data := map (fun r => fst r ++ String TAB (snd r)) rows) in *.
  assert (El : (before ++ date_line :: mid ++ marker :: wl :: data
                = head ++ marker :: wl :: data)%list).
  { unfold head. rewrite <- app_assoc. reflexivity. }
  rewrite El.
  assert (Hs : scan_header (firstn 40 (head ++ marker :: wl :: data))
               = Ok (Some dt)).
  { unfold head. rewrite <- app_assoc. cbn [app].
    rewrite (scan_header_first 40 before date_line _ Hlen Hb Hdl), Hac.
    cbn [bind]. rewrite Hd. reflexivity. }
  assert (Hf : find_start 0 (head ++ marker :: wl :: data)
               = Ok (Some (List.length head)))
    by exact (find_start_skips head marker wl data 0 Hnm Hm Hdg).
  assert (Hi : index (head ++ marker :: wl :: data) (List.length head + 1)
               = Ok wl).
  { unfold index. rewrite nth_error_app2 by lia.
    replace (List.length head + 1 - List.length head) with 1 by lia.
    reflexivity. }
  assert (Hk : skipn (List.length head + 2) (head ++ marker :: wl :: data)
               = data).
  { rewrite skipn_app, skipn_all2 by lia.
    replace (List.length head + 2 - List.length head) with 2 by lia.
    reflexivity. }
  assert (Hvals : vals <> []).
  { intros ->. inversion HF; subst. congruence. }
  assert (Ht0 : index (map fst parsed) 0
                = Ok (_parse_row_time (fst (hd ("", "") rows)))).
  { rewrite Hp1. destruct rows as [|r rows]; [congruence|]. reflexivity. }
  assert (Hre : refine (_parse_filename_time
                          (PathLib.str (PathLib.of_str path_to_file)))
                       (Some dt)
                = Some (match _parse_filename_time
                                (PathLib.str (PathLib.of_str path_to_file))
                        with
                        | Some ms => replace_microsecond dt (ms * 1000)
                        | None => dt
                        end)).
  { unfold refine. destruct (_parse_filename_time _); reflexivity. }
  eexists. split.
  - unfold read. rewrite Hs. cbn [bind]. rewrite Hre, Hts. cbn [bind].
    rewrite Hf. cbn [bind]. rewrite Hi. cbn [bind].
    rewrite parse_float_row_strip, Hw. cbn [bind].
    rewrite <- parse_float_row_strip in Hw.
    rewrite (parse_float_row_nonempty _ Hdg _ Hw).
    rewrite Hk, Hfilter, Hp. cbn [bind].
    rewrite Hp2, (stack_same_length n vals Hvals Hn). cbn [bind].
    rewrite Ht0. cbn [bind]. reflexivity.
  - cbn [tstamp field fd_axes_series fd_data ts_data ts_tstamp ds_data
         fst snd].
    repeat (split; [reflexivity|]).
    unfold Np.subtract_scalar. rewrite Hp1, map_map. reflexivity.
Qed.

Lemma read_accepts_well_formed_file_witness :
  exists o,
    read utc_mktime Sample.lines Sample.path PyNone OpticalSpectrumSeries
    = Ok o
    /\ Ok (tstamp o)
       = timestamp utc_mktime (replace_microsecond Sample.header_dt 946000)
    /\ List.length (ds_data (snd (fd_axes_series (field o)))) = 3
    /\ List.length (fd_data (field o)) = 2.
Proof.
  destruct (read_accepts_well_formed_file utc_mktime
              ["Data from spectrometer Node" ++ Sample.NL]
              ("Date: Mon Jan 02 03:04:05 2023" ++ Sample.NL) []
              (">>>>>Begin Spectral Data<<<<<" ++ Sample.NL)
              ("400.0 400.5 401.0" ++ Sample.NL)
              [("00:00:00.000", "1.0 2.0 3.0" ++ Sample.NL);
               ("00:00:01.500", "1.1 2.1 3.1" ++ Sample.NL)]
              Sample.path PyNone OpticalSpectrumSeries
              "Mon Jan 02 03:04:05 2023" Sample.header_dt
              (match timestamp utc_mktime
                       (replace_microsecond Sample.header_dt 946000) with
               | Ok t => t
               | Raise _ => PyFloat.nan
               end)
              (match _parse_float_row "400.0 400.5 401.0" with
               | Ok v => v
               | Raise _ => []
               end)
              [match _parse_float_row "1.0 2.0 3.0" with
               | Ok v => v
               | Raise _ => []
               end;
               match _parse_float_row "1.1 2.1 3.1" with
               | Ok v => v
               | Raise _ => []
               end] 3)
    as (o & Ho & Hts & _ & Hds & Hfd & _).
  - cbn. lia.
  - intros l [<- | []]. vm_compute. reflexivity.
  - vm_compute. reflexivity.
  - vm_compute. reflexivity.
  - vm_compute. reflexivity.
  - vm_compute. reflexivity.
  - intros l [<- | [<- | []]]; vm_compute; reflexivity.
  - vm_compute. reflexivity.
  - vm_compute. reflexivity.
  - vm_compute. reflexivity.
  - discriminate.
  - repeat constructor; vm_compute; reflexivity.
  - repeat constructor.
  - exists o. split; [exact Ho|]. split; [rewrite Hts; reflexivity|].
    rewrite Hds, Hfd. split; reflexivity.
Defined.

(** ** The time in the file name *)

Lemma digit_in_digit_class (a : nat) :
  a < 10 -> in_class false CDigit (digit_char a) = true.
Proof. intros H. exact (isdigit_digit_char a H). Qed.

Lemma rep_two_digits {R} (a b : nat) (rest : string) (pos : nat)
  (prev : option ascii) (k : nat -> option ascii -> string -> option R) :
  a < 10 -> b < 10 ->
  rep false CDigit 2 (Some 2) pos prev
    (String (digit_char a) (String (digit_char b) rest)) k
  = k (S (S pos)) (Some (digit_char b)) rest.
Proof.
  intros Ha Hb. cbn [rep more andb option_map pred].
  rewrite !digit_in_digit_class by assumption.
  rewrite rep_done. unfold halt. cbn [Nat.eqb].
  destruct (k _ _ _); reflexivity.
Qed.

Lemma rep_three_digits {R} (a b c : nat) (rest : string) (pos : nat)
  (prev : option ascii) (k : nat -> option ascii -> string -> option R) :
  a < 10 -> b < 10 -> c < 10 ->
  rep false CDigit 3 (Some 3) pos prev
    (String (digit_char a) (String (digit_char b)
       (String (digit_char c) rest))) k
  = k (S (S (S pos))) (Some (digit_char c)) rest.
Proof.
  intros Ha Hb Hc. cbn [rep more andb option_map pred].
  rewrite !digit_in_digit_class by assumption.
  rewrite rep_done. unfold halt. cbn [Nat.eqb].
  destruct (k _ _ _); reflexivity.
Qed.

(** X25. When no underscore stands before it, a time [__HH-MM-SS-mmm]
    in the path gives the milliseconds [mmm]: the three digits after the
    third hyphen, whatever the two-digit numbers before them are (they are
    not checked to be a time) and whatever follows. *)
Theorem filename_milliseconds_extracted (pre post : string)
  (a b c ms : nat) :
  contains "_" pre = false ->
  a < 100 -> b < 100 -> c < 100 -> ms < 1000 ->
  _parse_filename_time
    (pre ++ "__" ++ two_digits a ++ "-" ++ two_digits b ++ "-"
     ++ two_digits c ++ "-" ++ three_digits ms ++ post)
  = Some (Z.of_nat ms).
Proof.
  intros Hpre Ha Hb Hc Hms.
  destruct (two_digit_split a Ha) as (Ha1 & Ha0 & _).
  destruct (two_digit_split b Hb) as (Hb1 & Hb0 & _).
  destruct (two_digit_split c Hc) as (Hc1 & Hc0 & _).
  assert (Hm2 : ms / 100 < 10) by (apply Nat.Div0.div_lt_upper_bound; lia).
  pose proof (Nat.div_mod_eq ms 100) as Ems.
  pose proof (Nat.mod_upper_bound ms 100) as Hmlo.
  destruct (two_digit_split (ms mod 100)) as (Hm1 & Hm0 & Em); [lia|].
  unfold three_digits, two_digits. cbn [append].
  set (a1 := a / 10) in *. set (a0 := a mod 10) in *.
  set (b1 := b / 10) in *. set (b0 := b mod 10) in *.
  set (c1 := c / 10) in *. set (c0 := c mod 10) in *.
  set (m2 := ms / 100) in *. set (m1 := ms mod 100 / 10) in *.
  set (m0 := (ms mod 100) mod 10) in *.
  assert (E : 100 * m2 + 10 * m1 + m0 = ms) by lia.
  clearbody a1 a0 b1 b0 c1 c0 m2 m1 m0.
  unfold _parse_filename_time, search.
  match goal with |- context [pre ++ ?t] => set (tail := t) end.
  assert (Hm : forall prev,
             match_at false re_filename_time prev tail
             = Some {| span := 14;
                       captured :=
                         [("4", String (digit_char m2) (String (digit_char m1)
                                   (String (digit_char m0) "")));
                          ("3", String (digit_char c1)
                                  (String (digit_char c0) ""));
                          ("2", String (digit_char b1)
                                  (String (digit_char b0) ""));
                          ("1", String (digit_char a1)
                                  (String (digit_char a0) ""))] |}).
  { intros prev. unfold tail, match_at, re_filename_time.
    cbn [cat lit exec]. change (lit_eq false "_" "_") with true. cbn iota.
    rewrite rep_two_digits by assumption.
    change (lit_eq false "-" "-") with true. cbn iota.
    rewrite rep_two_digits by assumption.
    change (lit_eq false "-" "-") with true. cbn iota.
    rewrite rep_two_digits by assumption.
    change (lit_eq false "-" "-") with true. cbn iota.
    rewrite rep_three_digits by assumption. reflexivity. }
  assert (Hint : int (String (digit_char m2) (String (digit_char m1)
                        (String (digit_char m0) ""))) = Z.of_nat ms).
  { unfold int. cbn [int_acc].
    rewrite !digit_val_digit_char by assumption. lia. }
  assert (Ht : exists x t, tail = String x t) by (unfold tail; eauto).
  clearbody tail.
  generalize (@None ascii) as prev.
  induction pre as [|x pre IH]; intros prev.
  - cbn [append]. destruct Ht as (x & t & ->).
    cbn [search_from]. rewrite Hm. cbn [captured group String.eqb Ascii.eqb
                                           Bool.eqb option_map].
    rewrite Hint. reflexivity.
  - cbn [contains] in Hpre. apply orb_false_elim in Hpre.
    destruct Hpre as [Hx Hpre].
    cbn [append search_from].
    assert (Hn : match_at false re_filename_time prev
                   (String x (pre ++ tail)) = None).
    { unfold match_at, re_filename_time. cbn [cat lit exec].
      unfold lit_eq. rewrite Ascii.eqb_sym, Hx. reflexivity. }
    rewrite Hn. apply IH. exact Hpre.
Qed.

Lemma filename_milliseconds_extracted_witness :
  _parse_filename_time "/data/run__99-99-99-0071.txt" = Some 7%Z.
Proof.
  apply (filename_milliseconds_extracted "/data/run" "1.txt" 99 99 99 7);
    [reflexivity | lia | lia | lia | lia].
Defined.
